(** * ADAS area-detection post-processing: [engine/results.py]

    A shallow embedding of the [Boxes], [Probs], [Keypoints], [Masks] and
    [Results] code ([plot], [verbose], [save_txt], [save_crop], [tojson]) of
    [src/ultralytics-ver2/engine/results.py], the properties of it that the
    specification relies on, and further properties of the code itself.

    Conventions of the embedding.
    - Tensor entries (Python/torch floats) are exact rationals [Q]; the
      arithmetic is the exact one, rounding of the machine floats is not
      modelled.  Pixel coordinates handed to OpenCV are integers [Z].
    - A Python [dict] is a [gmap]; a missing key is a [KeyError], which the
      embedding reports as [None] in the error monad [M].
    - The frame buffer is the chronological log of the drawing calls made on
      it ([Event]); the external collaborators ([Annotator.box_label],
      [colors], [ops.xyxy2xywh], [ops.masks2segments], [ops.scale_coords])
      are parameters of the development.
    - [plot] reads the entries of the stored tensors only and is modelled on
      [Results]; the export methods also depend on the type of the data
      ([torch.Tensor] or [np.ndarray]) and on the [Keypoints] object, and
      are modelled on [Prediction], of which [as_results] is the part
      [plot] reads.  Their results are the structured values handed to
      [json.dumps], ['%g'] and the f-strings; formatting is not modelled. *)

From Stdlib Require Import ZArith QArith Qabs List Bool Lia String Sorted.
From stdpp Require Import base option list gmap strings sorting.
Import ListNotations.

Local Open Scope Z_scope.

(** ** Python numerics *)

(** [int(x)] on a float: truncation toward zero. *)
Definition py_int (x : Q) : Z := Z.quot (Qnum x) (Zpos (Qden x)).

(** [round(x)] on a float: nearest integer, ties to the even one. *)
Definition py_round (x : Q) : Z :=
  let f := (Qnum x / Zpos (Qden x)) in
  let r2 := 2 * (Qnum x mod Zpos (Qden x)) in
  match r2 ?= Zpos (Qden x) with
  | Lt => f
  | Gt => f + 1
  | Eq => if Z.even f then f else f + 1
  end.

(** Negative indexing [row[-k]] of a sequence (0 stands for an index error,
    which a well-shaped detection row never raises). *)
Definition idx_neg (k : nat) (row : list Q) : Q :=
  nth (length row - k) row 0%Q.

(** ** [Boxes] *)

(** The buffers [Boxes] is documented to receive: one row, or a matrix of
    rows.  A matrix carries its row width, which an empty matrix has too. *)
Inductive NDArray : Type :=
| Arr1 (row : list Q)
| Arr2 (ncols : nat) (rows : list (list Q)).

Definition ndim (a : NDArray) : nat :=
  match a with Arr1 _ => 1 | Arr2 _ _ => 2 end.

(** [a.shape[-1]] *)
Definition shape_last (a : NDArray) : nat :=
  match a with Arr1 row => length row | Arr2 n _ => n end.

(** [a[None, :]] on a one-dimensional buffer. *)
Definition promote (a : NDArray) : NDArray :=
  match a with Arr1 row => Arr2 (length row) [row] | Arr2 _ _ => a end.

Definition arr_rows (a : NDArray) : list (list Q) :=
  match a with Arr1 row => [row] | Arr2 _ rows => rows end.

Record Boxes : Type := mkBoxes {
  data : NDArray;
  is_track : bool;
  orig_shape : Z * Z   (* (height, width) *)
}.

(** [Boxes.__init__]; [None] is the [AssertionError]. *)
Definition Boxes_init (boxes : NDArray) (orig_shape : Z * Z) : option Boxes :=
  let boxes := if Nat.eqb (ndim boxes) 1 then promote boxes else boxes in
  let n := shape_last boxes in
  if Nat.eqb n 6 || Nat.eqb n 7
  then Some (mkBoxes boxes (Nat.eqb n 7) orig_shape)
  else None.

(** [len(boxes)] and [boxes[i]] of [BaseTensor]. *)
Definition Boxes_len (b : Boxes) : nat := length (arr_rows (data b)).

Definition Boxes_getitem (b : Boxes) (i : nat) : option Boxes :=
  match arr_rows (data b) !! i with
  | Some row => Boxes_init (Arr1 row) (orig_shape b)
  | None => None
  end.

(** [data[:, :4]] *)
Definition Boxes_xyxy (b : Boxes) : list (list Q) := map (take 4) (arr_rows (data b)).

(** [data[:, -2]], [data[:, -1]] *)
Definition Boxes_conf (b : Boxes) : list Q := map (idx_neg 2) (arr_rows (data b)).
Definition Boxes_cls (b : Boxes) : list Q := map (idx_neg 1) (arr_rows (data b)).

(** [data[:, -3] if is_track else None] *)
Definition Boxes_id (b : Boxes) : option (list Q) :=
  if is_track b then Some (map (idx_neg 3) (arr_rows (data b))) else None.

(** [t[..., cols] /= d] and its inverse [t[..., cols] *= d], row by row. *)
Definition div_cols (cols : list nat) (d : Z) (row : list Q) : list Q :=
  imap (fun j x => if bool_decide (j ∈ cols) then (x / inject_Z d)%Q else x) row.

Definition mul_cols (cols : list nat) (d : Z) (row : list Q) : list Q :=
  imap (fun j x => if bool_decide (j ∈ cols) then (x * inject_Z d)%Q else x) row.

(** [Boxes.xyxyn] *)
Definition Boxes_xyxyn (b : Boxes) : list (list Q) :=
  map (fun r => div_cols [1; 3]%nat (fst (orig_shape b))
                  (div_cols [0; 2]%nat (snd (orig_shape b)) r))
      (Boxes_xyxy b).

Section Ops.
(** [ops.xyxy2xywh] lives in [ultralytics/utils/ops.py]; it returns a fresh
    tensor of the same shape. *)
Variable xyxy2xywh : list (list Q) -> list (list Q).

(** [Boxes.xywh] *)
Definition Boxes_xywh (b : Boxes) : list (list Q) := xyxy2xywh (Boxes_xyxy b).

(** [Boxes.xywhn] *)
Definition Boxes_xywhn (b : Boxes) : list (list Q) :=
  map (fun r => div_cols [1; 3]%nat (fst (orig_shape b))
                  (div_cols [0; 2]%nat (snd (orig_shape b)) r))
      (xyxy2xywh (Boxes_xyxy b)).
End Ops.

(** Scaling a normalized view back by the frame size: x by the width, y by
    the height. *)
Definition scale_back (shape : Z * Z) (t : list (list Q)) : list (list Q) :=
  map (fun r => mul_cols [1; 3]%nat (fst shape) (mul_cols [0; 2]%nat (snd shape) r)) t.

(** Entry-wise equality of rational tensors. *)
Definition tensor_eq (s t : list (list Q)) : Prop := Forall2 (Forall2 Qeq) s t.

(** ** [Probs] *)

Record Probs : Type := mkProbs { probs_data : list Q }.

(** [argsort]: the indices of [v] by ascending entry.  NumPy and torch leave
    the order of equal entries to the sorting algorithm; the insertion sort
    here keeps them in index order. *)
Fixpoint insert_key (x : nat * Q) (l : list (nat * Q)) : list (nat * Q) :=
  match l with
  | [] => [x]
  | y :: l' => if Qle_bool (snd x) (snd y) then x :: l else y :: insert_key x l'
  end.

Definition sort_keys (l : list (nat * Q)) : list (nat * Q) :=
  foldr insert_key [] l.

Definition argsort (v : list Q) : list nat :=
  map fst (sort_keys (imap (fun i x => (i, x)) v)).

(** [Probs.top5]: [(-self.data).argsort(0)[:5].tolist()] *)
Definition Probs_top5 (p : Probs) : list nat :=
  take 5 (argsort (map Qopp (probs_data p))).

(** The probability of class [j], 0 outside the vector. *)
Definition prob_at (p : Probs) (j : nat) : Q := nth j (probs_data p) 0%Q.

(** ** The frame, the landmarks and the external collaborators *)

(** A landmark rectangle, the 4-tuple [(x1, y1, x2, y2)] of [box_label]. *)
Record Rect : Type := mkRect { c0 : Z; c1 : Z; c2 : Z; c3 : Z }.

(** The absent sentinel [(9999,9999,9999,9999)]. *)
Definition ABSENT : Rect := mkRect 9999 9999 9999 9999.

(** The test [pt[0] != 9999] the code applies to a rectangle. *)
Definition supplied (r : Rect) : bool := negb (c0 r =? 9999).

Inductive Kind : Type := VLA | DCA | VPA | DUA_d | DUA_m | DUA_u | DUA_ut.

Definition all_kinds : list Kind := [VLA; DCA; VPA; DUA_d; DUA_m; DUA_u; DUA_ut].

(** The seven rectangles [box_label] returns, and the seven [Final_*_pt]
    variables of [plot]. *)
Record Landmarks : Type := mkLandmarks {
  VLA_pt : Rect; DCA_pt : Rect; VPA_pt : Rect;
  DUA_d_pt : Rect; DUA_m_pt : Rect; DUA_u_pt : Rect; DUA_ut_pt : Rect
}.

Definition slot (k : Kind) (l : Landmarks) : Rect :=
  match k with
  | VLA => VLA_pt l | DCA => DCA_pt l | VPA => VPA_pt l
  | DUA_d => DUA_d_pt l | DUA_m => DUA_m_pt l
  | DUA_u => DUA_u_pt l | DUA_ut => DUA_ut_pt l
  end.

(** The frame buffer handle [im]; the code reads its shape only. *)
Record Image : Type := mkImage { im_h : Z; im_w : Z }.

Definition Point : Type := (Z * Z)%type.
Definition Color : Type := list Z.

(** The text of a box label: [f'id:{id} '] if tracked, the class name, and
    [f' {conf:.2f}'] if the confidence is shown. *)
Record Label : Type := mkLabel {
  lb_id : option Z; lb_name : string; lb_conf : option Q
}.

(** [(p1, p2, p3, p4, p5)], each the pair [(l_p, r_p)] of two optional points. *)
Definition KeyPoints : Type := list (option Point * option Point).

(** What has been drawn on the frame, one entry per call, in call order. *)
Inductive Event : Type :=
| Masks_call (masks : list (list (list Q))) (cols : list Color)
| BoxLabel_call (box : list Q) (label : option Label) (color : Color)
| FCWS_call (box : list Q) (kps : KeyPoints) (row : Z)
            (label : option Label) (color : Color)
| CvLine (im : Image) (p q : Point) (color : Color) (thickness : Z)
| CvPutText (im : Image) (text : string) (org : Point) (color : Color)
            (thickness : Z)
| Text_call (xy : Z * Z) (lines : list ((string + nat) * Q))
| Kpts_call (k : list (list Q)).

(** The process state a call of [plot] runs in: the module-level
    [HISTORY_VLA_pt] and the frame being drawn. *)
Record World : Type := mkWorld {
  HISTORY_VLA_pt : option Rect;
  canvas : list Event
}.

(** ** The state and error monad of [plot] *)

Definition M (A : Type) : Type := World -> option (A * World).

Definition ret {A} (a : A) : M A := fun w => Some (a, w).

Definition bind {A B} (m : M A) (f : A -> M B) : M B :=
  fun w => match m w with Some (a, w') => f a w' | None => None end.

Notation "x <- m ;; k" := (bind m (fun x => k))
  (at level 100, m at next level, right associativity).
Notation "m ;;; k" := (bind m (fun _ => k))
  (at level 100, right associativity).

(** An exception; the state a raising call leaves behind is not kept. *)
Definition raise {A} : M A := fun _ => None.

Definition lift_opt {A} (o : option A) : M A :=
  match o with Some a => ret a | None => raise end.

Definition emit (e : Event) : M unit :=
  fun w => Some (tt, mkWorld (HISTORY_VLA_pt w) (canvas w ++ [e])).

Definition set_history (r : Rect) : M unit :=
  fun w => Some (tt, mkWorld (Some r) (canvas w)).

Definition get_history : M (option Rect) :=
  fun w => Some (HISTORY_VLA_pt w, w).

(** [for x in xs: body], the loop variables threaded through as [s]. *)
Fixpoint for_each {A S} (xs : list A) (body : S -> A -> M S) (s : S) : M S :=
  match xs with
  | [] => ret s
  | x :: xs' => s' <- body s x ;; for_each xs' body s'
  end.

(** [when c: m] *)
Definition when (c : bool) (m : M unit) : M unit := if c then m else ret tt.

Fixpoint map_M {A B} (f : A -> M B) (xs : list A) : M (list B) :=
  match xs with
  | [] => ret []
  | x :: xs' => y <- f x ;; ys <- map_M f xs' ;; ret (y :: ys)
  end.

(** ** [Results] *)

Record Results : Type := mkResults {
  res_orig_shape : Z * Z;                    (* orig_img.shape[:2] *)
  boxes : option Boxes;
  masks : option (list (list (list Q)));     (* Masks.data *)
  probs : option Probs;
  keypoints : option (list (list (list Q))); (* Keypoints.data *)
  names : gmap Z string
}.

(** The values the variable [conf] of [plot] takes: the flag it is called
    with, then [float(d.conf)] or [None]. *)
Inductive PyVal : Type := PyBool (b : bool) | PyFloat (q : Q) | PyNone.

Definition truthy (v : PyVal) : bool :=
  match v with
  | PyBool b => b
  | PyFloat q => negb (Qeq_bool q 0)
  | PyNone => false
  end.

(** [int(t)], [float(t)], [t.item()] of a one-element tensor. *)
Definition item (v : list Q) : option Q :=
  match v with [x] => Some x | _ => None end.

(** [t.squeeze()] of a one-row matrix: the row. *)
Definition squeeze (t : list (list Q)) : list Q := concat t.

(** [bool(pred_boxes)]: not [None] and of positive length. *)
Definition nonempty (b : option Boxes) : bool :=
  match b with Some b => negb (Nat.eqb (Boxes_len b) 0) | None => false end.

(** [reversed(pred_boxes)]: [pred_boxes[i]] for [i] from [len - 1] down to 0. *)
Definition Boxes_reversed (b : Boxes) : M (list Boxes) :=
  map_M (fun i => lift_opt (Boxes_getitem b i)) (rev (seq 0 (Boxes_len b))).

(** The per-rectangle overwrite of lines 282-296, without the history. *)
Definition update_finals (F L : Landmarks) : Landmarks :=
  mkLandmarks
    (if supplied (VLA_pt L) then VLA_pt L else VLA_pt F)
    (if supplied (DCA_pt L) then DCA_pt L else DCA_pt F)
    (if supplied (VPA_pt L) then VPA_pt L else VPA_pt F)
    (if supplied (DUA_d_pt L) then DUA_d_pt L else DUA_d_pt F)
    (if supplied (DUA_m_pt L) then DUA_m_pt L else DUA_m_pt F)
    (if supplied (DUA_u_pt L) then DUA_u_pt L else DUA_u_pt F)
    (if supplied (DUA_ut_pt L) then DUA_ut_pt L else DUA_ut_pt F).

Definition no_landmarks : Landmarks :=
  mkLandmarks ABSENT ABSENT ABSENT ABSENT ABSENT ABSENT ABSENT.

(** Lines 314-332: [(l_p, r_p)] of a resolved rectangle. *)
Definition corners (r : Rect) : option Point * option Point :=
  if supplied r then (Some (c0 r, c1 r), Some (c2 r, c3 r)) else (None, None).

(** Lines 336-337. *)
Definition vanish_point (F : Landmarks) : option Point :=
  if supplied (VLA_pt F) && supplied (VPA_pt F)
  then Some (py_int (inject_Z (c0 (VPA_pt F) + c2 (VPA_pt F)) / 2), c1 (VLA_pt F))
  else None.

(** Line 354. *)
Definition ADAS_Key_Points (F : Landmarks) : KeyPoints :=
  [corners (DCA_pt F); corners (DUA_d_pt F); corners (DUA_m_pt F);
   corners (DUA_u_pt F); corners (DUA_ut_pt F)].

(** [m_p = (int((pt[0]+pt[2])/2.0), pt[3])] *)
Definition middle (r : Rect) : Point :=
  (py_int (inject_Z (c0 r + c2 r) / 2), c3 r).

Definition DRAW_MIDDLE_LINE : bool := true.
Definition DRAW_LEFT_LINE : bool := true.
Definition DRAW_RIGHT_LINE : bool := true.
Definition DRAW_CENTER_LINE : bool := true.
Definition DRAW_LDWS : bool := true.
Definition DRAW_VANISH_LINE : bool := true.
Definition DRAW_VANISH_POINT : bool := false.

(** [cv2.line(im, p, q, color, thickness)]; OpenCV rejects [im = None]. *)
Definition cv2_line (im : option Image) (p q : Point) (color : Color)
    (thickness : Z) : M unit :=
  match im with
  | Some i => emit (CvLine i p q color thickness)
  | None => raise
  end.

Definition cv2_putText (im : option Image) (text : string) (org : Point)
    (color : Color) (thickness : Z) : M unit :=
  match im with
  | Some i => emit (CvPutText i text org color thickness)
  | None => raise
  end.

(** Lines 472-475: the departure test on the two corners of [p1]. *)
Definition LD_TH (l_p1 r_p1 : Point) : Z :=
  py_int (inject_Z (Z.abs (fst r_p1 - fst l_p1)) / (7 # 2)).   (* / 3.5 *)

Definition driver_x (l_p1 r_p1 : Point) : Z :=
  py_int (inject_Z (fst l_p1 + fst r_p1) / 2).

Definition departure_distance (l_p1 r_p1 : Point) (w : Z) : Z :=
  Z.abs (driver_x l_p1 r_p1 - py_int (inject_Z w / 2)).

Definition departs (l_p1 r_p1 : Point) (w : Z) : bool :=
  LD_TH l_p1 r_p1 <? departure_distance l_p1 r_p1 w.

(** ** [Results.plot] *)

Section Plot.
(** [colors(c, True)] of [ultralytics.utils.plotting]. *)
Variable colors : Z -> Color.

(** What [Annotator.box_label] returns, given what has been drawn so far
    and its arguments: the seven candidate rectangles and [im]. *)
Variable box_label :
  list Event -> list Q -> option Label -> Color -> Landmarks * Image.

Definition call_box_label (box : list Q) (label : option Label)
    (color : Color) : M (Landmarks * Image) :=
  fun w =>
    Some (box_label (canvas w) box label color,
          mkWorld (HISTORY_VLA_pt w)
                  (canvas w ++ [BoxLabel_call box label color])).

(** Lines 275-277 (and 357-359): class, confidence and label of [d]. *)
Definition det_label (names : gmap Z string) (labels : bool)
    (conf : PyVal) (d : Boxes) : M (Z * PyVal * option Label) :=
  cq <- lift_opt (item (Boxes_cls d)) ;;
  let c := py_int cq in
  conf <- (if truthy conf
           then x <- lift_opt (item (Boxes_conf d)) ;; ret (PyFloat x)
           else ret PyNone) ;;
  id <- match Boxes_id d with
        | None => ret None
        | Some v => x <- lift_opt (item v) ;; ret (Some (py_int x))
        end ;;
  name <- lift_opt (names !! c) ;;
  let label :=
    if labels
    then Some (mkLabel id name
                 (match conf with
                  | PyFloat q => if truthy conf then Some q else None
                  | _ => None
                  end))
    else None in
  ret (c, conf, label).

(** Lines 275-280: the render call for [d]. *)
Definition render (names : gmap Z string) (labels : bool) (conf : PyVal)
    (d : Boxes) : M (Landmarks * Image * PyVal) :=
  x <- det_label names labels conf d ;;
  let '(c, conf, label) := x in
  y <- call_box_label (squeeze (Boxes_xyxy d)) label (colors c) ;;
  let '(L, im) := y in
  ret (L, im, conf).

(** Lines 282-296: the overwrites. *)
Definition overwrite (Final L : Landmarks) : M Landmarks :=
  when (supplied (VLA_pt L)) (set_history (VLA_pt L)) ;;;
  ret (update_finals Final L).

(** Lines 275-296: the body of the resolver loop. *)
Definition resolve_body (names : gmap Z string) (labels : bool)
    (s : Landmarks * option Image * PyVal) (d : Boxes)
    : M (Landmarks * option Image * PyVal) :=
  let '(Final, _, conf) := s in
  x <- render names labels conf d ;;
  let '(L, im, conf) := x in
  Final <- overwrite Final L ;;
  ret (Final, Some im, conf).

(** Lines 262-296. *)
Definition resolve_pass (self : Results) (conf labels show_boxes : bool)
    : M (Landmarks * option Image * PyVal) :=
  let init := (no_landmarks, None, PyBool conf) in
  match boxes self with
  | Some pred_boxes =>
      if nonempty (boxes self) && show_boxes
      then ds <- Boxes_reversed pred_boxes ;;
           for_each ds (resolve_body (names self) labels) init
      else ret init
  | None => ret init
  end.

(** Lines 357-361: the body of the FCW loop. *)
Definition fcws_body (names : gmap Z string) (labels : bool)
    (kps : KeyPoints) (conf : PyVal) (d : Boxes) : M PyVal :=
  x <- det_label names labels conf d ;;
  let '(c, conf, label) := x in
  h <- get_history ;;
  match h with
  | Some hist =>
      emit (FCWS_call (squeeze (Boxes_xyxy d)) kps (c1 hist) label (colors c))
  | None => ret tt
  end ;;;
  ret conf.

(** Lines 355-361. *)
Definition fcws_pass (self : Results) (labels show_boxes : bool)
    (kps : KeyPoints) (conf : PyVal) : M PyVal :=
  match boxes self with
  | Some pred_boxes =>
      if nonempty (boxes self) && show_boxes
      then ds <- Boxes_reversed pred_boxes ;;
           for_each ds (fcws_body (names self) labels kps) conf
      else ret conf
  | None => ret conf
  end.

(** Lines 381-413: one left segment with its middle segment. *)
Definition left_middle (im : option Image) (a b : Rect) : M unit :=
  match fst (corners a), fst (corners b) with
  | Some l_pa, Some l_pb =>
      when DRAW_LEFT_LINE (cv2_line im l_pa l_pb [127; 255; 0] 2) ;;;
      when DRAW_MIDDLE_LINE (cv2_line im (middle a) (middle b) [255; 127] 2)
  | _, _ => ret tt
  end.

(** Lines 443-450: one right segment. *)
Definition right_segment (im : option Image) (a b : Rect) : M unit :=
  match snd (corners a), snd (corners b) with
  | Some r_pa, Some r_pb => cv2_line im r_pa r_pb [0; 127; 255] 2
  | _, _ => ret tt
  end.

(** Lines 415-432: the left and middle lines to the vanishing point. *)
Definition left_middle_vp (im : option Image) (F : Landmarks) : M unit :=
  match fst (corners (DUA_ut_pt F)), vanish_point F, fst (corners (DUA_u_pt F)) with
  | Some l_p5, Some vp, _ =>
      when DRAW_LEFT_LINE (cv2_line im l_p5 vp [127; 255; 0] 1) ;;;
      when DRAW_MIDDLE_LINE (cv2_line im (middle (DUA_ut_pt F)) vp [255; 127] 1)
  | None, Some vp, Some l_p4 =>
      when DRAW_LEFT_LINE (cv2_line im l_p4 vp [127; 255; 0] 1) ;;;
      when DRAW_MIDDLE_LINE (cv2_line im (middle (DUA_u_pt F)) vp [255; 127] 1)
  | _, _, _ => ret tt
  end.

(** Lines 452-455. *)
Definition right_vp (im : option Image) (F : Landmarks) : M unit :=
  match snd (corners (DUA_ut_pt F)), vanish_point F, snd (corners (DUA_u_pt F)) with
  | Some r_p5, Some vp, _ => cv2_line im r_p5 vp [0; 127; 255] 2
  | None, Some vp, Some r_p4 => cv2_line im r_p4 vp [0; 127; 255] 1
  | _, _, _ => ret tt
  end.

(** Lines 363-455: vanish line, left, middle and right polylines. *)
Definition draw_corridor (im : option Image) (F : Landmarks) : M unit :=
  when DRAW_VANISH_LINE
    (match corners (VLA_pt F) with
     | (Some l_vl, Some r_vl) => cv2_line im l_vl r_vl [255; 0; 200] 1
     | _ => ret tt
     end) ;;;
  left_middle im (DCA_pt F) (DUA_d_pt F) ;;;
  left_middle im (DUA_d_pt F) (DUA_m_pt F) ;;;
  left_middle im (DUA_m_pt F) (DUA_u_pt F) ;;;
  left_middle im (DUA_u_pt F) (DUA_ut_pt F) ;;;
  when DRAW_VANISH_POINT (left_middle_vp im F) ;;;
  when DRAW_RIGHT_LINE
    (right_segment im (DCA_pt F) (DUA_d_pt F) ;;;
     right_segment im (DUA_d_pt F) (DUA_m_pt F) ;;;
     right_segment im (DUA_m_pt F) (DUA_u_pt F) ;;;
     right_segment im (DUA_u_pt F) (DUA_ut_pt F)) ;;;
  when DRAW_VANISH_POINT (right_vp im F).

(** Lines 456-465: the center line, on the frame of shape [(h, w)]. *)
Definition center_line (im : option Image) (h w : Z) : M unit :=
  let c_x := py_int (inject_Z w / 2) in
  let c_y1 := py_int (inject_Z h * (80 # 100)) in
  let c_y2 := py_int (inject_Z h * (99 # 100)) in
  cv2_line im (c_x, c_y1) (c_x, c_y2) [255; 255; 0] 2.

(** Lines 469-477: the departure warning. *)
Definition draw_LDWS (im : option Image) (h w : Z) (F : Landmarks) : M unit :=
  match corners (DCA_pt F) with
  | (Some l_p1, Some r_p1) =>
      when (departs l_p1 r_p1 w)
        (cv2_putText im "DEPARTURE WARNING !"
           (py_int (inject_Z w / 8), py_int (inject_Z h / 4)) [0; 0; 255] 4)
  | _ => ret tt
  end.

(** Lines 456-477. *)
Definition draw_center_LDWS (im : option Image) (F : Landmarks) : M unit :=
  match im with
  | Some i =>
      let h := im_h i in
      let w := im_w i in
      when DRAW_CENTER_LINE (center_line im h w) ;;;
      when DRAW_LDWS (draw_LDWS im h w F)
  | None => ret tt
  end.

(** Lines 254-260: [annotator.masks]. *)
Definition plot_masks (self : Results) (show_masks : bool) : M unit :=
  match masks self with
  | Some pred_masks =>
      when (negb (Nat.eqb (length pred_masks) 0) && show_masks)
        (let idx :=
           match boxes self with
           | Some pred_boxes =>
               if nonempty (boxes self)
               then map py_int (Boxes_cls pred_boxes)
               else map Z.of_nat (seq 0 (length pred_masks))
           | None => map Z.of_nat (seq 0 (length pred_masks))
           end in
         emit (Masks_call pred_masks (map colors idx)))
  | None => ret tt
  end.

(** Lines 480-483: [annotator.text] with the five best classes. *)
Definition plot_probs (self : Results) (show_probs : bool) : M unit :=
  match probs self with
  | Some pred_probs =>
      when show_probs
        (lines <- map_M (fun j =>
                    tag <- (if bool_decide (names self = ∅)
                            then ret (inr j)
                            else name <- lift_opt (names self !! Z.of_nat j) ;;
                                 ret (inl name)) ;;
                    p <- lift_opt (probs_data pred_probs !! j) ;;
                    ret (tag, p))
                  (Probs_top5 pred_probs) ;;
         let x := py_round (inject_Z (fst (res_orig_shape self)) * (3 # 100)) in
         emit (Text_call (x, x) lines))
  | None => ret tt
  end.

(** Lines 486-488: [annotator.kpts]. *)
Definition plot_kpts (self : Results) : M unit :=
  match keypoints self with
  | Some kdata => for_each (rev kdata) (fun _ k => emit (Kpts_call k)) tt
  | None => ret tt
  end.

(** Lines 245-251: a fresh annotator on a copy of the image. *)
Definition new_annotator : M unit :=
  fun w => Some (tt, mkWorld (HISTORY_VLA_pt w) []).

(** Lines 245-296 of [plot]: up to the end of the resolver loop. *)
Definition plot_resolve (self : Results)
    (conf labels show_boxes show_masks : bool)
    : M (Landmarks * option Image * PyVal) :=
  new_annotator ;;;
  plot_masks self show_masks ;;;
  resolve_pass self conf labels show_boxes.

(** Lines 299-488 of [plot]: everything after the resolver loop. *)
Definition plot_overlay (self : Results) (labels show_boxes show_probs : bool)
    (s : Landmarks * option Image * PyVal) : M unit :=
  let '(Final, im, conf) := s in
  fcws_pass self labels show_boxes (ADAS_Key_Points Final) conf ;;;
  draw_corridor im Final ;;;
  draw_center_LDWS im Final ;;;
  plot_probs self show_probs ;;;
  plot_kpts self.

(** [Results.plot].  The arguments that only reach the drawing back end
    (line width, font, [img], [im_gpu], key-point radius) are left out, and
    so are the segmentation maps, which the code returns as they are.  The
    annotated image is the [canvas] of the final state. *)
Definition Results_plot (self : Results)
    (conf labels show_boxes show_masks show_probs : bool) : M unit :=
  s <- plot_resolve self conf labels show_boxes show_masks ;;
  plot_overlay self labels show_boxes show_probs s.

(** *** The render calls of a pass, for the statements below *)

(** The candidate sets the render calls of a loop over [ds] return, in
    call order. *)
Fixpoint render_all (names : gmap Z string) (labels : bool)
    (ds : list Boxes) (conf : PyVal) : M (list Landmarks) :=
  match ds with
  | [] => ret []
  | d :: ds' =>
      x <- render names labels conf d ;;
      let '(L, _, conf) := x in
      Ls <- render_all names labels ds' conf ;;
      ret (L :: Ls)
  end.

(** The candidate sets of the resolver pass of a frame, listed by the
    original index of the detection: entry [i] is what the render call for
    detection [i] returns.  No call is made when the pass is skipped. *)
Definition pass_candidates (self : Results) (conf labels show_boxes : bool)
    : M (list Landmarks) :=
  match boxes self with
  | Some pred_boxes =>
      if nonempty (boxes self) && show_boxes
      then ds <- Boxes_reversed pred_boxes ;;
           Ls <- render_all (names self) labels ds (PyBool conf) ;;
           ret (rev Ls)
      else ret []
  | None => ret []
  end.

(** The candidate sets of the resolver pass of a call of [plot]. *)
Definition plot_candidates (self : Results)
    (conf labels show_boxes show_masks : bool) : M (list Landmarks) :=
  new_annotator ;;;
  plot_masks self show_masks ;;;
  pass_candidates self conf labels show_boxes.
End Plot.

(** ** Reading the frame *)

Definition is_line (e : Event) : bool :=
  match e with CvLine _ _ _ _ _ => true | _ => false end.

Definition is_putText (e : Event) : bool :=
  match e with CvPutText _ _ _ _ _ => true | _ => false end.

Definition is_FCWS (e : Event) : bool :=
  match e with FCWS_call _ _ _ _ _ => true | _ => false end.

Definition is_box_label (e : Event) : bool :=
  match e with BoxLabel_call _ _ _ => true | _ => false end.

(** The annotator calls that are neither OpenCV drawing nor FCW labels. *)
Definition is_plain (e : Event) : bool :=
  match e with
  | Masks_call _ _ | BoxLabel_call _ _ _ | Text_call _ _ | Kpts_call _ => true
  | _ => false
  end.

(** The events of a frame that satisfy [f], in drawing order. *)
Definition only (f : Event -> bool) (log : list Event) : list Event :=
  List.filter f log.

(** Rectangle, key points and reference row of the FCW label calls. *)
Definition fcws_args (log : list Event) : list (list Q * KeyPoints * Z) :=
  omap (fun e => match e with
                 | FCWS_call box kps row _ _ => Some (box, kps, row)
                 | _ => None
                 end) log.

(** Rectangles of the render calls. *)
Definition box_label_args (log : list Event) : list (list Q) :=
  omap (fun e => match e with
                 | BoxLabel_call box _ _ => Some box
                 | _ => None
                 end) log.

(** ** The overlay in the words of the specification *)

(** The lane key rectangles, near to far: p1 .. p5. *)
Definition lane_chain (F : Landmarks) : list Rect :=
  [DCA_pt F; DUA_d_pt F; DUA_m_pt F; DUA_u_pt F; DUA_ut_pt F].

(** The segments p1-p2, p2-p3, p3-p4, p4-p5. *)
Definition segments (F : Landmarks) : list (Rect * Rect) :=
  zip (lane_chain F) (tail (lane_chain F)).

Definition both_resolved (ab : Rect * Rect) : bool :=
  supplied (fst ab) && supplied (snd ab).

Definition vanish_line (i : Image) (r : Rect) : Event :=
  CvLine i (c0 r, c1 r) (c2 r, c3 r) [255; 0; 200] 1.

Definition left_line (i : Image) (ab : Rect * Rect) : Event :=
  CvLine i (c0 (fst ab), c1 (fst ab)) (c0 (snd ab), c1 (snd ab)) [127; 255; 0] 2.

Definition middle_line (i : Image) (ab : Rect * Rect) : Event :=
  CvLine i ((c0 (fst ab) + c2 (fst ab)) ÷ 2, c3 (fst ab))
           ((c0 (snd ab) + c2 (snd ab)) ÷ 2, c3 (snd ab)) [255; 127] 2.

Definition right_line (i : Image) (ab : Rect * Rect) : Event :=
  CvLine i (c2 (fst ab), c3 (fst ab)) (c2 (snd ab), c3 (snd ab)) [0; 127; 255] 2.

(** A segment is drawn if and only if both of its end landmarks are resolved. *)
Definition gated (ab : Rect * Rect) (evs : list Event) : list Event :=
  if both_resolved ab then evs else [].

(** Vanish line, then the left and middle segments, then the right ones. *)
Definition corridor_lines (i : Image) (F : Landmarks) : list Event :=
  (if supplied (VLA_pt F) then [vanish_line i (VLA_pt F)] else []) ++
  flat_map (fun ab => gated ab [left_line i ab; middle_line i ab]) (segments F) ++
  flat_map (fun ab => gated ab [right_line i ab]) (segments F).

(** The center reference line on a frame of shape [(h, w)]: at x = w/2, from
    80% to 99% of the height, each truncated to a pixel. *)
Definition center_line_ev (i : Image) : Event :=
  CvLine i (im_w i ÷ 2, (im_h i * 80) ÷ 100) (im_w i ÷ 2, (im_h i * 99) ÷ 100)
         [255; 255; 0] 2.

(** The departure caption, at (w/8, h/4) truncated to a pixel. *)
Definition warning_ev (i : Image) : Event :=
  CvPutText i "DEPARTURE WARNING !" (im_w i ÷ 8, im_h i ÷ 4) [0; 0; 255] 4.

(** The departure test as the code computes it, on integers: each quotient
    is truncated before the comparison. *)
Definition departs_trunc (lx rx w : Z) : Prop :=
  (2 * Z.abs (rx - lx)) ÷ 7 < Z.abs ((lx + rx) ÷ 2 - w ÷ 2).

(** The departure test over exact quotients:
    |(lx + rx)/2 - w/2| > |rx - lx| / 3.5. *)
Definition departs_exact (lx rx w : Z) : Prop :=
  (Qabs (inject_Z (rx - lx)) / (7 # 2) <
   Qabs (inject_Z (lx + rx) / 2 - inject_Z w / 2))%Q.

(** Adjacent entries of [l] in strictly descending probability. *)
Definition strictly_descending (p : Probs) (l : list nat) : Prop :=
  forall i a b, l !! i = Some a -> l !! S i = Some b ->
    (prob_at p b < prob_at p a)%Q.

(** Adjacent entries of [l] in descending probability, ties allowed. *)
Definition descending (p : Probs) (l : list nat) : Prop :=
  forall i a b, l !! i = Some a -> l !! S i = Some b ->
    (prob_at p b <= prob_at p a)%Q.

(** The candidate of the lowest index that supplies kind [k] is [r]; [r] is
    the sentinel when no candidate supplies [k]. *)
Definition lowest_supplier (k : Kind) (cands : list Landmarks) (r : Rect) : Prop :=
  (exists i L, cands !! i = Some L /\ supplied (slot k L) = true /\
     (forall j L', (j < i)%nat -> cands !! j = Some L' ->
        supplied (slot k L') = false) /\
     r = slot k L) \/
  ((forall L, In L cands -> supplied (slot k L) = false) /\ r = ABSENT).

(** ** A concrete annotator and concrete frames, for the examples *)

Definition demo_colors (c : Z) : Color := [c; c; c].

Definition demo_names : gmap Z string :=
  list_to_map [(0, "car"); (1, "VLA"); (2, "DCA"); (3, "VPA"); (4, "DUA_d");
               (5, "DUA_m"); (6, "DUA_u"); (7, "DUA_ut")]%string.

Definition rect_of_box (box : list Q) : Rect :=
  mkRect (py_int (nth 0 box 0%Q)) (py_int (nth 1 box 0%Q))
         (py_int (nth 2 box 0%Q)) (py_int (nth 3 box 0%Q)).

(** A render call that reports the rectangle of a box as the landmark its
    class names, on a 480 x 640 frame. *)
Definition demo_box_label (log : list Event) (box : list Q)
    (label : option Label) (color : Color) : Landmarks * Image :=
  let name := match label with Some lb => lb_name lb | None => ""%string end in
  let pick (s : string) := if String.eqb name s then rect_of_box box else ABSENT in
  (mkLandmarks (pick "VLA"%string) (pick "DCA"%string) (pick "VPA"%string)
     (pick "DUA_d"%string) (pick "DUA_m"%string) (pick "DUA_u"%string)
     (pick "DUA_ut"%string),
   mkImage 480 640).

(** The detection row [(x1, y1, x2, y2, 0.9, cls)]. *)
Definition demo_row (x1 y1 x2 y2 cls : Z) : list Q :=
  [inject_Z x1; inject_Z y1; inject_Z x2; inject_Z y2; (9 # 10)%Q; inject_Z cls].

Definition demo_frame (rows : list (list Q)) : Results :=
  mkResults (480, 640) (Boxes_init (Arr2 6 rows) (480, 640)) None None None
            demo_names.

(** A frame without a box set. *)
Definition bare_frame : Results :=
  mkResults (480, 640) None None None None demo_names.

Definition fresh : World := mkWorld None [].

Definition demo_plot (self : Results) (show_boxes : bool) : M unit :=
  Results_plot demo_colors demo_box_label self true true show_boxes true true.

(** ** Further definitions for the statements and the examples *)

(** [ops.xyxy2xywh] as Ultralytics defines it: center, width and height. *)
Definition demo_xyxy2xywh (t : list (list Q)) : list (list Q) :=
  map (fun r =>
         let x1 := nth 0 r 0%Q in let y1 := nth 1 r 0%Q in
         let x2 := nth 2 r 0%Q in let y2 := nth 3 r 0%Q in
         [(x1 + x2) / 2; (y1 + y2) / 2; x2 - x1; y2 - y1]%Q) t.

Definition demo_boxes : Boxes :=
  mkBoxes (Arr2 6 [demo_row 100 200 340 400 2; demo_row 10 20 30 45 0]) false
          (480, 640).

Definition key_le (x y : nat * Q) : Prop := (snd x <= snd y)%Q.

(** Two classes of equal probability. *)
Definition tied_probs : Probs := mkProbs [1 # 2; 1 # 2]%Q.

(** [m] always succeeds, leaves the history alone and draws [evs]. *)
Definition appends (m : M unit) (evs : list Event) : Prop :=
  forall w, m w = Some (tt, mkWorld (HISTORY_VLA_pt w) (canvas w ++ evs)).

(** What lines 456-477 draw on the frame [i]. *)
Definition center_LDWS_events (i : Image) (F : Landmarks) : list Event :=
  center_line_ev i ::
  (if supplied (DCA_pt F) &&
      departs (c0 (DCA_pt F), c1 (DCA_pt F)) (c2 (DCA_pt F), c3 (DCA_pt F)) (im_w i)
   then [warning_ev i] else []).

(** The history after the overwrites of the candidate sets [Ls], in call
    order, starting from [h]. *)
Definition history_after (Ls : list Landmarks) (h : option Rect) : option Rect :=
  fold_left (fun h L => if supplied (VLA_pt L) then Some (VLA_pt L) else h) Ls h.

(** The detection loops of [plot] run: the box set is not empty and box
    drawing is enabled. *)
Definition pass_runs (self : Results) (show_boxes : bool) : bool :=
  nonempty (boxes self) && show_boxes.

(** The pixel rectangles of the detections of a frame, by index. *)
Definition detections (self : Results) : list (list Q) :=
  match boxes self with Some b => Boxes_xyxy b | None => [] end.

(** A step that leaves the history alone and makes plain calls only. *)
Definition quiet {A} (m : M A) : Prop :=
  forall w a w', m w = Some (a, w') ->
    HISTORY_VLA_pt w' = HISTORY_VLA_pt w /\
    exists evs, canvas w' = canvas w ++ evs /\
      Forall (fun e => is_plain e = true) evs.

(** What lines 363-477 draw, given the [im] and the landmarks left by the
    resolver loop. *)
Definition overlay_events (im : option Image) (F : Landmarks) : list Event :=
  match im with
  | Some i => corridor_lines i F ++ center_LDWS_events i F
  | None => []
  end.

(** The arguments the FCW label calls of a frame are made with. *)
Definition fcws_expected (self : Results) (show_boxes : bool)
    (F : Landmarks) (h : option Rect) : list (list Q * KeyPoints * Z) :=
  match h with
  | Some hist =>
      if pass_runs self show_boxes
      then map (fun box => (box, ADAS_Key_Points F, c1 hist))
               (rev (detections self))
      else []
  | None => []
  end.

(** Three detections: a center divider, a car, and another center divider. *)
Definition tie_frame : Results :=
  demo_frame [demo_row 100 400 340 400 2; demo_row 10 20 30 45 0;
              demo_row 120 380 300 380 2].

(** A vanish line at row 200 and a car; two cars; a vanish line at row 220. *)
Definition vla_frame1 : Results :=
  demo_frame [demo_row 0 200 640 200 1; demo_row 10 20 30 45 0].

Definition car_frame : Results :=
  demo_frame [demo_row 10 20 30 45 0; demo_row 50 60 70 80 0].

Definition vla_frame2 : Results := demo_frame [demo_row 0 220 640 220 1].

(** The state a call leaves, and the landmarks its resolver loop leaves. *)
Definition state_after (m : M unit) (w : World) : World :=
  match m w with Some (_, w') => w' | None => w end.

Definition resolved_by (m : M (Landmarks * option Image * PyVal)) (w : World)
    : Landmarks :=
  match m w with Some ((F, _, _), _) => F | None => no_landmarks end.

Definition demo_resolve (self : Results) (show_boxes : bool)
    : M (Landmarks * option Image * PyVal) :=
  plot_resolve demo_colors demo_box_label self true true show_boxes true.

Definition seq_w1 : World :=
  Eval vm_compute in state_after (demo_plot vla_frame1 true) fresh.
Definition seq_w2 : World :=
  Eval vm_compute in state_after (demo_plot car_frame true) seq_w1.
Definition seq_w3 : World :=
  Eval vm_compute in state_after (demo_plot vla_frame2 true) seq_w2.
Definition seq_F2 : Landmarks :=
  Eval vm_compute in resolved_by (demo_resolve car_frame true) seq_w1.
Definition seq_F3 : Landmarks :=
  Eval vm_compute in resolved_by (demo_resolve vla_frame2 true) seq_w2.

(** A center divider left of the frame center; one that the exact test would
    accept; a corridor without its middle landmark. *)
Definition warn_frame : Results := demo_frame [demo_row 100 400 340 400 2].

Definition edge_frame : Results := demo_frame [demo_row 131 400 372 400 2].

Definition gap_frame : Results :=
  demo_frame [demo_row 0 200 640 200 1; demo_row 100 400 540 400 2;
              demo_row 150 350 490 350 4; demo_row 250 250 390 250 6;
              demo_row 290 220 350 220 7].

Definition demo_image : Image := mkImage 480 640.

Definition warn_F : Landmarks :=
  Eval vm_compute in resolved_by (demo_resolve warn_frame true) fresh.
Definition warn_w : World :=
  Eval vm_compute in state_after (demo_plot warn_frame true) fresh.

Definition edge_w : World :=
  Eval vm_compute in state_after (demo_plot edge_frame true) fresh.

Definition primed : World := mkWorld (Some (mkRect 0 200 640 200)) [].

Definition primed_F : Landmarks :=
  Eval vm_compute in resolved_by (demo_resolve car_frame true) primed.
Definition primed_w1 : World :=
  Eval vm_compute in
    match demo_resolve car_frame true primed with
    | Some (_, w) => w
    | None => primed
    end.
Definition primed_w : World :=
  Eval vm_compute in state_after (demo_plot car_frame true) primed.

Definition unboxed_w : World :=
  Eval vm_compute in state_after (demo_plot car_frame false) primed.

Definition gap_F : Landmarks :=
  Eval vm_compute in resolved_by (demo_resolve gap_frame true) fresh.
Definition gap_w : World :=
  Eval vm_compute in state_after (demo_plot gap_frame true) fresh.

Definition bare_w : World :=
  Eval vm_compute in state_after (demo_plot bare_frame true) fresh.
Definition hidden_w : World :=
  Eval vm_compute in state_after (demo_plot gap_frame false) fresh.

Definition demo_probs : Probs :=
  mkProbs [1 # 10; 3 # 10; 1 # 20; 1 # 4; 1 # 10; 1 # 5; 0]%Q.

(** ** [Keypoints] *)

(** The buffers [Keypoints] receives: the points of one detection, of shape
    (k, d), or of n detections, of shape (n, k, d); a point has d = 2
    channels (x, y) or d = 3 (x, y, confidence). *)
Inductive KArray : Type :=
| KArr2 (d : nat) (pts : list (list Q))
| KArr3 (d : nat) (dets : list (list (list Q))).

(** [a[None, :]] on a two-dimensional buffer, and [a.shape[2]] after it. *)
Definition kpromote (a : KArray) : list (list (list Q)) :=
  match a with KArr2 _ pts => [pts] | KArr3 _ dets => dets end.

Definition kchannels (a : KArray) : nat :=
  match a with KArr2 d _ => d | KArr3 d _ => d end.

(** [mask = p[2] < 0.5; p[:2][mask] = 0] on one point. *)
Definition mask_point (p : list Q) : list Q :=
  if Qle_bool (1 # 2) (nth 2 p 0%Q)
  then p
  else imap (fun j x => if Nat.ltb j 2 then 0%Q else x) p.

Record Keypoints : Type := mkKeypoints {
  kp_data : list (list (list Q));
  kp_channels : nat;            (* data.shape[-1] *)
  has_visible : bool;
  kp_orig_shape : Z * Z
}.

(** [Keypoints.__init__] *)
Definition Keypoints_init (keypoints : KArray) (orig_shape : Z * Z) : Keypoints :=
  let d := kchannels keypoints in
  let dets := kpromote keypoints in
  let dets := if Nat.eqb d 3 then map (map mask_point) dets else dets in
  mkKeypoints dets d (Nat.eqb d 3) orig_shape.

(** [Keypoints.xy]: [data[..., :2]] *)
Definition Keypoints_xy (k : Keypoints) : list (list (list Q)) :=
  map (map (take 2)) (kp_data k).

(** [Keypoints.xyn]: [xy[..., 0] /= w; xy[..., 1] /= h] on a copy. *)
Definition Keypoints_xyn (k : Keypoints) : list (list (list Q)) :=
  map (map (fun p => div_cols [1]%nat (fst (kp_orig_shape k))
                       (div_cols [0]%nat (snd (kp_orig_shape k)) p)))
      (Keypoints_xy k).

(** [Keypoints.conf]: [data[..., 2] if has_visible else None] *)
Definition Keypoints_conf (k : Keypoints) : option (list (list Q)) :=
  if has_visible k
  then Some (map (map (fun p => nth 2 p 0%Q)) (kp_data k))
  else None.

(** [keypoints[i]] of [BaseTensor], for an index [i]: the constructor runs
    again on the points of detection [i]. *)
Definition Keypoints_getitem (k : Keypoints) (i : nat) : option Keypoints :=
  match kp_data k !! i with
  | Some pts => Some (Keypoints_init (KArr2 (kp_channels k) pts) (kp_orig_shape k))
  | None => None
  end.

(** Scaling normalized key points back by the frame size. *)
Definition kscale_back (shape : Z * Z) (t : list (list (list Q)))
    : list (list (list Q)) :=
  map (map (fun p => mul_cols [1]%nat (fst shape) (mul_cols [0]%nat (snd shape) p))) t.

(** ** [Probs.top1] and the confidences *)

(** [argmax]: the first index of the largest entry, scanning [l] from index
    [i] with the best index [best] and its entry [bv] so far. *)
Fixpoint argmax_from (l : list Q) (i best : nat) (bv : Q) : nat :=
  match l with
  | [] => best
  | x :: l' =>
      if Qle_bool x bv then argmax_from l' (S i) best bv
      else argmax_from l' (S i) i x
  end.

(** [v.argmax()]; an empty vector is an error. *)
Definition argmax (v : list Q) : option nat :=
  match v with
  | [] => None
  | x :: l => Some (argmax_from l 1 0 x)
  end.

(** [Probs.top1]: [int(self.data.argmax())] *)
Definition Probs_top1 (p : Probs) : option nat := argmax (probs_data p).

(** [Probs.top1conf]: [self.data[self.top1]] *)
Definition Probs_top1conf (p : Probs) : option Q :=
  match Probs_top1 p with
  | Some i => probs_data p !! i
  | None => None
  end.

(** [Probs.top5conf]: [self.data[self.top5]] *)
Definition Probs_top5conf (p : Probs) : option (list Q) :=
  mapM (fun j => probs_data p !! j) (Probs_top5 p).

(** ** Well-shaped box sets *)

(** A matrix whose rows have its row width. *)
Definition well_shaped (a : NDArray) : Prop :=
  match a with
  | Arr1 _ => True
  | Arr2 n rows => Forall (fun r => length r = n) rows
  end.

(** What [Boxes.__init__] leaves: a matrix of rows of width 6 or 7, and
    [is_track] set on width 7. *)
Definition wf_boxes (b : Boxes) : Prop :=
  match data b with
  | Arr1 _ => False
  | Arr2 n rows =>
      (n = 6 \/ n = 7)%nat /\ is_track b = Nat.eqb n 7 /\
      Forall (fun r => length r = n) rows
  end.

(** Every coordinate of a pixel rectangle lies in the frame of shape
    (h, w): x in [0, w] and y in [0, h]. *)
Definition in_frame (h w : Z) (r : list Q) : Prop :=
  forall j x, r !! j = Some x ->
    (0 <= x)%Q /\
    (x <= inject_Z (if bool_decide (j ∈ [0; 2]%nat) then w else h))%Q.

Definition unit_interval (x : Q) : Prop := (0 <= x)%Q /\ (x <= 1)%Q.

(** One detection of two key points, of confidence 0.4 and 0.6. *)
Definition demo_kpts : KArray := KArr2 3 [[10; 20; 4 # 10]; [30; 40; 6 # 10]]%Q.

(** ** Inputs on which [plot] raises nothing *)


(** The box set of a frame, if any, is well formed and the class of each of
    its detections is a key of [names]. *)
Definition classes_named (self : Results) : Prop :=
  match boxes self with
  | Some b =>
      wf_boxes b /\
      Forall (fun row => is_Some (names self !! py_int (idx_neg 1 row)))
             (arr_rows (data b))
  | None => True
  end.



(** The drawing phases of [plot], in the order of the code. *)
Definition phase (e : Event) : nat :=
  match e with
  | Masks_call _ _ => 0
  | BoxLabel_call _ _ _ => 1
  | FCWS_call _ _ _ _ _ => 2
  | CvLine _ _ _ _ _ => 3
  | CvPutText _ _ _ _ _ => 4
  | Text_call _ _ => 5
  | Kpts_call _ => 6
  end.

(** [e1] is of an earlier phase than [e2], or of the same. *)
Definition not_after (e1 e2 : Event) : Prop := (phase e1 <= phase e2)%nat.

(** [m] only draws events of phase [k]. *)
Definition stage {A} (k : nat) (m : M A) : Prop :=
  forall w a w', m w = Some (a, w') ->
    exists evs, canvas w' = canvas w ++ evs /\
      Forall (fun e => phase e = k) evs.

(** ** The confidence shown in the labels *)

(** The labels of the render calls and of the FCW label calls of a frame. *)
Definition box_labels (log : list Event) : list (option Label) :=
  omap (fun e => match e with
                 | BoxLabel_call _ label _ => Some label
                 | _ => None
                 end) log.

Definition fcws_labels (log : list Event) : list (option Label) :=
  omap (fun e => match e with
                 | FCWS_call _ _ _ label _ => Some label
                 | _ => None
                 end) log.

(** The confidence a label shows, if any. *)
Definition label_conf (label : option Label) : option Q :=
  match label with Some lb => lb_conf lb | None => None end.

Definition nonzero (c : Q) : bool := negb (Qeq_bool c 0).

(** The confidences shown for detections of confidences [cs], processed in
    this order, when the variable [conf] is truthy ([alive]) at the start:
    a confidence is shown until the first detection of confidence 0, and
    from that one on none is. *)
Fixpoint shown_confs (alive : bool) (cs : list Q) : list (option Q) :=
  match cs with
  | [] => []
  | c :: cs' =>
      (if alive && nonzero c then Some c else None)
      :: shown_confs (alive && nonzero c) cs'
  end.

(** The confidences of the detections of a frame, by index. *)
Definition confidences (self : Results) : list Q :=
  match boxes self with Some b => Boxes_conf b | None => [] end.

(** A vanish line of confidence 0.9, a car of confidence 0 and a car of
    confidence 0.8. *)
Definition zero_conf_frame : Results :=
  demo_frame [[0; 200; 640; 200; 9 # 10; 1]; [10; 20; 30; 45; 0; 0];
              [50; 60; 70; 80; 8 # 10; 0]]%Q.

Definition zero_conf_w : World :=
  Eval vm_compute in state_after (demo_plot zero_conf_frame true) fresh.

(** ** What [Results] holds for the export methods *)

(** [BaseTensor] accepts a [torch.Tensor] and an [np.ndarray] as data.
    [plot] reads the entries only; [tojson], [save_txt] and [verbose] call
    methods that exist for one of the two types only. *)
Inductive Backend : Type := Torch | Numpy.

(** A call that [np.ndarray] does not support ([.cpu()], [.unique()],
    [.view(-1)], [torch.cat]); [None] is the [AttributeError] or
    [TypeError]. *)
Definition torch_only (t : Backend) : option unit :=
  match t with Torch => Some tt | Numpy => None end.

(** A [Results] object as the export methods see it: with the [Keypoints]
    object it holds, which knows its number of channels, and with the types
    of the data of its boxes and key points. *)
Record Prediction : Type := mkPrediction {
  p_orig_shape : Z * Z;
  p_boxes : option Boxes;
  p_boxes_type : Backend;
  p_masks : option (list (list (list Q)));
  p_probs : option Probs;
  p_keypoints : option Keypoints;
  p_keypoints_type : Backend;
  p_names : gmap Z string
}.

(** The attributes [plot] reads. *)
Definition as_results (p : Prediction) : Results :=
  mkResults (p_orig_shape p) (p_boxes p) (p_masks p) (p_probs p)
            (option_map kp_data (p_keypoints p)) (p_names p).

(** ** [Masks] *)

Section Segments.
(** [ops.masks2segments] and [ops.scale_coords] live in
    [ultralytics/utils/ops.py]: the outline of each mask, an array of points
    (x, y), and its rescaling from the mask shape to the frame. *)
Variable masks2segments : list (list (list Q)) -> list (list (list Q)).
Variable scale_coords :
  nat * nat -> list (list Q) -> Z * Z -> bool -> list (list Q).

(** [data.shape[1:]] of the masks; no outline is scaled when there is no
    mask. *)
Definition mask_shape (m : list (list (list Q))) : nat * nat :=
  match m with
  | [] => (0, 0)%nat
  | x :: _ => (length x, length (hd [] x))
  end.

(** [Masks.xy] and [Masks.xyn] *)
Definition Masks_xy (m : list (list (list Q))) (shape : Z * Z)
    : list (list (list Q)) :=
  map (fun x => scale_coords (mask_shape m) x shape false) (masks2segments m).

Definition Masks_xyn (m : list (list (list Q))) (shape : Z * Z)
    : list (list (list Q)) :=
  map (fun x => scale_coords (mask_shape m) x shape true) (masks2segments m).

(** [masks[j]] of [BaseTensor]: the constructor promotes the one mask. *)
Definition Masks_getitem (m : list (list (list Q))) (j : nat)
    : option (list (list (list Q))) :=
  match m !! j with Some x => Some [x] | None => None end.

(** [bool(self.masks)]: not [None] and of positive length. *)
Definition has_masks (self : Results) : bool :=
  match masks self with Some m => negb (Nat.eqb (length m) 0) | None => false end.

(** ** [Results.tojson] *)

(** [row[-k]] of a list; [None] is the [IndexError]. *)
Definition getitem_neg (k : nat) (row : list Q) : option Q :=
  if (k <=? length row)%nat then row !! (length row - k)%nat else None.

(** [x / d] of a float by an integer; [None] is the [ZeroDivisionError]. *)
Definition py_div (x : Q) (d : Z) : option Q :=
  if Z.eqb d 0 then None else Some (x / inject_Z d)%Q.

(** [a[:, c]] of a matrix, and [t.unbind(dim=1)[c]]. *)
Definition column (c : nat) (a : list (list Q)) : option (list Q) :=
  mapM (fun p => p !! c) a.

(** [(x / d).tolist()] of an array.  In [tojson] it is reached only after the
    box of the same row was divided by the same [d], hence with [d] not 0. *)
Definition div_all (xs : list Q) (d : Z) : list Q :=
  map (fun x => (x / inject_Z d)%Q) xs.

Definition enumerate {A} (l : list A) : list (nat * A) := imap pair l.

(** The dictionaries of the exported list; a key that is not set is [None]. *)
Record JBox : Type := mkJBox { jx1 : Q; jy1 : Q; jx2 : Q; jy2 : Q }.

Record JResult : Type := mkJResult {
  j_name : string;
  j_class : Z;
  j_confidence : Q;
  j_box : JBox;
  j_track_id : option Z;
  j_segments : option (list Q * list Q);
  j_keypoints : option (list Q * list Q * list Q)
}.

(** [h, w = self.orig_shape if normalize else (1, 1)] *)
Definition json_scale (p : Prediction) (normalize : bool) : Z * Z :=
  if normalize then p_orig_shape p else (1, 1).

(** The body of the loop of [tojson] on row [i].  The key points of the
    detection are unpacked into as many columns as the [Keypoints] object
    has channels. *)
Definition tojson_result (p : Prediction) (b : Boxes) (h w : Z)
    (i : nat) (row : list Q) : option JResult :=
  r0 ← row !! 0%nat; bx1 ← py_div r0 w;
  r1 ← row !! 1%nat; by1 ← py_div r1 h;
  r2 ← row !! 2%nat; bx2 ← py_div r2 w;
  r3 ← row !! 3%nat; by2 ← py_div r3 h;
  conf ← getitem_neg 2 row;
  cls ← getitem_neg 1 row;
  let class_id := py_int cls in
  name ← p_names p !! class_id;
  track ← (if is_track b
           then t ← getitem_neg 3 row; Some (Some (py_int t))
           else Some None);
  segs ← (if has_masks (as_results p)
          then m ← p_masks p;
               seg ← Masks_xy m (p_orig_shape p) !! i;
               x ← column 0 seg; y ← column 1 seg;
               Some (Some (div_all x w, div_all y h))
          else Some None);
  kpts ← match p_keypoints p with
          | Some kps =>
              k ← Keypoints_getitem kps i;
              pts ← kp_data k !! 0%nat;
              _ ← torch_only (p_keypoints_type p);
              if Nat.eqb (kp_channels k) 3
              then x ← column 0 pts; y ← column 1 pts; visible ← column 2 pts;
                   Some (Some (div_all x w, div_all y h, visible))
              else None
          | None => Some None
          end;
  Some (mkJResult name class_id conf (mkJBox bx1 by1 bx2 by2) track segs kpts).

(** [tojson], up to the list [results] it hands to [json.dumps].  The outer
    [None] is an exception, the inner one the [return] without a value of a
    classification result.  [self.boxes.data.cpu()] needs a tensor. *)
Definition tojson (p : Prediction) (normalize : bool)
    : option (option (list JResult)) :=
  match p_probs p with
  | Some _ => Some None
  | None =>
      b ← p_boxes p;
      _ ← torch_only (p_boxes_type p);
      let hw := json_scale p normalize in
      results ← mapM (fun ir => tojson_result p b (fst hw) (snd hw)
                                   (fst ir) (snd ir))
                     (enumerate (arr_rows (data b)));
      Some (Some results)
  end.

(** ** [Results.save_crop] *)

(** [for d in boxes]: [Boxes] has no [__iter__], so the loop indexes it from
    0 until the [IndexError]; [None] is the assertion of [Boxes.__init__]
    failing on a row. *)
Definition Boxes_iter (b : Boxes) : option (list Boxes) :=
  mapM (Boxes_getitem b) (seq 0 (Boxes_len b)).

(** [save_crop], as the list of the calls of [save_one_box]: the rectangle
    [d.xyxy] and the directory [names[int(d.cls)]] of each. *)
Definition save_crop (self : Results) : option (list (list (list Q) * string)) :=
  match probs self with
  | Some _ => Some []
  | None =>
      b ← boxes self;
      ds ← Boxes_iter b;
      mapM (fun d => c ← item (Boxes_cls d);
                     name ← names self !! py_int c;
                     Some (Boxes_xyxy d, name)) ds
  end.
End Segments.

(** The rectangle of an exported box, multiplied back by the divisors
    [(h, w)]. *)
Definition jbox_pixels (hw : Z * Z) (bx : JBox) : list Q :=
  [jx1 bx * inject_Z (snd hw); jy1 bx * inject_Z (fst hw);
   jx2 bx * inject_Z (snd hw); jy2 bx * inject_Z (fst hw)]%Q.

Definition jbox_list (bx : JBox) : list Q := [jx1 bx; jy1 bx; jx2 bx; jy2 bx].

(** ** [Results.save_txt] *)

(** The lines of the text file, before the numbers are formatted:
    [f'{p:.2f} {name}'] of a class, and ['%g %g ... %g' % line] of a
    detection. *)
Inductive TxtLine : Type :=
| ClassLine (p : Q) (name : string)
| DetLine (line : list Q).

(** [torch.cat((xyn, conf[..., None]), 2)]: the confidence joins each
    point. *)
Definition cat_conf (xyn : list (list (list Q))) (conf : list (list Q))
    : list (list (list Q)) :=
  zip_with (zip_with (fun p c => p ++ [c])) xyn conf.

(** The lines [f'... {names[j]}' for j in probs.top5], as pairs. *)
Definition top5_named (self : Results) (p : Probs) : option (list (string * Q)) :=
  mapM (fun j => x ← probs_data p !! j;
                 name ← names self !! Z.of_nat j;
                 Some (name, x))
       (Probs_top5 p).

Section SaveTxt.
Variable xyxy2xywh : list (list Q) -> list (list Q).
Variable masks2segments : list (list (list Q)) -> list (list (list Q)).
Variable scale_coords :
  nat * nat -> list (list Q) -> Z * Z -> bool -> list (list Q).

(** The body of the detection loop of [save_txt] on detection [d] of index
    [j].  [d.xywhn.view(-1)] and [torch.cat] need tensors. *)
Definition save_txt_line (p : Prediction) (save_conf : bool)
    (j : nat) (d : Boxes) : option TxtLine :=
  c ← item (Boxes_cls d);
  conf ← item (Boxes_conf d);
  id ← match Boxes_id d with
        | Some ids => t ← item ids; Some (Some (py_int t))
        | None => Some None
        end;
  let c := inject_Z (py_int c) in
  _ ← torch_only (p_boxes_type p);
  let line := c :: concat (Boxes_xywhn xyxy2xywh d) in
  line ← (if has_masks (as_results p)
          then m ← p_masks p;
               mj ← Masks_getitem m j;
               seg ← Masks_xyn masks2segments scale_coords mj
                       (p_orig_shape p) !! 0%nat;
               Some (c :: concat seg)
          else Some line);
  line ← match p_keypoints p with
          | Some kps =>
              k ← Keypoints_getitem kps j;
              kpt ← match Keypoints_conf k with
                     | Some cf =>
                         _ ← torch_only (p_keypoints_type p);
                         Some (cat_conf (Keypoints_xyn k) cf)
                     | None => Some (Keypoints_xyn k)
                     end;
              Some (line ++ concat (concat kpt))
          | None => Some line
          end;
  Some (DetLine (line ++ (if save_conf then [conf] else [])
                      ++ match id with Some t => [inject_Z t] | None => [] end)).

(** [save_txt], as the lines it appends to the file; on [[]] the file is
    neither created nor opened. *)
Definition save_txt (p : Prediction) (save_conf : bool)
    : option (list TxtLine) :=
  match p_probs p with
  | Some pr =>
      l ← top5_named (as_results p) pr;
      Some (map (fun nx => ClassLine (snd nx) (fst nx)) l)
  | None =>
      if nonempty (p_boxes p)
      then b ← p_boxes p;
           ds ← Boxes_iter b;
           mapM (fun jd => save_txt_line p save_conf (fst jd) (snd jd))
                (enumerate ds)
      else Some []
  end.
End SaveTxt.

(** ** [Results.__len__] and [Results.verbose] *)

(** [len(self)]: the length of the first attribute of [_keys] that is set.
    [maps] is the length of the first of [drive_map] and [lane_map] that is
    set; with nothing set [__len__] returns [None] and [len] raises. *)
Definition Results_len (p : Prediction) (maps : option nat) : option nat :=
  match p_boxes p with
  | Some b => Some (Boxes_len b)
  | None =>
  match p_masks p with
  | Some m => Some (length m)
  | None =>
  match p_probs p with
  | Some pr => Some (length (probs_data pr))
  | None =>
  match p_keypoints p with
  | Some k => Some (length (kp_data k))
  | None => maps
  end end end end.

(** [t.unique()]: the distinct entries in ascending order. *)
Fixpoint insert_unique (x : Q) (l : list Q) : list Q :=
  match l with
  | [] => [x]
  | y :: l' =>
      if Qeq_bool x y then l
      else if Qle_bool x y then x :: l
      else y :: insert_unique x l'
  end.

Definition unique (v : list Q) : list Q := foldr insert_unique [] v.

(** [(v == c).sum()] *)
Definition count_eq (c : Q) (v : list Q) : nat :=
  length (List.filter (fun x => Qeq_bool x c) v).

(** The pieces the log string is joined from, before the numbers are
    formatted: ['(no detections), '], the classes of [top5] with their
    probabilities, and [f"{n} {name}{'s' * (n > 1)}, "]. *)
Inductive LogPart : Type :=
| NoDetections
| TopClasses (l : list (string * Q))
| ClassCount (n : nat) (name : string) (plural : bool).

(** [verbose]; [boxes.cls.unique()] needs a tensor. *)
Definition verbose (p : Prediction) (maps : option nat) : option (list LogPart) :=
  n ← Results_len p maps;
  if Nat.eqb n 0
  then Some (match p_probs p with Some _ => [] | None => [NoDetections] end)
  else
    top ← match p_probs p with
           | Some pr => l ← top5_named (as_results p) pr; Some [TopClasses l]
           | None => Some []
           end;
    counts ← (if nonempty (p_boxes p)
              then b ← p_boxes p;
                   _ ← torch_only (p_boxes_type p);
                   mapM (fun c =>
                           let n := count_eq c (Boxes_cls b) in
                           name ← p_names p !! py_int c;
                           Some (ClassCount n name (1 <? n)%nat))
                        (unique (Boxes_cls b))
              else Some []);
    Some (top ++ counts).

(** The number of detections a piece of the log reports. *)
Definition part_count (p : LogPart) : nat :=
  match p with ClassCount n _ _ => n | _ => 0%nat end.

(** All points of a key-point buffer have its number of channels. *)
Definition kwell_shaped (a : KArray) : Prop :=
  Forall (Forall (fun pt => length pt = kchannels a)) (kpromote a).

(** ** Concrete predictions, for the examples *)

(** Stand-ins for the outline functions: a triangle per mask, not rescaled. *)
Definition demo_masks2segments (m : list (list (list Q)))
    : list (list (list Q)) :=
  map (fun _ => [[0; 0]; [4; 0]; [4; 3]]%Q) m.

Definition demo_scale_coords (_ : nat * nat) (x : list (list Q)) (_ : Z * Z)
    (_ : bool) : list (list Q) := x.

Definition demo_tojson (p : Prediction) (normalize : bool)
    : option (option (list JResult)) :=
  tojson demo_masks2segments demo_scale_coords p normalize.

Definition demo_save_txt (p : Prediction) (save_conf : bool)
    : option (list TxtLine) :=
  save_txt demo_xyxy2xywh demo_masks2segments demo_scale_coords p save_conf.

(** A detection result on the box set [b], of the given data type, on the
    480 x 640 frame. *)
Definition detection_of (t : Backend) (b : Boxes) : Prediction :=
  mkPrediction (480, 640) (Some b) t None None None t demo_names.

(** The box set [demo_boxes] held as tensors and as arrays. *)
Definition boxed_frame : Prediction := detection_of Torch demo_boxes.
Definition boxed_arrays : Prediction := detection_of Numpy demo_boxes.

(** Two tracked detections (ids 5 and 8) with a mask and two key points
    each. *)
Definition pose_boxes : Boxes :=
  mkBoxes (Arr2 7 [[100; 200; 340; 400; 5; 9 # 10; 0];
                   [10; 20; 30; 45; 8; 3 # 4; 2]]%Q) true (480, 640).

Definition pose_points : KArray :=
  KArr3 3 [[[120; 240; 9 # 10]; [7; 9; 2 # 10]];
           [[15; 25; 3 # 5]; [20; 30; 7 # 10]]]%Q.

Definition pose_frame : Prediction :=
  mkPrediction (480, 640) (Some pose_boxes) Torch
    (Some [[[1; 0]; [0; 1]]; [[0; 0]; [1; 1]]]%Q)
    None
    (Some (Keypoints_init pose_points (480, 640))) Torch
    demo_names.

Definition pose_json : list JResult :=
  Eval vm_compute in
    match demo_tojson pose_frame true with
    | Some (Some rs) => rs
    | _ => []
    end.

(** The same detections with key points of two channels, x and y. *)
Definition flat_points : KArray :=
  KArr3 2 [[[120; 240]; [0; 0]]; [[15; 25]; [20; 30]]]%Q.

Definition flat_pose_frame : Prediction :=
  mkPrediction (480, 640) (Some pose_boxes) Torch None None
    (Some (Keypoints_init flat_points (480, 640))) Torch
    demo_names.

Definition boxed_crops : list (list (list Q) * string) :=
  Eval vm_compute in
    match save_crop (as_results boxed_frame) with Some cs => cs | None => [] end.

Definition boxed_json : list JResult :=
  Eval vm_compute in
    match demo_tojson boxed_frame false with
    | Some (Some rs) => rs
    | _ => []
    end.

(** A classification result on the seven classes of [demo_probs]. *)
Definition classify_frame : Prediction :=
  mkPrediction (480, 640) None Torch None (Some demo_probs) None Torch
    demo_names.

(** The tracked detections of [pose_boxes], without masks and key points. *)
Definition tracked_frame : Prediction := detection_of Torch pose_boxes.

(** Three cars and one DCA area. *)
Definition crowd_boxes : Boxes :=
  mkBoxes (Arr2 6 [demo_row 10 20 30 45 0; demo_row 100 200 340 400 2;
                   demo_row 50 60 70 85 0; demo_row 90 20 130 45 0])
          false (480, 640).

Definition crowd_frame : Prediction := detection_of Torch crowd_boxes.

Definition crowd_log : list LogPart :=
  Eval vm_compute in
    match verbose crowd_frame None with Some ps => ps | None => [] end.

(** A render call on a 480 x 640 frame that reports a VLA rectangle as
    [demo_box_label] does, for a detection of class DCA the rectangle
    (5, 9999, 9999, 9999), of which the first coordinate alone is set, and
    for one of class DUA_d the rectangle (9999, 350, 490, 350), of which the
    first coordinate alone is the sentinel value. *)
Definition odd_box_label (log : list Event) (box : list Q)
    (label : option Label) (color : Color) : Landmarks * Image :=
  let name := match label with Some lb => lb_name lb | None => ""%string end in
  (mkLandmarks
     (if String.eqb name "VLA" then rect_of_box box else ABSENT)
     (if String.eqb name "DCA" then mkRect 5 9999 9999 9999 else ABSENT)
     ABSENT
     (if String.eqb name "DUA_d" then mkRect 9999 350 490 350 else ABSENT)
     ABSENT ABSENT ABSENT,
   mkImage 480 640).

(** A vanish line, a center divider and a lower drivable area. *)
Definition odd_frame : Results :=
  demo_frame [demo_row 0 200 640 200 1; demo_row 100 400 540 400 2;
              demo_row 150 350 490 350 4].

Definition odd_F : Landmarks :=
  Eval vm_compute in
    resolved_by
      (plot_resolve demo_colors odd_box_label odd_frame true true true true)
      fresh.

Definition odd_cands : list Landmarks :=
  Eval vm_compute in
    match plot_candidates demo_colors odd_box_label odd_frame true true true
            true fresh with
    | Some (cands, _) => cands
    | None => []
    end.

Definition odd_w : World :=
  Eval vm_compute in
    state_after
      (Results_plot demo_colors odd_box_label odd_frame true true true true
         true)
      fresh.

Definition odd_w1 : World :=
  Eval vm_compute in
    match plot_resolve demo_colors odd_box_label odd_frame true true true true
            fresh with
    | Some (_, w) => w
    | None => fresh
    end.

Definition odd_v : World :=
  Eval vm_compute in
    match plot_candidates demo_colors odd_box_label odd_frame true true true
            true fresh with
    | Some (_, v) => v
    | None => fresh
    end.

(** * Properties *)

(** ** [Boxes] *)

(** C8.  [Boxes.__init__] fails on a row width other than 6 and 7 and
    returns nothing; on a row width of 6 or 7 it succeeds, a one-dimensional
    buffer becomes the one-row matrix of that row, and [id] is present
    exactly when the row width is 7. *)
Theorem Boxes_init_row_width (a : NDArray) (sh : Z * Z) :
  (shape_last a <> 6%nat -> shape_last a <> 7%nat -> Boxes_init a sh = None) /\
  (shape_last a = 6%nat \/ shape_last a = 7%nat ->
   exists b, Boxes_init a sh = Some b /\
     data b = promote a /\ ndim (data b) = 2%nat /\ orig_shape b = sh /\
     (forall row, a = Arr1 row -> data b = Arr2 (length row) [row]) /\
     (Boxes_id b <> None <-> shape_last a = 7%nat)).
Proof.
  assert (Hs : shape_last (if Nat.eqb (ndim a) 1 then promote a else a)
               = shape_last a) by (destruct a; reflexivity).
  assert (Hp : (if Nat.eqb (ndim a) 1 then promote a else a) = promote a)
    by (destruct a; reflexivity).
  unfold Boxes_init. rewrite Hs, Hp. split.
  - intros H6 H7.
    apply Nat.eqb_neq in H6. apply Nat.eqb_neq in H7. rewrite H6, H7. reflexivity.
  - intros H67.
    assert (E : Nat.eqb (shape_last a) 6 || Nat.eqb (shape_last a) 7 = true).
    { destruct H67 as [-> | ->]; reflexivity. }
    rewrite E. eexists. split; [reflexivity |]. cbn [data orig_shape].
    repeat split.
    + destruct a; reflexivity.
    + intros row ->. reflexivity.
    + unfold Boxes_id. cbn [is_track]. intros Hid.
      destruct (Nat.eqb (shape_last a) 7) eqn:E7; [| congruence].
      apply Nat.eqb_eq. exact E7.
    + intros H7. unfold Boxes_id. cbn [is_track]. rewrite H7. cbn. congruence.
Qed.

Lemma Boxes_init_row_width_witness :
  Boxes_init (Arr1 [1; 2; 3; 4; 5]%Q) (480, 640) = None /\
  exists b, Boxes_init (Arr1 (demo_row 1 2 3 4 0 ++ [0%Q])) (480, 640) = Some b /\
    data b = promote (Arr1 (demo_row 1 2 3 4 0 ++ [0%Q])) /\
    ndim (data b) = 2%nat /\ orig_shape b = (480, 640) /\
    (forall row, Arr1 (demo_row 1 2 3 4 0 ++ [0%Q]) = Arr1 row ->
       data b = Arr2 (length row) [row]) /\
    (Boxes_id b <> None <->
     shape_last (Arr1 (demo_row 1 2 3 4 0 ++ [0%Q])) = 7%nat).
Proof.
  split.
  - apply (proj1 (Boxes_init_row_width (Arr1 [1; 2; 3; 4; 5]%Q) (480, 640)));
      simpl; lia.
  - apply (proj2 (Boxes_init_row_width (Arr1 (demo_row 1 2 3 4 0 ++ [0%Q]))
                    (480, 640))).
    right. reflexivity.
Defined.

Lemma imap_imap {A B C} (f : nat -> B -> C) (g : nat -> A -> B) (l : list A) :
  imap f (imap g l) = imap (fun j x => f j (g j x)) l.
Proof.
  revert f g. induction l as [| x l IH]; intros f g; [reflexivity |].
  cbn. f_equal. apply IH.
Qed.

Lemma imap_Qeq_id (f : nat -> Q -> Q) (l : list Q) :
  (forall j x, (f j x == x)%Q) -> Forall2 Qeq (imap f l) l.
Proof.
  revert f. induction l as [| x l IH]; intros f Hf; cbn; constructor.
  - apply Hf.
  - apply IH. intros j y. apply Hf.
Qed.

Lemma scale_back_row (h w : Z) (r : list Q) :
  h <> 0 -> w <> 0 ->
  Forall2 Qeq
    (mul_cols [1; 3]%nat h (mul_cols [0; 2]%nat w
       (div_cols [1; 3]%nat h (div_cols [0; 2]%nat w r)))) r.
Proof.
  intros Hh Hw. unfold mul_cols, div_cols. rewrite !imap_imap.
  apply imap_Qeq_id. intros j x.
  assert (Hh' : ~ (inject_Z h == 0)%Q).
  { unfold Qeq, inject_Z. simpl. lia. }
  assert (Hw' : ~ (inject_Z w == 0)%Q).
  { unfold Qeq, inject_Z. simpl. lia. }
  destruct (bool_decide (j ∈ [0; 2]%nat)), (bool_decide (j ∈ [1; 3]%nat));
    try reflexivity; field; auto.
Qed.

Lemma scale_back_rows (h w : Z) (t : list (list Q)) :
  h <> 0 -> w <> 0 ->
  tensor_eq
    (scale_back (h, w)
       (map (fun r => div_cols [1; 3]%nat h (div_cols [0; 2]%nat w r)) t)) t.
Proof.
  intros Hh Hw. unfold tensor_eq, scale_back. cbn [fst snd].
  induction t as [| r t IH]; cbn; constructor; [| exact IH].
  apply scale_back_row; assumption.
Qed.

(** C10.  On a frame of positive height and width, scaling [xyxyn] back by
    the frame size gives [xyxy], and scaling [xywhn] back gives [xywh],
    entry by entry over exact arithmetic. *)
Theorem normalized_views_round_trip
    (xyxy2xywh : list (list Q) -> list (list Q)) (b : Boxes) :
  0 < fst (orig_shape b) -> 0 < snd (orig_shape b) ->
  tensor_eq (scale_back (orig_shape b) (Boxes_xyxyn b)) (Boxes_xyxy b) /\
  tensor_eq (scale_back (orig_shape b) (Boxes_xywhn xyxy2xywh b))
            (Boxes_xywh xyxy2xywh b).
Proof.
  intros Hh Hw. unfold Boxes_xyxyn, Boxes_xywhn, Boxes_xywh.
  destruct (orig_shape b) as [h w]. cbn [fst snd] in *.
  split; apply scale_back_rows; lia.
Qed.

Lemma normalized_views_round_trip_witness :
  tensor_eq (scale_back (480, 640) (Boxes_xyxyn demo_boxes)) (Boxes_xyxy demo_boxes) /\
  tensor_eq (scale_back (480, 640) (Boxes_xywhn demo_xyxy2xywh demo_boxes))
            (Boxes_xywh demo_xyxy2xywh demo_boxes).
Proof.
  apply (normalized_views_round_trip demo_xyxy2xywh demo_boxes); reflexivity.
Defined.

(** ** [Probs] *)

Lemma insert_key_perm (x : nat * Q) (l : list (nat * Q)) :
  insert_key x l ≡ₚ x :: l.
Proof.
  induction l as [| y l IH]; cbn; [reflexivity |].
  destruct (Qle_bool (snd x) (snd y)); [reflexivity |].
  rewrite IH. apply Permutation_swap.
Qed.

Lemma sort_keys_perm (l : list (nat * Q)) : sort_keys l ≡ₚ l.
Proof.
  induction l as [| x l IH]; cbn; [reflexivity |].
  rewrite insert_key_perm, IH. reflexivity.
Qed.

Lemma insert_key_HdRel (x y : nat * Q) (l : list (nat * Q)) :
  HdRel key_le y l -> key_le y x -> HdRel key_le y (insert_key x l).
Proof.
  intros Hl Hx. destruct l as [| z l]; cbn; [constructor; exact Hx |].
  destruct (Qle_bool (snd x) (snd z)); constructor; [exact Hx |].
  inversion Hl; assumption.
Qed.

Lemma insert_key_Sorted (x : nat * Q) (l : list (nat * Q)) :
  Sorted key_le l -> Sorted key_le (insert_key x l).
Proof.
  induction l as [| y l IH]; intros Hs; cbn.
  - repeat constructor.
  - destruct (Qle_bool (snd x) (snd y)) eqn:E.
    + constructor; [exact Hs |]. constructor. apply Qle_bool_iff. exact E.
    + inversion Hs as [| ? ? Hs' Hhd]; subst.
      constructor; [apply IH; exact Hs' |].
      apply insert_key_HdRel; [exact Hhd |].
      unfold key_le. apply Qlt_le_weak, Qnot_le_lt. intros Hle.
      apply Qle_bool_iff in Hle. congruence.
Qed.

Lemma sort_keys_Sorted (l : list (nat * Q)) : Sorted key_le (sort_keys l).
Proof.
  induction l as [| x l IH]; cbn; [constructor |].
  apply insert_key_Sorted, IH.
Qed.

Lemma Sorted_adjacent {A} (R : A -> A -> Prop) (l : list A) (i : nat) (x y : A) :
  Sorted R l -> l !! i = Some x -> l !! S i = Some y -> R x y.
Proof.
  intros Hs. revert i. induction Hs as [| a l Hs IH Hhd]; intros i Hx Hy.
  - discriminate.
  - destruct i as [| i]; cbn in Hx, Hy.
    + injection Hx as ->. destruct l as [| b l]; [discriminate |].
      cbn in Hy. injection Hy as ->. inversion Hhd; assumption.
    + eapply IH; eassumption.
Qed.

(** Every entry of the sorted key list is an index of [v] with its entry. *)
Lemma sort_keys_entry (v : list Q) (j a : nat) (q : Q) :
  sort_keys (imap (fun i x => (i, x)) v) !! j = Some (a, q) -> v !! a = Some q.
Proof.
  intros Hj.
  apply list_elem_of_lookup_2 in Hj.
  rewrite sort_keys_perm in Hj.
  apply elem_of_lookup_imap in Hj as (i & y & Heq & Hy).
  injection Heq as -> ->. exact Hy.
Qed.

Lemma top5_entry (p : Probs) (i a : nat) :
  Probs_top5 p !! i = Some a ->
  exists q, sort_keys (imap (fun i x => (i, x)) (map Qopp (probs_data p))) !! i
              = Some (a, (- q)%Q) /\
            probs_data p !! a = Some q.
Proof.
  unfold Probs_top5, argsort. intros Hi.
  apply lookup_take_Some in Hi as [Hi _].
  rewrite list_lookup_fmap in Hi.
  destruct (sort_keys _ !! i) as [[a' x] |] eqn:E; [| discriminate].
  cbn in Hi. injection Hi as ->.
  pose proof (sort_keys_entry _ _ _ _ E) as Hv.
  rewrite list_lookup_fmap in Hv.
  destruct (probs_data p !! a) as [q |] eqn:Eq; [| discriminate].
  cbn in Hv. injection Hv as <-. exists q. split; reflexivity.
Qed.

Lemma prob_at_lookup (p : Probs) (a : nat) (q : Q) :
  probs_data p !! a = Some q -> prob_at p a = q.
Proof. intros H. unfold prob_at. apply nth_lookup_Some with (d := 0%Q) in H. exact H. Qed.

(** C9, as the code has it.  [Probs.top5] lists class indices in descending
    probability order, neighbours of equal probability allowed; its length
    is 5 when there are at least 5 classes, and the number of classes
    otherwise. *)
Theorem top5_descending (p : Probs) :
  descending p (Probs_top5 p) /\
  length (Probs_top5 p) = Nat.min 5 (length (probs_data p)) /\
  (forall a, In a (Probs_top5 p) -> (a < length (probs_data p))%nat).
Proof.
  split; [| split].
  - intros i a b Ha Hb.
    apply top5_entry in Ha as (qa & Ha & Hqa).
    apply top5_entry in Hb as (qb & Hb & Hqb).
    rewrite (prob_at_lookup _ _ _ Hqa), (prob_at_lookup _ _ _ Hqb).
    pose proof (Sorted_adjacent key_le _ _ _ _ (sort_keys_Sorted _) Ha Hb) as Hle.
    unfold key_le in Hle. cbn [snd] in Hle.
    apply Qopp_le_compat in Hle. rewrite !Qopp_involutive in Hle. exact Hle.
  - unfold Probs_top5, argsort.
    rewrite length_take, length_map, (Permutation_length (sort_keys_perm _)).
    rewrite length_imap, length_map. reflexivity.
  - intros a Hin. apply list_elem_of_In, list_elem_of_lookup_1 in Hin as [i Hi].
    apply top5_entry in Hi as (q & _ & Hq).
    apply lookup_lt_Some in Hq. exact Hq.
Qed.

(** C9 as stated fails: on two classes of probability 1/2 each, [top5] is
    [[0; 1]], which is not in strictly descending probability order. *)
Lemma top5_not_strictly_descending :
  Probs_top5 tied_probs = [0; 1]%nat /\
  ~ strictly_descending tied_probs (Probs_top5 tied_probs).
Proof.
  split; [reflexivity |].
  intros H. specialize (H 0%nat 0%nat 1%nat eq_refl eq_refl).
  vm_compute in H. discriminate.
Qed.

(** ** The monad *)

Lemma bind_Some {A B} (m : M A) (f : A -> M B) (w w' : World) (b : B) :
  bind m f w = Some (b, w') <->
  exists a w1, m w = Some (a, w1) /\ f a w1 = Some (b, w').
Proof.
  unfold bind. split.
  - destruct (m w) as [[a w1] |]; [| discriminate]. intros H. eauto.
  - intros (a & w1 & -> & H). exact H.
Qed.

Lemma lift_opt_Some {A} (o : option A) (w w' : World) (a : A) :
  lift_opt o w = Some (a, w') -> o = Some a /\ w' = w.
Proof.
  destruct o; cbn; unfold ret, raise; intros H; [| discriminate].
  injection H as -> ->. split; reflexivity.
Qed.

Lemma ret_Some {A} (a b : A) (w w' : World) :
  ret a w = Some (b, w') -> b = a /\ w' = w.
Proof. unfold ret. intros H. injection H as -> ->. split; reflexivity. Qed.

(** Inversion of a successful run, one monadic step at a time. *)
Ltac minv H :=
  lazymatch type of H with
  | bind _ _ _ = Some _ =>
      let a := fresh "a" in let w1 := fresh "w" in
      let H1 := fresh "Hm" in let H2 := fresh "Hk" in
      apply bind_Some in H as (a & w1 & H1 & H2)
  | lift_opt _ _ = Some _ =>
      let E := fresh "E" in apply lift_opt_Some in H as [E ->]
  | ret _ _ = Some _ =>
      let E := fresh "E" in apply ret_Some in H as [E ->]
  end.

Lemma appends_ret : appends (ret tt) [].
Proof. intros [h c]. unfold ret. cbn. rewrite app_nil_r. reflexivity. Qed.

Lemma appends_emit (e : Event) : appends (emit e) [e].
Proof. intros w. reflexivity. Qed.

Lemma appends_bind (m1 m2 : M unit) (e1 e2 : list Event) :
  appends m1 e1 -> appends m2 e2 -> appends (m1 ;;; m2) (e1 ++ e2).
Proof.
  intros H1 H2 w. unfold bind. rewrite H1, H2. cbn. rewrite app_assoc. reflexivity.
Qed.

Lemma appends_when (c : bool) (m : M unit) (evs : list Event) :
  appends m evs -> appends (when c m) (if c then evs else []).
Proof. intros H. destruct c; [exact H | apply appends_ret]. Qed.

Lemma appends_eq (m : M unit) (e1 e2 : list Event) :
  appends m e1 -> e1 = e2 -> appends m e2.
Proof. intros H <-. exact H. Qed.

(** ** Truncated quotients *)

Lemma py_int_half (a : Z) : py_int (inject_Z a / 2) = a ÷ 2.
Proof. unfold py_int. cbn. rewrite Z.mul_1_r. reflexivity. Qed.

Lemma py_int_eighth (a : Z) : py_int (inject_Z a / 8) = a ÷ 8.
Proof. unfold py_int. cbn. rewrite Z.mul_1_r. reflexivity. Qed.

Lemma py_int_quarter (a : Z) : py_int (inject_Z a / 4) = a ÷ 4.
Proof. unfold py_int. cbn. rewrite Z.mul_1_r. reflexivity. Qed.

Lemma py_int_percent (a : Z) (n : positive) :
  py_int (inject_Z a * (Zpos n # 100)) = (a * Zpos n) ÷ 100.
Proof. reflexivity. Qed.

Lemma py_int_div_3_5 (a : Z) : py_int (inject_Z a / (7 # 2)) = (2 * a) ÷ 7.
Proof. unfold py_int. cbn. rewrite (Z.mul_comm a 2). reflexivity. Qed.

Lemma middle_eq (r : Rect) : middle r = ((c0 r + c2 r) ÷ 2, c3 r).
Proof. unfold middle. rewrite py_int_half. reflexivity. Qed.

Lemma departs_iff (l r : Point) (w : Z) :
  departs l r w = true <-> departs_trunc (fst l) (fst r) w.
Proof.
  unfold departs, departs_trunc, LD_TH, departure_distance, driver_x.
  rewrite py_int_div_3_5, !py_int_half. apply Z.ltb_lt.
Qed.

(** ** The corridor, the center line and the departure caption *)

Lemma left_middle_appends (i : Image) (a b : Rect) :
  appends (left_middle (Some i) a b)
          (gated (a, b) [left_line i (a, b); middle_line i (a, b)]).
Proof.
  unfold left_middle, gated, both_resolved, corners. cbn [fst snd].
  destruct (supplied a), (supplied b); cbn [fst snd andb]; try apply appends_ret.
  eapply appends_eq.
  - apply appends_bind; apply appends_when; cbn [cv2_line]; apply appends_emit.
  - unfold DRAW_LEFT_LINE, DRAW_MIDDLE_LINE, left_line, middle_line.
    rewrite !middle_eq. reflexivity.
Qed.

Lemma right_segment_appends (i : Image) (a b : Rect) :
  appends (right_segment (Some i) a b) (gated (a, b) [right_line i (a, b)]).
Proof.
  unfold right_segment, gated, both_resolved, corners. cbn [fst snd].
  destruct (supplied a), (supplied b); cbn [fst snd andb]; try apply appends_ret.
  apply appends_emit.
Qed.

Lemma draw_corridor_appends (i : Image) (F : Landmarks) :
  appends (draw_corridor (Some i) F) (corridor_lines i F).
Proof.
  unfold draw_corridor, DRAW_VANISH_LINE, DRAW_VANISH_POINT, DRAW_RIGHT_LINE.
  cbn [when]. eapply appends_eq.
  - apply appends_bind.
    { instantiate (1 := if supplied (VLA_pt F)
                        then [vanish_line i (VLA_pt F)] else []).
      unfold corners. destruct (supplied (VLA_pt F));
        [apply appends_emit | apply appends_ret]. }
    repeat (apply appends_bind; [apply left_middle_appends |]).
    apply appends_bind; [apply appends_ret |].
    apply appends_bind; [| apply appends_ret].
    repeat (apply appends_bind; [apply right_segment_appends |]).
    apply right_segment_appends.
  - unfold corridor_lines, segments, lane_chain.
    cbn [zip zip_with tail flat_map]. rewrite !app_nil_r, <- !app_assoc.
    reflexivity.
Qed.

Lemma draw_corridor_nothing (w : World) :
  draw_corridor None no_landmarks w = Some (tt, w).
Proof. destruct w. reflexivity. Qed.

Lemma draw_center_LDWS_appends (i : Image) (F : Landmarks) :
  appends (draw_center_LDWS (Some i) F) (center_LDWS_events i F).
Proof.
  unfold draw_center_LDWS, center_LDWS_events, DRAW_CENTER_LINE, DRAW_LDWS.
  change (center_line_ev i :: ?l) with ([center_line_ev i] ++ l).
  apply appends_bind.
  - cbn [when]. unfold center_line, center_line_ev.
    rewrite py_int_half, !py_int_percent. apply appends_emit.
  - cbn [when]. unfold draw_LDWS, corners.
    destruct (supplied (DCA_pt F)); cbn [andb]; [| apply appends_ret].
    apply appends_when. unfold warning_ev.
    rewrite py_int_eighth, py_int_quarter. apply appends_emit.
Qed.

(** ** The loops *)

Section PlotFacts.
Variable colors : Z -> Color.
Variable box_label :
  list Event -> list Q -> option Label -> Color -> Landmarks * Image.

Lemma det_label_pure names labels cf d w x w' :
  det_label names labels cf d w = Some (x, w') ->
  w' = w /\ forall v, det_label names labels cf d v = Some (x, v).
Proof.
  unfold det_label, bind, lift_opt, ret, raise.
  destruct (item (Boxes_cls d)) as [cq |]; [| discriminate].
  destruct (truthy cf); [destruct (item (Boxes_conf d)); [| discriminate] |];
    (destruct (Boxes_id d) as [v |];
     [destruct (item v); [| discriminate] |]);
    destruct (names !! py_int cq); try discriminate;
    intros H; injection H as <- <-; split; reflexivity.
Qed.

Lemma render_inv names labels cf d w L im cf' w' :
  render colors box_label names labels cf d w = Some ((L, im, cf'), w') ->
  exists c label,
    (forall v, det_label names labels cf d v = Some ((c, cf', label), v)) /\
    (L, im) = box_label (canvas w) (squeeze (Boxes_xyxy d)) label (colors c) /\
    w' = mkWorld (HISTORY_VLA_pt w)
           (canvas w ++ [BoxLabel_call (squeeze (Boxes_xyxy d)) label (colors c)]).
Proof.
  unfold render. intros H. minv H. destruct a as [[c cf1] label].
  apply det_label_pure in Hm as [-> Hd].
  minv Hk. destruct a as [L1 im1]. minv Hk0. injection E as -> -> ->.
  unfold call_box_label in Hm. injection Hm as HL <-.
  exists c, label. repeat split; [exact Hd | symmetry; exact HL].
Qed.

(** A render call reads the frame only, not the history. *)
Lemma render_canvas names labels cf d w x w' v :
  render colors box_label names labels cf d w = Some (x, w') ->
  canvas v = canvas w ->
  exists v', render colors box_label names labels cf d v = Some (x, v') /\
             canvas v' = canvas w' /\ HISTORY_VLA_pt v' = HISTORY_VLA_pt v.
Proof.
  intros H Hc. destruct x as [[L im] cf'].
  apply render_inv in H as (c & label & Hd & HL & ->).
  exists (mkWorld (HISTORY_VLA_pt v)
            (canvas v ++ [BoxLabel_call (squeeze (Boxes_xyxy d)) label (colors c)])).
  split; [| split; [| reflexivity]].
  - unfold render, bind. rewrite Hd. unfold call_box_label.
    rewrite Hc, <- HL. reflexivity.
  - cbn. rewrite Hc. reflexivity.
Qed.

Lemma map_M_lift_opt {A B} (f : A -> option B) xs w ys w' :
  map_M (fun i => lift_opt (f i)) xs w = Some (ys, w') ->
  w' = w /\ Forall2 (fun i y => f i = Some y) xs ys /\
  forall v, map_M (fun i => lift_opt (f i)) xs v = Some (ys, v).
Proof.
  revert ys w'. induction xs as [| x xs IH]; intros ys w' H; cbn in H.
  - minv H. subst. repeat split. constructor.
  - minv H. minv Hm. minv Hk. minv Hk0. subst.
    apply IH in Hm as (-> & HF & Hv). repeat split.
    + constructor; assumption.
    + intros v. cbn. unfold bind. rewrite E. cbn. rewrite Hv. reflexivity.
Qed.

Lemma Boxes_getitem_rows b i d :
  Boxes_getitem b i = Some d ->
  exists row, arr_rows (data b) !! i = Some row /\ arr_rows (data d) = [row].
Proof.
  unfold Boxes_getitem. destruct (arr_rows (data b) !! i) as [row |];
    [| discriminate].
  unfold Boxes_init. cbn.
  destruct (Nat.eqb (length row) 6 || Nat.eqb (length row) 7); [| discriminate].
  intros H. injection H as <-. exists row. split; reflexivity.
Qed.

Lemma Forall2_getitem_rows b (idxs : list nat) ds (rows : list (list Q)) :
  Forall2 (fun i d => Boxes_getitem b i = Some d) idxs ds ->
  Forall2 (fun i row => arr_rows (data b) !! i = Some row) idxs rows ->
  map (fun d => squeeze (Boxes_xyxy d)) ds = map (take 4) rows.
Proof.
  intros H. revert rows. induction H as [| i d idxs ds Hd _ IH]; intros rows Hr.
  - inversion Hr. reflexivity.
  - inversion Hr as [| ? row ? rows' Hrow Hr']; subst. cbn. f_equal.
    + apply Boxes_getitem_rows in Hd as (row' & Hrow' & Hd).
      rewrite Hrow in Hrow'. injection Hrow' as <-.
      unfold squeeze, Boxes_xyxy. rewrite Hd. cbn. apply app_nil_r.
    + apply IH. exact Hr'.
Qed.

Lemma Forall2_lookup_rev_seq {A} (l : list A) :
  Forall2 (fun i x => l !! i = Some x) (rev (seq 0 (length l))) (rev l).
Proof.
  induction l as [| x l IH] using rev_ind; [constructor |].
  rewrite length_app, Nat.add_comm. cbn [length Nat.add].
  rewrite seq_S, !rev_app_distr. cbn. constructor.
  - rewrite lookup_app_r by lia. rewrite Nat.sub_diag. reflexivity.
  - eapply Forall2_impl; [exact IH |]. cbn. intros i y Hi.
    rewrite lookup_app_l; [exact Hi |]. eapply lookup_lt_Some, Hi.
Qed.

Lemma Boxes_reversed_inv b w ds w' :
  Boxes_reversed b w = Some (ds, w') ->
  w' = w /\ (forall v, Boxes_reversed b v = Some (ds, v)) /\
  length ds = Boxes_len b /\
  map (fun d => squeeze (Boxes_xyxy d)) ds = rev (Boxes_xyxy b).
Proof.
  unfold Boxes_reversed. intros H.
  apply map_M_lift_opt in H as (-> & HF & Hv). repeat split; [exact Hv | |].
  - apply Forall2_length in HF. rewrite <- HF, length_rev, length_seq.
    reflexivity.
  - unfold Boxes_xyxy. rewrite <- map_rev.
    eapply Forall2_getitem_rows; [exact HF |].
    apply Forall2_lookup_rev_seq.
Qed.
End PlotFacts.

Section ResolveFacts.
Variable colors : Z -> Color.
Variable box_label :
  list Event -> list Q -> option Label -> Color -> Landmarks * Image.

Lemma overwrite_inv F L w F' w' :
  overwrite F L w = Some (F', w') ->
  F' = update_finals F L /\ canvas w' = canvas w /\
  HISTORY_VLA_pt w' =
    (if supplied (VLA_pt L) then Some (VLA_pt L) else HISTORY_VLA_pt w).
Proof.
  unfold overwrite, when, set_history, bind, ret.
  destruct (supplied (VLA_pt L)); intros H; injection H as <- <-;
    repeat split; reflexivity.
Qed.

Lemma resolve_loop names labels ds :
  forall F0 im0 cf0 w F im cf w',
  for_each ds (resolve_body colors box_label names labels) (F0, im0, cf0) w
    = Some ((F, im, cf), w') ->
  exists Ls,
    (forall v, canvas v = canvas w ->
       exists v', render_all colors box_label names labels ds cf0 v
                    = Some (Ls, v') /\ canvas v' = canvas w') /\
    F = fold_left update_finals Ls F0 /\
    length Ls = length ds /\
    HISTORY_VLA_pt w' = history_after Ls (HISTORY_VLA_pt w) /\
    (ds = [] -> im = im0) /\ (ds <> [] -> exists i, im = Some i) /\
    exists evs, canvas w' = canvas w ++ evs /\
      Forall (fun e => is_box_label e = true) evs /\
      box_label_args evs = map (fun d => squeeze (Boxes_xyxy d)) ds.
Proof.
  induction ds as [| d ds IH]; intros F0 im0 cf0 w F im cf w' H; cbn in H.
  - minv H. injection E as -> -> ->. exists []. repeat split.
    + intros v Hv. exists v. split; [reflexivity | exact Hv].
    + intros Hne. congruence.
    + exists []. rewrite app_nil_r. repeat split. constructor.
  - minv H. unfold resolve_body in Hm. minv Hm.
    destruct a0 as [[L im1] cf1]. minv Hk0. minv Hk1. subst a.
    apply overwrite_inv in Hm as (-> & Hc2 & Hh2).
    pose proof Hm0 as Hr. apply render_inv in Hr as (c & label & _ & _ & Hw1).
    apply IH in Hk as (Ls & Hall & HF & Hlen & Hh & Him0 & Him & evs & Hc & Hev & Hargs).
    exists (L :: Ls). repeat split.
    + intros v Hv.
      destruct (render_canvas _ _ _ _ _ _ _ _ _ v Hm0 Hv) as (v1 & Hv1 & Hcv1 & _).
      destruct (Hall v1) as (v' & Hv' & Hcv'); [congruence |].
      exists v'. split; [| exact Hcv']. cbn. unfold bind. rewrite Hv1.
      cbn. unfold bind. rewrite Hv'. reflexivity.
    + exact HF.
    + cbn. rewrite Hlen. reflexivity.
    + rewrite Hh, Hh2, Hw1. reflexivity.
    + discriminate.
    + intros _. destruct ds as [| d' ds'].
      * exists im1. apply Him0. reflexivity.
      * apply Him. discriminate.
    + exists (BoxLabel_call (squeeze (Boxes_xyxy d)) label (colors c) :: evs).
      repeat split.
      * rewrite Hc, Hc2, Hw1. cbn. rewrite <- app_assoc. reflexivity.
      * constructor; [reflexivity | exact Hev].
      * unfold box_label_args in Hargs |- *. cbn. rewrite Hargs. reflexivity.
Qed.
End ResolveFacts.

Lemma update_finals_slot (k : Kind) (F L : Landmarks) :
  slot k (update_finals F L) =
  if supplied (slot k L) then slot k L else slot k F.
Proof. destruct k; reflexivity. Qed.

Lemma lowest_supplier_cons (k : Kind) (L : Landmarks) (cands : list Landmarks)
    (r : Rect) :
  lowest_supplier k cands r ->
  lowest_supplier k (L :: cands)
    (if supplied (slot k L) then slot k L else r).
Proof.
  intros H. destruct (supplied (slot k L)) eqn:E.
  - left. exists 0%nat, L. repeat split; [exact E |]. intros j L' Hj. lia.
  - destruct H as [(i & L0 & Hi & Hs & Hmin & ->) | [Hnone ->]].
    + left. exists (S i), L0. repeat split; [exact Hi | exact Hs |].
      intros [| j] L' Hj Hl; cbn in Hl.
      * injection Hl as <-. exact E.
      * apply (Hmin j); [lia | exact Hl].
    + right. split; [| reflexivity]. intros L' [<- | Hin]; [exact E |].
      apply Hnone, Hin.
Qed.

Lemma fold_lowest_supplier (k : Kind) (Ls : list Landmarks) :
  lowest_supplier k (rev Ls) (slot k (fold_left update_finals Ls no_landmarks)).
Proof.
  induction Ls as [| L Ls IH] using rev_ind.
  - right. split; [intros L [] | destruct k; reflexivity].
  - rewrite fold_left_app, rev_app_distr. cbn [fold_left rev app].
    rewrite update_finals_slot. apply lowest_supplier_cons, IH.
Qed.

Lemma lowest_supplier_supplied (k : Kind) (cands : list Landmarks) (r : Rect) :
  lowest_supplier k cands r ->
  supplied r = true <-> exists L, In L cands /\ supplied (slot k L) = true.
Proof.
  intros [(i & L & Hi & Hs & _ & ->) | [Hnone ->]]; split.
  - intros _. exists L. split; [| exact Hs].
    apply list_elem_of_In, list_elem_of_lookup_2 with i, Hi.
  - intros _. exact Hs.
  - discriminate.
  - intros (L & Hin & Hs). rewrite (Hnone L Hin) in Hs. discriminate.
Qed.

Lemma history_after_finals (Ls : list Landmarks) (h : option Rect) :
  history_after Ls h =
  if supplied (VLA_pt (fold_left update_finals Ls no_landmarks))
  then Some (VLA_pt (fold_left update_finals Ls no_landmarks)) else h.
Proof.
  unfold history_after. induction Ls as [| L Ls IH] using rev_ind;
    [reflexivity |].
  rewrite !fold_left_app. cbn [fold_left]. rewrite IH.
  change (VLA_pt (update_finals ?F L)) with (slot VLA (update_finals F L)).
  rewrite update_finals_slot. cbn [slot].
  destruct (supplied (VLA_pt L)) eqn:E; [rewrite E |]; reflexivity.
Qed.

Section PlotTheorems.
Variable colors : Z -> Color.
Variable box_label :
  list Event -> list Q -> option Label -> Color -> Landmarks * Image.

Lemma lowest_supplier_nil (k : Kind) : lowest_supplier k [] ABSENT.
Proof. right. split; [intros L [] | reflexivity]. Qed.

Lemma resolve_pass_inv self conf labels show_boxes w F im cf w' :
  resolve_pass colors box_label self conf labels show_boxes w
    = Some ((F, im, cf), w') ->
  exists cands,
    (forall v, canvas v = canvas w ->
       exists v', pass_candidates colors box_label self conf labels show_boxes v
                    = Some (cands, v')) /\
    (forall k, lowest_supplier k cands (slot k F)) /\
    length cands =
      (if pass_runs self show_boxes then length (detections self) else 0%nat) /\
    HISTORY_VLA_pt w' =
      (if supplied (VLA_pt F) then Some (VLA_pt F) else HISTORY_VLA_pt w) /\
    (pass_runs self show_boxes = true -> exists i, im = Some i) /\
    (pass_runs self show_boxes = false -> im = None /\ F = no_landmarks) /\
    exists evs, canvas w' = canvas w ++ evs /\
      Forall (fun e => is_box_label e = true) evs /\
      box_label_args evs =
        (if pass_runs self show_boxes then rev (detections self) else []).
Proof.
  unfold resolve_pass, pass_candidates, pass_runs, detections.
  destruct (boxes self) as [b |] eqn:Eb.
  - destruct (nonempty (Some b) && show_boxes) eqn:Erun.
    + intros H. minv H. apply Boxes_reversed_inv in Hm as (-> & Hds & Hlen & Hxy).
      apply resolve_loop in Hk
        as (Ls & Hall & HF & HlenL & Hh & _ & Him & evs & Hc & Hev & Hargs).
      exists (rev Ls). repeat split.
      * intros v Hv. destruct (Hall v Hv) as (v' & Hv' & _).
        exists v'. unfold bind. rewrite Hds. cbn beta iota. rewrite Hv'.
        reflexivity.
      * intros k. rewrite HF. apply fold_lowest_supplier.
      * rewrite length_rev, HlenL, Hlen. unfold Boxes_xyxy, Boxes_len.
        rewrite length_map. reflexivity.
      * rewrite Hh, HF. apply history_after_finals.
      * intros _. apply Him. intros ->. cbn in Hlen.
        apply andb_prop in Erun as [Hne _]. cbn in Hne.
        rewrite <- Hlen in Hne. discriminate.
      * discriminate.
      * discriminate.
      * exists evs. repeat split; [exact Hc | exact Hev |].
        rewrite Hargs. exact Hxy.
    + intros H. minv H. injection E as -> -> ->. exists []. repeat split.
      * intros v _. exists v. reflexivity.
      * intros k. destruct k; apply lowest_supplier_nil.
      * discriminate.
      * exists []. rewrite app_nil_r. repeat split. constructor.
  - intros H. minv H. injection E as -> -> ->. exists []. cbn. repeat split.
    + intros v _. exists v. reflexivity.
    + intros k. destruct k; apply lowest_supplier_nil.
    + discriminate.
    + exists []. rewrite app_nil_r. repeat split. constructor.
Qed.

Lemma fcws_loop names labels kps ds :
  forall cf w cf' w',
  for_each ds (fcws_body colors names labels kps) cf w = Some (cf', w') ->
  HISTORY_VLA_pt w' = HISTORY_VLA_pt w /\
  exists evs, canvas w' = canvas w ++ evs /\
    Forall (fun e => is_FCWS e = true) evs /\
    fcws_args evs =
      match HISTORY_VLA_pt w with
      | Some h => map (fun d => (squeeze (Boxes_xyxy d), kps, c1 h)) ds
      | None => []
      end.
Proof.
  induction ds as [| d ds IH]; intros cf w cf' w' H; cbn in H.
  - minv H. split; [reflexivity |]. exists []. rewrite app_nil_r.
    repeat split; [constructor | destruct (HISTORY_VLA_pt w); reflexivity].
  - minv H. unfold fcws_body in Hm. minv Hm. destruct a0 as [[c cf1] label].
    apply det_label_pure in Hm0 as [-> _]. minv Hk0.
    unfold get_history in Hm. injection Hm as <- <-. minv Hk1. minv Hk0.
    subst a. apply IH in Hk as (Hh & evs & Hc & Hev & Hargs).
    destruct (HISTORY_VLA_pt w) as [h |] eqn:Eh.
    + unfold emit in Hm. injection Hm as Hw1. subst w1. cbn in Hh, Hc, Hargs.
      rewrite Eh in Hh, Hargs. split; [exact Hh |].
      exists (FCWS_call (squeeze (Boxes_xyxy d)) kps (c1 h) label (colors c) :: evs).
      repeat split.
      * rewrite Hc, <- app_assoc. reflexivity.
      * constructor; [reflexivity | exact Hev].
      * unfold fcws_args in Hargs |- *. cbn. rewrite Hargs. reflexivity.
    + minv Hm. rewrite Eh in Hh, Hargs. split; [exact Hh |].
      exists evs. repeat split; assumption.
Qed.

Lemma fcws_pass_inv self labels show_boxes kps cf w cf' w' :
  fcws_pass colors self labels show_boxes kps cf w = Some (cf', w') ->
  HISTORY_VLA_pt w' = HISTORY_VLA_pt w /\
  exists evs, canvas w' = canvas w ++ evs /\
    Forall (fun e => is_FCWS e = true) evs /\
    fcws_args evs =
      match HISTORY_VLA_pt w with
      | Some h =>
          if pass_runs self show_boxes
          then map (fun box => (box, kps, c1 h)) (rev (detections self))
          else []
      | None => []
      end.
Proof.
  unfold fcws_pass, pass_runs, detections.
  assert (Hnil : forall v, ret cf w = Some (cf', v) ->
    HISTORY_VLA_pt v = HISTORY_VLA_pt w /\
    exists evs, canvas v = canvas w ++ evs /\
      Forall (fun e => is_FCWS e = true) evs /\ fcws_args evs = []).
  { intros v H. minv H. split; [reflexivity |]. exists [].
    rewrite app_nil_r. repeat split. constructor. }
  destruct (boxes self) as [b |] eqn:Eb.
  - destruct (nonempty (Some b) && show_boxes) eqn:Erun.
    + intros H. minv H. apply Boxes_reversed_inv in Hm as (-> & _ & _ & Hxy).
      apply fcws_loop in Hk as (Hh & evs & Hc & Hev & Hargs).
      split; [exact Hh |]. exists evs. repeat split; [exact Hc | exact Hev |].
      rewrite Hargs. destruct (HISTORY_VLA_pt w) as [h |]; [| reflexivity].
      rewrite <- Hxy, map_map. reflexivity.
    + intros H. apply Hnil in H as (Hh & evs & Hc & Hev & Hargs).
      split; [exact Hh |]. exists evs. repeat split; [exact Hc | exact Hev |].
      rewrite Hargs. destruct (HISTORY_VLA_pt w); reflexivity.
  - intros H. apply Hnil in H as (Hh & evs & Hc & Hev & Hargs).
    split; [exact Hh |]. exists evs. repeat split; [exact Hc | exact Hev |].
    rewrite Hargs. destruct (HISTORY_VLA_pt w); reflexivity.
Qed.

Lemma quiet_ret {A} (a : A) : quiet (ret a).
Proof.
  intros w b w' H. minv H. split; [reflexivity |]. exists [].
  rewrite app_nil_r. split; [reflexivity | constructor].
Qed.

Lemma quiet_lift_opt {A} (o : option A) : quiet (lift_opt o).
Proof. destruct o; [apply quiet_ret | intros w a w' H; discriminate]. Qed.

Lemma quiet_emit (e : Event) : is_plain e = true -> quiet (emit e).
Proof.
  intros He w a w' H. injection H as _ <-. split; [reflexivity |].
  exists [e]. split; [reflexivity | constructor; [exact He | constructor]].
Qed.

Lemma quiet_bind {A B} (m : M A) (f : A -> M B) :
  quiet m -> (forall a, quiet (f a)) -> quiet (bind m f).
Proof.
  intros Hm Hf w b w' H. minv H.
  apply Hm in Hm0 as (Hh1 & e1 & Hc1 & He1).
  apply Hf in Hk as (Hh2 & e2 & Hc2 & He2).
  split; [congruence |]. exists (e1 ++ e2). split.
  - rewrite Hc2, Hc1, app_assoc. reflexivity.
  - apply Forall_app. split; assumption.
Qed.

Lemma quiet_when (c : bool) (m : M unit) : quiet m -> quiet (when c m).
Proof. intros H. destruct c; [exact H | apply quiet_ret]. Qed.

Lemma quiet_map_M {A B} (f : A -> M B) (xs : list A) :
  (forall x, quiet (f x)) -> quiet (map_M f xs).
Proof.
  intros Hf. induction xs as [| x xs IH]; cbn; [apply quiet_ret |].
  apply quiet_bind; [apply Hf |]. intros y.
  apply quiet_bind; [exact IH |]. intros ys. apply quiet_ret.
Qed.

Lemma quiet_for_each {A S} (body : S -> A -> M S) (xs : list A) :
  (forall s x, quiet (body s x)) -> forall s, quiet (for_each xs body s).
Proof.
  intros Hb. induction xs as [| x xs IH]; intros s; cbn; [apply quiet_ret |].
  apply quiet_bind; [apply Hb | exact IH].
Qed.

Lemma quiet_plot_masks self show_masks :
  quiet (plot_masks colors self show_masks).
Proof.
  unfold plot_masks. destruct (masks self); [| apply quiet_ret].
  apply quiet_when, quiet_emit. reflexivity.
Qed.

Lemma quiet_plot_probs self show_probs : quiet (plot_probs self show_probs).
Proof.
  unfold plot_probs. destruct (probs self); [| apply quiet_ret].
  apply quiet_when, quiet_bind.
  - apply quiet_map_M. intros j. apply quiet_bind.
    + destruct (bool_decide (names self = ∅)); [apply quiet_ret |].
      apply quiet_bind; [apply quiet_lift_opt | intros; apply quiet_ret].
    + intros tag. apply quiet_bind; [apply quiet_lift_opt |].
      intros; apply quiet_ret.
  - intros lines. apply quiet_emit. reflexivity.
Qed.

Lemma quiet_plot_kpts self : quiet (plot_kpts self).
Proof.
  unfold plot_kpts. destruct (keypoints self); [| apply quiet_ret].
  apply quiet_for_each. intros [] k. apply quiet_emit. reflexivity.
Qed.

Lemma plot_masks_box_label_args self show_masks w u w' :
  plot_masks colors self show_masks w = Some (u, w') ->
  box_label_args (canvas w') = box_label_args (canvas w).
Proof.
  unfold plot_masks, when, emit, ret.
  destruct (masks self) as [pm |];
    [destruct (negb (Nat.eqb (length pm) 0) && show_masks) |];
    intros H; injection H as _ <-; try reflexivity.
  unfold box_label_args. cbn [canvas]. rewrite omap_app. cbn.
  apply app_nil_r.
Qed.

Lemma plot_resolve_inv self conf labels show_boxes show_masks w F im cf w1 :
  plot_resolve colors box_label self conf labels show_boxes show_masks w
    = Some ((F, im, cf), w1) ->
  (exists cands v,
     plot_candidates colors box_label self conf labels show_boxes show_masks w
       = Some (cands, v) /\
     (forall k, lowest_supplier k cands (slot k F)) /\
     length cands =
       (if pass_runs self show_boxes then length (detections self) else 0%nat)) /\
  HISTORY_VLA_pt w1 =
    (if supplied (VLA_pt F) then Some (VLA_pt F) else HISTORY_VLA_pt w) /\
  (pass_runs self show_boxes = true -> exists i, im = Some i) /\
  (pass_runs self show_boxes = false -> im = None /\ F = no_landmarks) /\
  Forall (fun e => is_plain e = true) (canvas w1) /\
  box_label_args (canvas w1) =
    (if pass_runs self show_boxes then rev (detections self) else []).
Proof.
  unfold plot_resolve, plot_candidates. intros H. minv H.
  unfold new_annotator in Hm. injection Hm as _ <-. minv Hk.
  pose proof Hm as Hmasks.
  apply quiet_plot_masks in Hm as (Hh0 & e0 & Hc0 & He0). cbn in Hh0, Hc0.
  apply resolve_pass_inv in Hk0
    as (cands & Hcands & Hlow & Hlen & Hh & Hsome & Hnone & evs & Hc & Hev & Hargs).
  repeat split.
  - destruct (Hcands w0 eq_refl) as (v' & Hv').
    exists cands, v'. repeat split; [| exact Hlow | exact Hlen].
    unfold bind, new_annotator. rewrite Hmasks. exact Hv'.
  - rewrite Hh, Hh0. reflexivity.
  - exact Hsome.
  - apply Hnone; assumption.
  - apply Hnone; assumption.
  - rewrite Hc, Hc0. apply Forall_app. split; [exact He0 |].
    eapply Forall_impl; [exact Hev |]. intros [] He; cbn in *; congruence.
  - apply plot_masks_box_label_args in Hmasks. cbn in Hmasks.
    rewrite Hc. unfold box_label_args in *. rewrite omap_app, Hmasks, Hargs.
    reflexivity.
Qed.

Lemma plot_overlay_inv self labels show_boxes show_probs F im cf w1 w' :
  (im = None -> F = no_landmarks) ->
  plot_overlay colors self labels show_boxes show_probs (F, im, cf) w1
    = Some (tt, w') ->
  HISTORY_VLA_pt w' = HISTORY_VLA_pt w1 /\
  exists fc post,
    canvas w' = canvas w1 ++ fc ++ overlay_events im F ++ post /\
    Forall (fun e => is_FCWS e = true) fc /\
    fcws_args fc = fcws_expected self show_boxes F (HISTORY_VLA_pt w1) /\
    Forall (fun e => is_plain e = true) post.
Proof.
  intros Hnone H. unfold plot_overlay in H.
  apply bind_Some in H as (cf2 & w2 & Hfcws & H).
  apply bind_Some in H as ([] & w3 & Hcor & H).
  apply bind_Some in H as ([] & w4 & Hcen & H).
  apply bind_Some in H as ([] & w5 & Hprobs & Hkpts).
  apply fcws_pass_inv in Hfcws as (Hh & fc & Hc & Hfc & Hargs).
  apply quiet_plot_probs in Hprobs as (Hh5 & e5 & Hc5 & He5).
  apply quiet_plot_kpts in Hkpts as (Hh6 & e6 & Hc6 & He6).
  assert (Hov : HISTORY_VLA_pt w4 = HISTORY_VLA_pt w2 /\
                canvas w4 = canvas w2 ++ overlay_events im F).
  { destruct im as [i |]; cbn [overlay_events].
    - rewrite draw_corridor_appends in Hcor. injection Hcor as <-.
      rewrite draw_center_LDWS_appends in Hcen. injection Hcen as <-.
      cbn. rewrite <- app_assoc. split; reflexivity.
    - rewrite (Hnone eq_refl), draw_corridor_nothing in Hcor.
      injection Hcor as <-. cbn in Hcen. apply ret_Some in Hcen as [_ ->].
      rewrite app_nil_r. split; reflexivity. }
  destruct Hov as [Hh4 Hc4]. split; [congruence |].
  exists fc, (e5 ++ e6). repeat split.
  - rewrite Hc6, Hc5, Hc4, Hc, <- !app_assoc. reflexivity.
  - exact Hfc.
  - exact Hargs.
  - apply Forall_app. split; assumption.
Qed.

(** The frame a returning call of [plot] leaves, phase by phase. *)
Lemma plot_inv self conf labels show_boxes show_masks show_probs
    w F im cf w1 w' :
  plot_resolve colors box_label self conf labels show_boxes show_masks w
    = Some ((F, im, cf), w1) ->
  Results_plot colors box_label self conf labels show_boxes show_masks
    show_probs w = Some (tt, w') ->
  HISTORY_VLA_pt w' = HISTORY_VLA_pt w1 /\
  exists fc post,
    canvas w' = canvas w1 ++ fc ++ overlay_events im F ++ post /\
    Forall (fun e => is_plain e = true) (canvas w1) /\
    Forall (fun e => is_FCWS e = true) fc /\
    fcws_args fc = fcws_expected self show_boxes F (HISTORY_VLA_pt w1) /\
    Forall (fun e => is_plain e = true) post.
Proof.
  intros Hres Hplot. unfold Results_plot, bind in Hplot. rewrite Hres in Hplot.
  apply plot_resolve_inv in Hres as (_ & _ & Hsome & Hnone & Hplain & _).
  apply plot_overlay_inv in Hplot as (Hh & fc & post & Hc & Hfc & Hargs & Hpost).
  - split; [exact Hh |]. exists fc, post. repeat split; assumption.
  - intros ->. destruct (pass_runs self show_boxes).
    + destruct (Hsome eq_refl) as [i Hi]. discriminate.
    + apply Hnone. reflexivity.
Qed.

Lemma only_app f (l1 l2 : list Event) : only f (l1 ++ l2) = only f l1 ++ only f l2.
Proof. apply List.filter_app. Qed.

Lemma only_none f (l : list Event) :
  Forall (fun e => f e = false) l -> only f l = [].
Proof.
  unfold only. induction 1 as [| e l He _ IH]; [reflexivity |].
  cbn. rewrite He. exact IH.
Qed.

Lemma only_all f (l : list Event) :
  Forall (fun e => f e = true) l -> only f l = l.
Proof.
  unfold only. induction 1 as [| e l He _ IH]; [reflexivity |].
  cbn. rewrite He, IH. reflexivity.
Qed.

Lemma fcws_args_app (l1 l2 : list Event) :
  fcws_args (l1 ++ l2) = fcws_args l1 ++ fcws_args l2.
Proof. apply omap_app. Qed.

Lemma fcws_args_none (l : list Event) :
  Forall (fun e => is_FCWS e = false) l -> fcws_args l = [].
Proof.
  induction 1 as [| e l He _ IH]; [reflexivity |].
  destruct e; cbn in *; try discriminate; exact IH.
Qed.

Lemma corridor_lines_are_lines i F :
  Forall (fun e => is_line e = true) (corridor_lines i F).
Proof.
  unfold corridor_lines, segments, lane_chain, gated, both_resolved.
  cbn [zip zip_with tail flat_map fst snd].
  destruct (supplied (VLA_pt F)), (supplied (DCA_pt F)),
    (supplied (DUA_d_pt F)), (supplied (DUA_m_pt F)),
    (supplied (DUA_u_pt F)), (supplied (DUA_ut_pt F));
    cbn; repeat constructor.
Qed.

Lemma overlay_lines im F :
  only is_line (overlay_events im F) =
  match im with
  | Some i => corridor_lines i F ++ [center_line_ev i]
  | None => []
  end.
Proof.
  destruct im as [i |]; [| reflexivity]. cbn [overlay_events].
  rewrite only_app, (only_all _ _ (corridor_lines_are_lines i F)).
  unfold center_LDWS_events. cbn. destruct (_ && _); reflexivity.
Qed.

Lemma overlay_captions im F :
  only is_putText (overlay_events im F) =
  match im with
  | Some i =>
      if supplied (DCA_pt F) &&
         departs (c0 (DCA_pt F), c1 (DCA_pt F)) (c2 (DCA_pt F), c3 (DCA_pt F))
                 (im_w i)
      then [warning_ev i] else []
  | None => []
  end.
Proof.
  destruct im as [i |]; [| reflexivity]. cbn [overlay_events].
  rewrite only_app, only_none.
  - unfold center_LDWS_events. cbn. destruct (_ && _); reflexivity.
  - eapply Forall_impl; [apply corridor_lines_are_lines |].
    intros [] He; cbn in *; congruence.
Qed.

Lemma overlay_fcws im F : fcws_args (overlay_events im F) = [].
Proof.
  apply fcws_args_none. destruct im as [i |]; [| constructor].
  cbn [overlay_events]. apply Forall_app. split.
  - eapply Forall_impl; [apply corridor_lines_are_lines |].
    intros [] He; cbn in *; congruence.
  - unfold center_LDWS_events. destruct (_ && _); repeat constructor.
Qed.

Lemma plain_not_line (l : list Event) :
  Forall (fun e => is_plain e = true) l -> Forall (fun e => is_line e = false) l.
Proof.
  intros H. eapply Forall_impl; [exact H |].
  intros [] He; cbn in *; congruence.
Qed.

Lemma plain_not_putText (l : list Event) :
  Forall (fun e => is_plain e = true) l ->
  Forall (fun e => is_putText e = false) l.
Proof.
  intros H. eapply Forall_impl; [exact H |].
  intros [] He; cbn in *; congruence.
Qed.

Lemma plain_not_FCWS (l : list Event) :
  Forall (fun e => is_plain e = true) l -> Forall (fun e => is_FCWS e = false) l.
Proof.
  intros H. eapply Forall_impl; [exact H |].
  intros [] He; cbn in *; congruence.
Qed.

Lemma FCWS_not_line (l : list Event) :
  Forall (fun e => is_FCWS e = true) l -> Forall (fun e => is_line e = false) l.
Proof.
  intros H. eapply Forall_impl; [exact H |].
  intros [] He; cbn in *; congruence.
Qed.

Lemma FCWS_not_putText (l : list Event) :
  Forall (fun e => is_FCWS e = true) l ->
  Forall (fun e => is_putText e = false) l.
Proof.
  intros H. eapply Forall_impl; [exact H |].
  intros [] He; cbn in *; congruence.
Qed.

(** The lines, the captions and the FCW label calls of the frame a
    returning call of [plot] leaves. *)
Lemma plot_frame self conf labels show_boxes show_masks show_probs
    w F im cf w1 w' :
  plot_resolve colors box_label self conf labels show_boxes show_masks w
    = Some ((F, im, cf), w1) ->
  Results_plot colors box_label self conf labels show_boxes show_masks
    show_probs w = Some (tt, w') ->
  HISTORY_VLA_pt w' = HISTORY_VLA_pt w1 /\
  only is_line (canvas w') = only is_line (overlay_events im F) /\
  only is_putText (canvas w') = only is_putText (overlay_events im F) /\
  fcws_args (canvas w') = fcws_expected self show_boxes F (HISTORY_VLA_pt w1).
Proof.
  intros Hres Hplot.
  destruct (plot_inv _ _ _ _ _ _ _ _ _ _ _ _ Hres Hplot)
    as (Hh & fc & post & Hc & Hpre & Hfc & Hargs & Hpost).
  split; [exact Hh |]. rewrite Hc. repeat split.
  - rewrite !only_app, (only_none _ _ (plain_not_line _ Hpre)),
      (only_none _ _ (FCWS_not_line _ Hfc)),
      (only_none _ _ (plain_not_line _ Hpost)), app_nil_r. reflexivity.
  - rewrite !only_app, (only_none _ _ (plain_not_putText _ Hpre)),
      (only_none _ _ (FCWS_not_putText _ Hfc)),
      (only_none _ _ (plain_not_putText _ Hpost)), app_nil_r. reflexivity.
  - rewrite !fcws_args_app, (fcws_args_none _ (plain_not_FCWS _ Hpre)),
      overlay_fcws, (fcws_args_none _ (plain_not_FCWS _ Hpost)), app_nil_r.
    exact Hargs.
Qed.

(** ** The landmark resolver *)

(** C1.  After the reversed pass over the box set, each of the seven
    landmark kinds holds the candidate that the render call returned for
    the detection of lowest original index supplying that kind, and the
    absent sentinel if no detection supplies it.  The render calls are made
    on the rectangles of the detections from the last to the first, and
    [cands] lists what they returned by original index. *)
Theorem lowest_index_candidate_wins
    self conf labels show_boxes show_masks w F im cf w1 :
  plot_resolve colors box_label self conf labels show_boxes show_masks w
    = Some ((F, im, cf), w1) ->
  exists cands v,
    plot_candidates colors box_label self conf labels show_boxes show_masks w
      = Some (cands, v) /\
    length cands =
      (if pass_runs self show_boxes then length (detections self) else 0%nat) /\
    box_label_args (canvas w1) =
      (if pass_runs self show_boxes then rev (detections self) else []) /\
    forall k, lowest_supplier k cands (slot k F).
Proof.
  intros H.
  apply plot_resolve_inv in H
    as ((cands & v & Hc & Hlow & Hlen) & _ & _ & _ & _ & Hargs).
  exists cands, v. repeat split; assumption.
Qed.

(** C2.  A call of [plot] in which some detection supplies a VLA leaves the
    history equal to the resolved VLA of the frame; a call in which none
    does leaves the history as it was.  Hence over three frames, the first
    resolving VLA = R1, the second no VLA, the third VLA = R2, every FCW
    label call of the second frame has the row of R1 as reference row and
    every one of the third frame the row of R2. *)
Theorem history_follows_resolved_VLA :
  (forall self conf labels show_boxes show_masks show_probs
          w F im cf w1 w' cands v,
     plot_resolve colors box_label self conf labels show_boxes show_masks w
       = Some ((F, im, cf), w1) ->
     Results_plot colors box_label self conf labels show_boxes show_masks
       show_probs w = Some (tt, w') ->
     plot_candidates colors box_label self conf labels show_boxes show_masks w
       = Some (cands, v) ->
     ((exists L, In L cands /\ supplied (VLA_pt L) = true) ->
      supplied (VLA_pt F) = true /\ HISTORY_VLA_pt w' = Some (VLA_pt F)) /\
     ((forall L, In L cands -> supplied (VLA_pt L) = false) ->
      VLA_pt F = ABSENT /\ HISTORY_VLA_pt w' = HISTORY_VLA_pt w)) /\
  (forall f1 conf1 labels1 boxes1 masks1 probs1
          f2 conf2 labels2 boxes2 masks2 probs2
          f3 conf3 labels3 boxes3 masks3 probs3
          w0 w1 w2 w3 F1 im1 cf1 v1 F2 im2 cf2 v2 F3 im3 cf3 v3 R1 R2,
     plot_resolve colors box_label f1 conf1 labels1 boxes1 masks1 w0
       = Some ((F1, im1, cf1), v1) ->
     Results_plot colors box_label f1 conf1 labels1 boxes1 masks1 probs1 w0
       = Some (tt, w1) ->
     plot_resolve colors box_label f2 conf2 labels2 boxes2 masks2 w1
       = Some ((F2, im2, cf2), v2) ->
     Results_plot colors box_label f2 conf2 labels2 boxes2 masks2 probs2 w1
       = Some (tt, w2) ->
     plot_resolve colors box_label f3 conf3 labels3 boxes3 masks3 w2
       = Some ((F3, im3, cf3), v3) ->
     Results_plot colors box_label f3 conf3 labels3 boxes3 masks3 probs3 w2
       = Some (tt, w3) ->
     VLA_pt F1 = R1 -> supplied R1 = true ->
     supplied (VLA_pt F2) = false ->
     VLA_pt F3 = R2 -> supplied R2 = true ->
     HISTORY_VLA_pt w1 = Some R1 /\
     HISTORY_VLA_pt w2 = Some R1 /\
     HISTORY_VLA_pt w3 = Some R2 /\
     fcws_args (canvas w2) =
       (if pass_runs f2 boxes2
        then map (fun box => (box, ADAS_Key_Points F2, c1 R1))
                 (rev (detections f2))
        else []) /\
     fcws_args (canvas w3) =
       map (fun box => (box, ADAS_Key_Points F3, c1 R2)) (rev (detections f3)) /\
     length (fcws_args (canvas w3)) = length (detections f3)).
Proof.
  split.
  - intros self conf labels show_boxes show_masks show_probs
      w F im cf w1 w' cands v Hres Hplot Hcands.
    destruct (plot_frame _ _ _ _ _ _ _ _ _ _ _ _ Hres Hplot) as (Hh & _).
    apply plot_resolve_inv in Hres
      as ((cands' & v' & Hc' & Hlow & _) & Hh1 & _).
    rewrite Hcands in Hc'. injection Hc' as <- <-.
    pose proof (lowest_supplier_supplied _ _ _ (Hlow VLA)) as Hiff.
    cbn [slot] in Hiff. split.
    + intros Hex. apply Hiff in Hex. split; [exact Hex |].
      rewrite Hh, Hh1, Hex. reflexivity.
    + intros Hall. destruct (Hlow VLA) as [(i & L & Hi & Hs & _) | [_ Habs]].
      * apply list_elem_of_lookup_2, list_elem_of_In in Hi.
        cbn [slot] in Hs. rewrite (Hall L Hi) in Hs. discriminate.
      * cbn [slot] in Habs. split; [exact Habs |].
        rewrite Hh, Hh1, Habs. reflexivity.
  - intros f1 conf1 labels1 boxes1 masks1 probs1
      f2 conf2 labels2 boxes2 masks2 probs2
      f3 conf3 labels3 boxes3 masks3 probs3
      w0 w1 w2 w3 F1 im1 cf1 v1 F2 im2 cf2 v2 F3 im3 cf3 v3 R1 R2
      Hr1 Hp1 Hr2 Hp2 Hr3 Hp3 HR1 Hs1 Hs2 HR2 Hs3.
    destruct (plot_frame _ _ _ _ _ _ _ _ _ _ _ _ Hr1 Hp1) as (Hh1 & _).
    destruct (plot_frame _ _ _ _ _ _ _ _ _ _ _ _ Hr2 Hp2)
      as (Hh2 & _ & _ & Hf2).
    destruct (plot_frame _ _ _ _ _ _ _ _ _ _ _ _ Hr3 Hp3)
      as (Hh3 & _ & _ & Hf3).
    apply plot_resolve_inv in Hr1 as (_ & Hv1 & _).
    apply plot_resolve_inv in Hr2 as (_ & Hv2 & _).
    apply plot_resolve_inv in Hr3 as (_ & Hv3 & _ & Hnone3 & _).
    rewrite HR1, Hs1 in Hv1. rewrite Hs2 in Hv2. rewrite HR2, Hs3 in Hv3.
    assert (E1 : HISTORY_VLA_pt w1 = Some R1) by congruence.
    assert (E2 : HISTORY_VLA_pt v2 = Some R1) by congruence.
    assert (Hrun3 : pass_runs f3 boxes3 = true).
    { destruct (pass_runs f3 boxes3); [reflexivity |].
      destruct (Hnone3 eq_refl) as [_ HF3]. rewrite HF3 in HR2.
      subst R2. discriminate. }
    rewrite E2 in Hf2. rewrite Hv3 in Hf3. unfold fcws_expected in Hf2, Hf3.
    rewrite Hrun3 in Hf3.
    repeat split; try congruence.
    rewrite Hf3, length_map, length_rev. reflexivity.
Qed.

(** ** The departure decision *)

(** C3, as the code has it.  In a frame whose DCA is resolved to
    (lx, ly, rx, ry), with [im] of width w and height h, the only caption
    is the departure warning at (w/8, h/4), and it is rendered if and only
    if |(lx + rx)/2 - w/2| > |rx - lx| / 3.5 where every quotient is
    truncated to an integer first; in a frame without a resolved DCA no
    caption is rendered.  With w = 640, corners (200,400) and (440,400)
    give no warning and corners (100,400) and (340,400) give one. *)
Theorem departure_warning_truncated
    self conf labels show_boxes show_masks show_probs w F im cf w1 w' :
  plot_resolve colors box_label self conf labels show_boxes show_masks w
    = Some ((F, im, cf), w1) ->
  Results_plot colors box_label self conf labels show_boxes show_masks
    show_probs w = Some (tt, w') ->
  (supplied (DCA_pt F) = true ->
   exists i, im = Some i /\
     (departs_trunc (c0 (DCA_pt F)) (c2 (DCA_pt F)) (im_w i) ->
      only is_putText (canvas w') = [warning_ev i]) /\
     (~ departs_trunc (c0 (DCA_pt F)) (c2 (DCA_pt F)) (im_w i) ->
      only is_putText (canvas w') = [])) /\
  (supplied (DCA_pt F) = false -> only is_putText (canvas w') = []) /\
  ~ departs_trunc 200 440 640 /\ departs_trunc 100 340 640.
Proof.
  intros Hres Hplot.
  destruct (plot_frame _ _ _ _ _ _ _ _ _ _ _ _ Hres Hplot) as (_ & _ & Hcap & _).
  rewrite overlay_captions in Hcap.
  apply plot_resolve_inv in Hres as (_ & _ & Hsome & Hnone & _).
  split; [| split; [| split]].
  - intros Hdca.
    assert (Hrun : pass_runs self show_boxes = true).
    { destruct (pass_runs self show_boxes); [reflexivity |].
      destruct (Hnone eq_refl) as [_ ->]. discriminate. }
    destruct (Hsome Hrun) as [i ->]. exists i. split; [reflexivity |].
    rewrite Hdca in Hcap. cbn [andb] in Hcap. split; intros Hd.
    + assert (E : departs (c0 (DCA_pt F), c1 (DCA_pt F))
                          (c2 (DCA_pt F), c3 (DCA_pt F)) (im_w i) = true)
        by (apply departs_iff; exact Hd).
      rewrite E in Hcap. exact Hcap.
    + destruct (departs _ _ _) eqn:E; [| exact Hcap].
      apply departs_iff in E. contradiction.
  - intros Hdca. rewrite Hdca in Hcap. destruct im; exact Hcap.
  - intros H. vm_compute in H. discriminate.
  - reflexivity.
Qed.

(** ** The forward-collision label pass *)

(** C4, as the code has it.  A frame processed while the history is absent
    after its resolver pass makes no FCW label call.  When the history is
    present and the detection loops run (a box set that is not empty, box
    drawing enabled), one FCW label call is made per detection, on its
    rectangle, with the five key-point pairs and the vertical coordinate of
    the history as reference row; when the loops do not run, none is
    made. *)
Theorem FCW_pass_gated
    self conf labels show_boxes show_masks show_probs w F im cf w1 w' :
  plot_resolve colors box_label self conf labels show_boxes show_masks w
    = Some ((F, im, cf), w1) ->
  Results_plot colors box_label self conf labels show_boxes show_masks
    show_probs w = Some (tt, w') ->
  (HISTORY_VLA_pt w1 = None -> fcws_args (canvas w') = []) /\
  (forall hist, HISTORY_VLA_pt w1 = Some hist ->
     pass_runs self show_boxes = true ->
     fcws_args (canvas w') =
       map (fun box => (box, ADAS_Key_Points F, c1 hist)) (rev (detections self)) /\
     length (fcws_args (canvas w')) = length (detections self)) /\
  (pass_runs self show_boxes = false -> fcws_args (canvas w') = []).
Proof.
  intros Hres Hplot.
  destruct (plot_frame _ _ _ _ _ _ _ _ _ _ _ _ Hres Hplot) as (_ & _ & _ & Hf).
  unfold fcws_expected in Hf. split; [| split].
  - intros Hh. rewrite Hh in Hf. exact Hf.
  - intros hist Hh Hrun. rewrite Hh, Hrun in Hf. split; [exact Hf |].
    rewrite Hf, length_map, length_rev. reflexivity.
  - intros Hrun. rewrite Hrun in Hf. destruct (HISTORY_VLA_pt w1); exact Hf.
Qed.

(** ** The corridor and the center line *)

(** C5, as the code has it.  The center line is drawn, as the vertical
    segment at x = w/2 from 80% to 99% of the height h (each truncated to a
    pixel) of the buffer [im] the render calls return, exactly in the
    frames whose detection loop runs: a box set that is not empty and box
    drawing enabled.  In the other frames no line is drawn at all. *)
Theorem center_line_needs_a_detection
    self conf labels show_boxes show_masks show_probs w F im cf w1 w' :
  plot_resolve colors box_label self conf labels show_boxes show_masks w
    = Some ((F, im, cf), w1) ->
  Results_plot colors box_label self conf labels show_boxes show_masks
    show_probs w = Some (tt, w') ->
  (pass_runs self show_boxes = true ->
   exists i, im = Some i /\ In (center_line_ev i) (canvas w') /\
     only is_line (canvas w') = corridor_lines i F ++ [center_line_ev i]) /\
  (pass_runs self show_boxes = false -> only is_line (canvas w') = []).
Proof.
  intros Hres Hplot.
  destruct (plot_frame _ _ _ _ _ _ _ _ _ _ _ _ Hres Hplot) as (_ & Hl & _).
  rewrite overlay_lines in Hl.
  apply plot_resolve_inv in Hres as (_ & _ & Hsome & Hnone & _).
  split.
  - intros Hrun. destruct (Hsome Hrun) as [i ->]. exists i.
    repeat split; [| exact Hl].
    assert (Hin : In (center_line_ev i) (only is_line (canvas w'))).
    { rewrite Hl. apply in_or_app. right. left. reflexivity. }
    unfold only in Hin. apply List.filter_In in Hin. apply Hin.
  - intros Hrun. destruct (Hnone Hrun) as [-> _]. exact Hl.
Qed.

(** C6.  The lines of a frame are the vanish line, then for each of the
    segments p1-p2, p2-p3, p3-p4, p4-p5 its left and middle line, then for
    each its right line, then the center line, where the lines of a segment
    are drawn if and only if both of its end landmarks are resolved,
    whatever the other landmarks are.  With only p2 and p4 resolved no
    segment is drawn; with only p3 absent exactly the segments p1-p2 and
    p4-p5 are. *)
Theorem segments_gated_independently
    self conf labels show_boxes show_masks show_probs w F im cf w1 w' i :
  plot_resolve colors box_label self conf labels show_boxes show_masks w
    = Some ((F, im, cf), w1) ->
  Results_plot colors box_label self conf labels show_boxes show_masks
    show_probs w = Some (tt, w') ->
  im = Some i ->
  let vanish := if supplied (VLA_pt F) then [vanish_line i (VLA_pt F)] else [] in
  let p1 := DCA_pt F in let p2 := DUA_d_pt F in let p3 := DUA_m_pt F in
  let p4 := DUA_u_pt F in let p5 := DUA_ut_pt F in
  only is_line (canvas w') =
    vanish ++
    flat_map (fun ab => gated ab [left_line i ab; middle_line i ab])
             [(p1, p2); (p2, p3); (p3, p4); (p4, p5)] ++
    flat_map (fun ab => gated ab [right_line i ab])
             [(p1, p2); (p2, p3); (p3, p4); (p4, p5)] ++
    [center_line_ev i] /\
  (supplied p1 = false -> supplied p2 = true -> supplied p3 = false ->
   supplied p4 = true -> supplied p5 = false ->
   only is_line (canvas w') = vanish ++ [center_line_ev i]) /\
  (supplied p1 = true -> supplied p2 = true -> supplied p3 = false ->
   supplied p4 = true -> supplied p5 = true ->
   only is_line (canvas w') =
     vanish ++
     [left_line i (p1, p2); middle_line i (p1, p2);
      left_line i (p4, p5); middle_line i (p4, p5);
      right_line i (p1, p2); right_line i (p4, p5); center_line_ev i]).
Proof.
  intros Hres Hplot ->.
  destruct (plot_frame _ _ _ _ _ _ _ _ _ _ _ _ Hres Hplot) as (_ & Hl & _).
  rewrite overlay_lines in Hl. rewrite Hl.
  unfold corridor_lines, segments, lane_chain, gated, both_resolved.
  cbn [zip zip_with tail flat_map fst snd]. repeat split.
  - rewrite <- !app_assoc. reflexivity.
  - intros -> -> -> -> ->. cbn. rewrite <- !app_assoc. reflexivity.
  - intros -> -> -> -> ->. cbn. rewrite <- !app_assoc. reflexivity.
Qed.

End PlotTheorems.

(** ** The presence test *)

Lemma supplied_c0 (r : Rect) : supplied r = negb (c0 r =? 9999).
Proof. reflexivity. Qed.

Lemma lowest_supplier_first (k : Kind) (cands : list Landmarks) (r : Rect) :
  lowest_supplier k cands r ->
  (forall i L, cands !! i = Some L -> c0 (slot k L) <> 9999 ->
     (forall j L', (j < i)%nat -> cands !! j = Some L' ->
        c0 (slot k L') = 9999) ->
     r = slot k L) /\
  ((forall L, In L cands -> c0 (slot k L) = 9999) -> r = ABSENT).
Proof.
  assert (Hyes : forall x, supplied x = true -> c0 x <> 9999).
  { intros x. rewrite supplied_c0. intros H E. apply Z.eqb_eq in E.
    rewrite E in H. discriminate. }
  assert (Hno : forall x, supplied x = false -> c0 x = 9999).
  { intros x. rewrite supplied_c0. intros H.
    destruct (Z.eqb_spec (c0 x) 9999); [assumption | discriminate]. }
  intros [(i0 & L0 & Hi0 & Hs0 & Hlow0 & ->) | [Hall ->]]; split.
  - intros i L Hi Hs Hlow.
    destruct (Nat.lt_trichotomy i0 i) as [Hlt | [-> | Hgt]].
    + exfalso. apply (Hyes _ Hs0). exact (Hlow _ _ Hlt Hi0).
    + rewrite Hi0 in Hi. injection Hi as ->. reflexivity.
    + exfalso. apply Hs. apply Hno. exact (Hlow0 _ _ Hgt Hi).
  - intros Hall. exfalso. apply (Hyes _ Hs0). apply Hall.
    apply list_elem_of_In. eapply list_elem_of_lookup_2, Hi0.
  - intros i L Hi Hs _. exfalso. apply Hs, Hno, Hall.
    apply list_elem_of_In. eapply list_elem_of_lookup_2, Hi.
  - intros _. reflexivity.
Qed.

Section PresenceTest.
Variable colors : Z -> Color.
Variable box_label :
  list Event -> list Q -> option Label -> Color -> Landmarks * Image.

(** C7.  In a call of [plot], whether a rectangle counts as a landmark is
    decided by its first coordinate alone.
    - One pass of the overwrites (lines 282-296) replaces the resolved
      rectangle of a kind, and the history for a VLA, exactly when the first
      coordinate of the candidate is not 9999.
    - After the resolver loop each kind holds the candidate of lowest index
      whose first coordinate is not 9999, whatever its other coordinates
      are, and the sentinel if the first coordinate of every candidate is
      9999, whatever their other coordinates are; the history is replaced
      exactly when the first coordinate of the resolved VLA is not 9999.
    - The corner points of lines 314-332, handed to every FCW label call,
      and the vanishing point of lines 336-337 are set exactly when the
      first coordinates are not 9999, and so are the lines drawn.
    So (9999, y1, x2, y2) is absent whatever y1, x2 and y2 are, and
    (x1, 9999, 9999, 9999) is a landmark whenever x1 is not 9999. *)
Theorem absence_is_first_coordinate
    self conf labels show_boxes show_masks show_probs w F im cf w1 w' cands v :
  plot_resolve colors box_label self conf labels show_boxes show_masks w
    = Some ((F, im, cf), w1) ->
  plot_candidates colors box_label self conf labels show_boxes show_masks w
    = Some (cands, v) ->
  Results_plot colors box_label self conf labels show_boxes show_masks
    show_probs w = Some (tt, w') ->
  let present (r : Rect) := negb (c0 r =? 9999) in
  let pair (r : Rect) : option Point * option Point :=
    if present r then (Some (c0 r, c1 r), Some (c2 r, c3 r))
    else (None, None) in
  let p1 := DCA_pt F in let p2 := DUA_d_pt F in let p3 := DUA_m_pt F in
  let p4 := DUA_u_pt F in let p5 := DUA_ut_pt F in
  (forall G L u,
     exists G' u',
       overwrite G L u = Some (G', u') /\
       (forall k, slot k G' = if present (slot k L) then slot k L else slot k G) /\
       HISTORY_VLA_pt u' =
         (if present (VLA_pt L) then Some (VLA_pt L) else HISTORY_VLA_pt u)) /\
  (forall k,
     (forall i L, cands !! i = Some L -> c0 (slot k L) <> 9999 ->
        (forall j L', (j < i)%nat -> cands !! j = Some L' ->
           c0 (slot k L') = 9999) ->
        slot k F = slot k L) /\
     ((forall L, In L cands -> c0 (slot k L) = 9999) -> slot k F = ABSENT) /\
     (forall i L x1, cands !! i = Some L ->
        slot k L = mkRect x1 9999 9999 9999 -> x1 <> 9999 ->
        (forall j L', (j < i)%nat -> cands !! j = Some L' ->
           c0 (slot k L') = 9999) ->
        slot k F = mkRect x1 9999 9999 9999) /\
     ((forall L, In L cands ->
         exists y1 x2 y2, slot k L = mkRect 9999 y1 x2 y2) ->
      slot k F = ABSENT)) /\
  HISTORY_VLA_pt w' =
    (if present (VLA_pt F) then Some (VLA_pt F) else HISTORY_VLA_pt w) /\
  ADAS_Key_Points F = [pair p1; pair p2; pair p3; pair p4; pair p5] /\
  Forall (fun a => snd (fst a) = [pair p1; pair p2; pair p3; pair p4; pair p5])
         (fcws_args (canvas w')) /\
  vanish_point F =
    (if present (VLA_pt F) && present (VPA_pt F)
     then Some ((c0 (VPA_pt F) + c2 (VPA_pt F)) ÷ 2, c1 (VLA_pt F))
     else None) /\
  (forall i, im = Some i ->
     only is_line (canvas w') =
       (if present (VLA_pt F) then [vanish_line i (VLA_pt F)] else []) ++
       flat_map (fun ab => if present (fst ab) && present (snd ab)
                           then [left_line i ab; middle_line i ab] else [])
                [(p1, p2); (p2, p3); (p3, p4); (p4, p5)] ++
       flat_map (fun ab => if present (fst ab) && present (snd ab)
                           then [right_line i ab] else [])
                [(p1, p2); (p2, p3); (p3, p4); (p4, p5)] ++
       [center_line_ev i]).
Proof.
  intros Hres Hcands Hplot present pair p1 p2 p3 p4 p5.
  pose proof (plot_resolve_inv colors box_label _ _ _ _ _ _ _ _ _ _ Hres)
    as ((cands0 & v0 & Hc0 & Hlow & _) & Hhist & _).
  rewrite Hcands in Hc0. injection Hc0 as <- <-.
  destruct (plot_frame colors box_label _ _ _ _ _ _ _ _ _ _ _ _ Hres Hplot)
    as (Hh' & Hl & _ & Hfc).
  assert (Hkp : ADAS_Key_Points F = [pair p1; pair p2; pair p3; pair p4; pair p5])
    by reflexivity.
  split; [| split; [| split; [| split; [| split; [| split]]]]].
  - intros G L u. unfold overwrite, when, set_history, bind, ret.
    destruct (supplied (VLA_pt L)) eqn:E; eexists _, _;
      (split; [reflexivity |]);
      (split; [intros k; exact (update_finals_slot k G L) |]);
      change (present (VLA_pt L)) with (supplied (VLA_pt L));
      rewrite E; reflexivity.
  - intros k. destruct (lowest_supplier_first k cands _ (Hlow k)) as [Ha Hb].
    split; [exact Ha |]. split; [exact Hb |]. split.
    + intros i L x1 Hi HL Hx Hlower. rewrite <- HL.
      apply (Ha i L Hi); [rewrite HL; exact Hx | exact Hlower].
    + intros Hall. apply Hb. intros L HL.
      destruct (Hall L HL) as (y1 & x2 & y2 & ->). reflexivity.
  - rewrite Hh', Hhist. reflexivity.
  - exact Hkp.
  - rewrite Hfc, <- Hkp. unfold fcws_expected.
    destruct (HISTORY_VLA_pt w1); [| constructor].
    destruct (pass_runs self show_boxes); [| constructor].
    apply Forall_forall. intros a Ha.
    apply list_elem_of_In, in_map_iff in Ha as (box & <- & _). reflexivity.
  - unfold vanish_point. rewrite py_int_half. reflexivity.
  - intros i ->. rewrite Hl, overlay_lines.
    unfold corridor_lines, segments, lane_chain, gated, both_resolved.
    cbn [zip zip_with tail flat_map fst snd].
    rewrite <- !app_assoc. reflexivity.
Qed.
End PresenceTest.

(** ** Examples *)

Lemma lowest_index_candidate_wins_witness :
  exists F im cf w1,
    plot_resolve demo_colors demo_box_label tie_frame true true true true fresh
      = Some ((F, im, cf), w1) /\
    DCA_pt F = mkRect 100 400 340 400 /\
    exists cands v,
      plot_candidates demo_colors demo_box_label tie_frame true true true true fresh
        = Some (cands, v) /\
      length cands =
        (if pass_runs tie_frame true then length (detections tie_frame) else 0%nat) /\
      box_label_args (canvas w1) =
        (if pass_runs tie_frame true then rev (detections tie_frame) else []) /\
      forall k, lowest_supplier k cands (slot k F).
Proof.
  eexists _, _, _, _. split; [vm_compute; reflexivity |].
  split; [reflexivity |].
  eapply lowest_index_candidate_wins. vm_compute. reflexivity.
Defined.

Lemma history_follows_resolved_VLA_witness :
  (demo_plot vla_frame1 true fresh = Some (tt, seq_w1) /\
   demo_plot car_frame true seq_w1 = Some (tt, seq_w2) /\
   demo_plot vla_frame2 true seq_w2 = Some (tt, seq_w3)) /\
  HISTORY_VLA_pt seq_w1 = Some (mkRect 0 200 640 200) /\
  HISTORY_VLA_pt seq_w2 = Some (mkRect 0 200 640 200) /\
  HISTORY_VLA_pt seq_w3 = Some (mkRect 0 220 640 220) /\
  fcws_args (canvas seq_w2) =
    (if pass_runs car_frame true
     then map (fun box => (box, ADAS_Key_Points seq_F2, c1 (mkRect 0 200 640 200)))
              (rev (detections car_frame))
     else []) /\
  fcws_args (canvas seq_w3) =
    map (fun box => (box, ADAS_Key_Points seq_F3, c1 (mkRect 0 220 640 220)))
        (rev (detections vla_frame2)) /\
  length (fcws_args (canvas seq_w3)) = length (detections vla_frame2).
Proof.
  split; [repeat split; vm_compute; reflexivity |].
  refine (proj2 (history_follows_resolved_VLA demo_colors demo_box_label)
            vla_frame1 true true true true true
            car_frame true true true true true
            vla_frame2 true true true true true
            fresh seq_w1 seq_w2 seq_w3
            (mkLandmarks (mkRect 0 200 640 200) ABSENT ABSENT ABSENT ABSENT
               ABSENT ABSENT)
            _ _ _ seq_F2 _ _ _ seq_F3 _ _ _
            (mkRect 0 200 640 200) (mkRect 0 220 640 220)
            _ _ _ _ _ _ _ _ _ _ _);
    vm_compute; reflexivity.
Defined.

Lemma departure_warning_truncated_witness :
  demo_plot warn_frame true fresh = Some (tt, warn_w) /\
  DCA_pt warn_F = mkRect 100 400 340 400 /\
  only is_putText (canvas warn_w) = [warning_ev demo_image] /\
  ((supplied (DCA_pt warn_F) = true ->
    exists i, Some demo_image = Some i /\
      (departs_trunc (c0 (DCA_pt warn_F)) (c2 (DCA_pt warn_F)) (im_w i) ->
       only is_putText (canvas warn_w) = [warning_ev i]) /\
      (~ departs_trunc (c0 (DCA_pt warn_F)) (c2 (DCA_pt warn_F)) (im_w i) ->
       only is_putText (canvas warn_w) = [])) /\
   (supplied (DCA_pt warn_F) = false -> only is_putText (canvas warn_w) = []) /\
   ~ departs_trunc 200 440 640 /\ departs_trunc 100 340 640).
Proof.
  split; [vm_compute; reflexivity |]. split; [reflexivity |].
  split; [vm_compute; reflexivity |].
  refine (departure_warning_truncated demo_colors demo_box_label
            warn_frame true true true true true fresh warn_F (Some demo_image)
            _ _ warn_w _ _);
    vm_compute; reflexivity.
Defined.

(** C3 as stated fails: with the center divider resolved to
    (131, 400, 372, 400) on a frame 640 wide, the caption is rendered, while
    |(131 + 372)/2 - 320| = 68.5 is not above |372 - 131| / 3.5 = 68.86. *)
Lemma departure_warning_not_exact :
  demo_plot edge_frame true fresh = Some (tt, edge_w) /\
  resolved_by (demo_resolve edge_frame true) fresh
    = mkLandmarks ABSENT (mkRect 131 400 372 400) ABSENT ABSENT ABSENT ABSENT ABSENT /\
  In (warning_ev demo_image) (canvas edge_w) /\
  ~ departs_exact 131 372 640.
Proof.
  split; [vm_compute; reflexivity |]. split; [vm_compute; reflexivity |].
  split.
  - vm_compute. right. right. left. reflexivity.
  - intros H. vm_compute in H. discriminate.
Qed.

Lemma FCW_pass_gated_witness :
  demo_plot car_frame true primed = Some (tt, primed_w) /\
  length (fcws_args (canvas primed_w)) = 2%nat /\
  ((HISTORY_VLA_pt primed_w1 = None -> fcws_args (canvas primed_w) = []) /\
   (forall hist, HISTORY_VLA_pt primed_w1 = Some hist ->
      pass_runs car_frame true = true ->
      fcws_args (canvas primed_w) =
        map (fun box => (box, ADAS_Key_Points primed_F, c1 hist))
            (rev (detections car_frame)) /\
      length (fcws_args (canvas primed_w)) = length (detections car_frame)) /\
   (pass_runs car_frame true = false -> fcws_args (canvas primed_w) = [])).
Proof.
  split; [vm_compute; reflexivity |]. split; [reflexivity |].
  refine (FCW_pass_gated demo_colors demo_box_label
            car_frame true true true true true primed primed_F _ _ primed_w1
            primed_w _ _);
    vm_compute; reflexivity.
Defined.

(** C4 as stated fails: with the history present and two detections in the
    frame, a call with box drawing disabled makes no FCW label call. *)
Lemma FCW_pass_skipped_without_boxes :
  demo_plot car_frame false primed = Some (tt, unboxed_w) /\
  HISTORY_VLA_pt unboxed_w = Some (mkRect 0 200 640 200) /\
  length (detections car_frame) = 2%nat /\
  fcws_args (canvas unboxed_w) = [].
Proof. repeat split; vm_compute; reflexivity. Qed.

Lemma center_line_needs_a_detection_witness :
  demo_plot gap_frame true fresh = Some (tt, gap_w) /\
  In (center_line_ev demo_image) (canvas gap_w) /\
  center_line_ev demo_image =
    CvLine demo_image (320, 384) (320, 475) [255; 255; 0] 2 /\
  ((pass_runs gap_frame true = true ->
    exists i, Some demo_image = Some i /\ In (center_line_ev i) (canvas gap_w) /\
      only is_line (canvas gap_w) = corridor_lines i gap_F ++ [center_line_ev i]) /\
   (pass_runs gap_frame true = false -> only is_line (canvas gap_w) = [])).
Proof.
  split; [vm_compute; reflexivity |].
  split; [vm_compute; tauto |]. split; [reflexivity |].
  refine (center_line_needs_a_detection demo_colors demo_box_label
            gap_frame true true true true true fresh gap_F (Some demo_image)
            _ _ gap_w _ _);
    vm_compute; reflexivity.
Defined.

(** C5 as stated fails: a call on a frame without a box set, and a call with
    box drawing disabled on a frame of five detections, both return a frame
    on which no line is drawn. *)
Lemma center_line_missing :
  (demo_plot bare_frame true fresh = Some (tt, bare_w) /\
   forall e, In e (canvas bare_w) -> is_line e = false) /\
  (demo_plot gap_frame false fresh = Some (tt, hidden_w) /\
   length (detections gap_frame) = 5%nat /\
   forall e, In e (canvas hidden_w) -> is_line e = false).
Proof.
  split; [split | split; [| split]]; try (vm_compute; reflexivity).
  - intros e []. 
  - intros e [].
Qed.

Lemma segments_gated_independently_witness :
  demo_plot gap_frame true fresh = Some (tt, gap_w) /\
  (supplied (DCA_pt gap_F) = true /\ supplied (DUA_d_pt gap_F) = true /\
   supplied (DUA_m_pt gap_F) = false /\ supplied (DUA_u_pt gap_F) = true /\
   supplied (DUA_ut_pt gap_F) = true) /\
  only is_line (canvas gap_w) =
    [CvLine demo_image (0, 200) (640, 200) [255; 0; 200] 1;
     CvLine demo_image (100, 400) (150, 350) [127; 255; 0] 2;
     CvLine demo_image (320, 400) (320, 350) [255; 127] 2;
     CvLine demo_image (250, 250) (290, 220) [127; 255; 0] 2;
     CvLine demo_image (320, 250) (320, 220) [255; 127] 2;
     CvLine demo_image (540, 400) (490, 350) [0; 127; 255] 2;
     CvLine demo_image (390, 250) (350, 220) [0; 127; 255] 2;
     CvLine demo_image (320, 384) (320, 475) [255; 255; 0] 2] /\
  (let vanish := if supplied (VLA_pt gap_F)
                 then [vanish_line demo_image (VLA_pt gap_F)] else [] in
   let p1 := DCA_pt gap_F in let p2 := DUA_d_pt gap_F in
   let p3 := DUA_m_pt gap_F in
   let p4 := DUA_u_pt gap_F in let p5 := DUA_ut_pt gap_F in
   only is_line (canvas gap_w) =
     vanish ++
     flat_map (fun ab => gated ab [left_line demo_image ab; middle_line demo_image ab])
              [(p1, p2); (p2, p3); (p3, p4); (p4, p5)] ++
     flat_map (fun ab => gated ab [right_line demo_image ab])
              [(p1, p2); (p2, p3); (p3, p4); (p4, p5)] ++
     [center_line_ev demo_image] /\
   (supplied p1 = false -> supplied p2 = true -> supplied p3 = false ->
    supplied p4 = true -> supplied p5 = false ->
    only is_line (canvas gap_w) = vanish ++ [center_line_ev demo_image]) /\
   (supplied p1 = true -> supplied p2 = true -> supplied p3 = false ->
    supplied p4 = true -> supplied p5 = true ->
    only is_line (canvas gap_w) =
      vanish ++
      [left_line demo_image (p1, p2); middle_line demo_image (p1, p2);
       left_line demo_image (p4, p5); middle_line demo_image (p4, p5);
       right_line demo_image (p1, p2); right_line demo_image (p4, p5);
       center_line_ev demo_image])).
Proof.
  split; [vm_compute; reflexivity |].
  split; [repeat split |]. split; [vm_compute; reflexivity |].
  refine (segments_gated_independently demo_colors demo_box_label
            gap_frame true true true true true fresh gap_F (Some demo_image)
            _ _ gap_w demo_image _ _ _);
    vm_compute; reflexivity.
Defined.

Lemma absence_is_first_coordinate_witness :
  Results_plot demo_colors odd_box_label odd_frame true true true true true
    fresh = Some (tt, odd_w) /\
  map (slot DCA) odd_cands = [ABSENT; mkRect 5 9999 9999 9999; ABSENT] /\
  map (slot DUA_d) odd_cands = [ABSENT; ABSENT; mkRect 9999 350 490 350] /\
  DCA_pt odd_F = mkRect 5 9999 9999 9999 /\
  DUA_d_pt odd_F = ABSENT /\
  Forall (fun a => snd (fst a) =
                   [(Some (5, 9999), Some (9999, 9999)); (None, None);
                    (None, None); (None, None); (None, None)])
         (fcws_args (canvas odd_w)) /\
  only is_line (canvas odd_w) =
    [vanish_line demo_image (VLA_pt odd_F); center_line_ev demo_image].
Proof.
  assert (Hres : plot_resolve demo_colors odd_box_label odd_frame true true
                   true true fresh
                 = Some ((odd_F, Some demo_image, PyFloat (9 # 10)), odd_w1))
    by (vm_compute; reflexivity).
  assert (Hcands : plot_candidates demo_colors odd_box_label odd_frame true
                     true true true fresh = Some (odd_cands, odd_v))
    by (vm_compute; reflexivity).
  assert (Hplot : Results_plot demo_colors odd_box_label odd_frame true true
                    true true true fresh = Some (tt, odd_w))
    by (vm_compute; reflexivity).
  destruct (absence_is_first_coordinate demo_colors odd_box_label odd_frame
              true true true true true fresh odd_F (Some demo_image)
              (PyFloat (9 # 10)) odd_w1 odd_w odd_cands odd_v
              Hres Hcands Hplot)
    as (_ & Hpass & _ & _ & Hfc & _ & Hlines).
  split; [exact Hplot |]. split; [reflexivity |]. split; [reflexivity |].
  split; [| split; [| split; [exact Hfc | exact (Hlines demo_image eq_refl)]]].
  - destruct (Hpass DCA) as (_ & _ & Hyes & _).
    apply (Hyes 1%nat (mkLandmarks ABSENT (mkRect 5 9999 9999 9999) ABSENT
                         ABSENT ABSENT ABSENT ABSENT) 5);
      [reflexivity | reflexivity | lia |].
    intros j L' Hj HL'. destruct j as [| j]; [| lia].
    injection HL' as <-. reflexivity.
  - destruct (Hpass DUA_d) as (_ & _ & _ & Hno). apply Hno.
    intros L HL. cbn in HL.
    destruct HL as [<- | [<- | [<- | []]]]; eexists _, _, _; reflexivity.
Defined.

Lemma top5_descending_witness :
  Probs_top5 demo_probs = [1; 3; 5; 0; 4]%nat /\
  (descending demo_probs (Probs_top5 demo_probs) /\
   length (Probs_top5 demo_probs) = Nat.min 5 (length (probs_data demo_probs)) /\
   (forall a, In a (Probs_top5 demo_probs) ->
      (a < length (probs_data demo_probs))%nat)).
Proof.
  split; [reflexivity |]. apply (top5_descending demo_probs).
Defined.

(** * Further properties of the code *)

(** ** [Keypoints] *)

Lemma mask_point_conf (p : list Q) : nth 2 (mask_point p) 0%Q = nth 2 p 0%Q.
Proof.
  unfold mask_point. destruct (Qle_bool (1 # 2) (nth 2 p 0%Q)); [reflexivity |].
  destruct p as [| a [| b [| c p]]]; reflexivity.
Qed.

Lemma mask_point_idem (p : list Q) : mask_point (mask_point p) = mask_point p.
Proof.
  unfold mask_point at 1. rewrite mask_point_conf. unfold mask_point.
  destruct (Qle_bool (1 # 2) (nth 2 p 0%Q)) eqn:E; [reflexivity |].
  rewrite imap_imap. apply imap_ext. intros j x _. cbn beta.
  destruct (Nat.ltb j 2); reflexivity.
Qed.

Lemma mask_point_length (p : list Q) : length (mask_point p) = length p.
Proof.
  unfold mask_point. destruct (Qle_bool _ _); [reflexivity | apply length_imap].
Qed.

(** X1.  [Keypoints.__init__] on points with a confidence channel zeroes the
    x and y of every point whose confidence is below 0.5 and leaves the other
    points as they are; the confidence itself, the number of detections and
    the number of points of a detection are kept.  Without a confidence
    channel the points are stored as given. *)
Theorem Keypoints_init_masks (a : KArray) (sh : Z * Z) :
  length (kp_data (Keypoints_init a sh)) = length (kpromote a) /\
  (kchannels a = 3%nat ->
   forall i det j x y c,
     kpromote a !! i = Some det -> det !! j = Some [x; y; c] ->
     exists det', kp_data (Keypoints_init a sh) !! i = Some det' /\
       length det' = length det /\
       ((c < 1 # 2)%Q -> det' !! j = Some [0; 0; c]%Q) /\
       ((1 # 2 <= c)%Q -> det' !! j = Some [x; y; c])) /\
  (kchannels a <> 3%nat -> kp_data (Keypoints_init a sh) = kpromote a).
Proof.
  unfold Keypoints_init. cbn [kp_data]. split; [| split].
  - destruct (Nat.eqb (kchannels a) 3); [apply length_map | reflexivity].
  - intros Hd i det j x y c Hi Hj. rewrite Hd. cbn [Nat.eqb].
    exists (map mask_point det). rewrite list_lookup_fmap, Hi.
    split; [reflexivity |]. split; [apply length_map |].
    rewrite list_lookup_fmap, Hj.
    assert (Hm : mask_point [x; y; c]
                 = if Qle_bool (1 # 2) c then [x; y; c] else [0; 0; c]%Q)
      by reflexivity.
    cbn. rewrite Hm.
    destruct (Qle_bool (1 # 2) c) eqn:E; split; intros Hc.
    + apply Qle_bool_iff in E. exfalso. apply (Qlt_not_le _ _ Hc E).
    + reflexivity.
    + reflexivity.
    + apply Qle_bool_iff in Hc. congruence.
  - intros Hd. apply Nat.eqb_neq in Hd. rewrite Hd. reflexivity.
Qed.

Lemma Keypoints_init_masks_witness :
  exists det',
    kp_data (Keypoints_init demo_kpts (480, 640)) !! 0%nat = Some det' /\
    length det' = 2%nat /\
    ((4 # 10 < 1 # 2)%Q -> det' !! 0%nat = Some [0; 0; 4 # 10]%Q) /\
    ((1 # 2 <= 4 # 10)%Q -> det' !! 0%nat = Some [10; 20; 4 # 10]%Q).
Proof.
  exact (proj1 (proj2 (Keypoints_init_masks demo_kpts (480, 640))) eq_refl
           0%nat [[10; 20; 4 # 10]; [30; 40; 6 # 10]]%Q 0%nat
           10%Q 20%Q (4 # 10)%Q eq_refl eq_refl).
Defined.

(** X2.  Indexing a [Keypoints] by a detection inside its range runs the
    constructor on the points of that detection, and gives a [Keypoints] of
    exactly these points (masking them again changes nothing), with the same
    channels, visibility flag and frame shape; an index past the last
    detection fails. *)
Theorem Keypoints_getitem_detection (a : KArray) (sh : Z * Z) (i : nat) :
  (forall pts, kp_data (Keypoints_init a sh) !! i = Some pts ->
     exists k', Keypoints_getitem (Keypoints_init a sh) i = Some k' /\
       kp_data k' = [pts] /\
       kp_channels k' = kp_channels (Keypoints_init a sh) /\
       has_visible k' = has_visible (Keypoints_init a sh) /\
       kp_orig_shape k' = sh) /\
  ((length (kp_data (Keypoints_init a sh)) <= i)%nat ->
   Keypoints_getitem (Keypoints_init a sh) i = None).
Proof.
  unfold Keypoints_getitem. split.
  - intros pts Hi. rewrite Hi. eexists. split; [reflexivity |].
    unfold Keypoints_init at 1. cbn [kp_data kp_channels has_visible
      kp_orig_shape kchannels kpromote].
    repeat split. unfold Keypoints_init in Hi. cbn [kp_data] in Hi.
    cbn [Keypoints_init kp_channels].
    destruct (Nat.eqb (kchannels a) 3) eqn:Ed; [| reflexivity].
    rewrite list_lookup_fmap in Hi.
    destruct (kpromote a !! i) as [det |]; [| discriminate].
    cbn in Hi. injection Hi as <-. cbn. f_equal.
    rewrite map_map. apply map_ext. intros p. apply mask_point_idem.
  - intros Hlen. apply lookup_ge_None_2 in Hlen. rewrite Hlen. reflexivity.
Qed.

Lemma Keypoints_getitem_detection_witness :
  exists k',
    Keypoints_getitem
      (Keypoints_init (KArr3 3 [[[10; 20; 4 # 10]]; [[30; 40; 6 # 10]]]%Q)
         (480, 640)) 1 = Some k' /\
    kp_data k' = [[[30; 40; 6 # 10]]]%Q /\
    kp_channels k' = 3%nat /\ has_visible k' = true /\
    kp_orig_shape k' = (480, 640).
Proof.
  apply (proj1 (Keypoints_getitem_detection
                  (KArr3 3 [[[10; 20; 4 # 10]]; [[30; 40; 6 # 10]]]%Q)
                  (480, 640) 1)).
  reflexivity.
Defined.

(** X3.  [Keypoints.conf] is present exactly when the points have three
    channels, and is then the confidence channel of the buffer the object
    was built from: the masking never changes a confidence. *)
Theorem Keypoints_conf_kept (a : KArray) (sh : Z * Z) :
  (kchannels a = 3%nat ->
   has_visible (Keypoints_init a sh) = true /\
   Keypoints_conf (Keypoints_init a sh)
     = Some (map (map (fun p => nth 2 p 0%Q)) (kpromote a))) /\
  (kchannels a <> 3%nat ->
   has_visible (Keypoints_init a sh) = false /\
   Keypoints_conf (Keypoints_init a sh) = None).
Proof.
  unfold Keypoints_conf, Keypoints_init. cbn [has_visible kp_data]. split.
  - intros ->. cbn [Nat.eqb]. split; [reflexivity |]. f_equal.
    rewrite map_map. apply map_ext. intros det. rewrite map_map.
    apply map_ext. intros p. apply mask_point_conf.
  - intros Hd. apply Nat.eqb_neq in Hd. rewrite Hd. split; reflexivity.
Qed.

Lemma Keypoints_conf_kept_witness :
  has_visible (Keypoints_init demo_kpts
                 (480, 640)) = true /\
  Keypoints_conf (Keypoints_init demo_kpts
                    (480, 640))
    = Some (map (map (fun p => nth 2 p 0%Q))
              (kpromote demo_kpts)).
Proof.
  apply (proj1 (Keypoints_conf_kept
                  demo_kpts (480, 640))).
  reflexivity.
Defined.

Lemma kscale_back_point (h w : Z) (p : list Q) :
  h <> 0 -> w <> 0 ->
  Forall2 Qeq
    (mul_cols [1]%nat h (mul_cols [0]%nat w
       (div_cols [1]%nat h (div_cols [0]%nat w p)))) p.
Proof.
  intros Hh Hw. unfold mul_cols, div_cols. rewrite !imap_imap.
  apply imap_Qeq_id. intros j x.
  assert (Hh' : ~ (inject_Z h == 0)%Q) by (unfold Qeq, inject_Z; simpl; lia).
  assert (Hw' : ~ (inject_Z w == 0)%Q) by (unfold Qeq, inject_Z; simpl; lia).
  destruct (bool_decide (j ∈ [0]%nat)), (bool_decide (j ∈ [1]%nat));
    try reflexivity; field; auto.
Qed.

(** X4.  On a frame of non-zero height and width, scaling [Keypoints.xyn]
    back by the frame size (x by the width, y by the height) gives
    [Keypoints.xy], entry by entry over exact arithmetic. *)
Theorem Keypoints_xyn_round_trip (k : Keypoints) :
  fst (kp_orig_shape k) <> 0 -> snd (kp_orig_shape k) <> 0 ->
  Forall2 (Forall2 (Forall2 Qeq))
    (kscale_back (kp_orig_shape k) (Keypoints_xyn k)) (Keypoints_xy k).
Proof.
  intros Hh Hw. unfold Keypoints_xyn, kscale_back.
  induction (Keypoints_xy k) as [| det t IH]; cbn; constructor; [| exact IH].
  induction det as [| p det IHd]; cbn; constructor; [| exact IHd].
  apply kscale_back_point; assumption.
Qed.

Lemma Keypoints_xyn_round_trip_witness :
  Forall2 (Forall2 (Forall2 Qeq))
    (kscale_back (480, 640)
       (Keypoints_xyn (Keypoints_init demo_kpts
                         (480, 640))))
    (Keypoints_xy (Keypoints_init demo_kpts
                     (480, 640))).
Proof.
  apply (Keypoints_xyn_round_trip
           (Keypoints_init demo_kpts
              (480, 640))); cbn; lia.
Defined.

(** ** [Probs.top1] *)

Lemma argmax_from_spec (l : list Q) :
  forall pre best bv,
    pre !! best = Some bv ->
    (forall j y, pre !! j = Some y -> (y <= bv)%Q) ->
    (forall j y, (j < best)%nat -> pre !! j = Some y -> (y < bv)%Q) ->
    exists x,
      (pre ++ l) !! argmax_from l (length pre) best bv = Some x /\
      (forall j y, (pre ++ l) !! j = Some y -> (y <= x)%Q) /\
      (forall j y, (j < argmax_from l (length pre) best bv)%nat ->
         (pre ++ l) !! j = Some y -> (y < x)%Q).
Proof.
  induction l as [| x l IH]; intros pre best bv Hb Hmax Hfirst.
  - rewrite app_nil_r. cbn. exists bv. repeat split; assumption.
  - cbn [argmax_from].
    replace (pre ++ x :: l) with ((pre ++ [x]) ++ l)
      by (rewrite <- app_assoc; reflexivity).
    replace (S (length pre)) with (length (pre ++ [x]))
      by (rewrite length_app; cbn; lia).
    destruct (Qle_bool x bv) eqn:E.
    + apply Qle_bool_iff in E. apply IH.
      * apply lookup_app_l_Some. exact Hb.
      * intros j y Hj. apply lookup_app_Some in Hj as [Hj | [_ Hj]].
        -- eapply Hmax, Hj.
        -- apply list_lookup_singleton_Some in Hj as [_ <-]. exact E.
      * intros j y Hlt Hj. apply lookup_app_Some in Hj as [Hj | [Hge _]].
        -- eapply Hfirst; eassumption.
        -- apply lookup_lt_Some in Hb. lia.
    + assert (Hlt : (bv < x)%Q).
      { apply Qnot_le_lt. intros Hle. apply Qle_bool_iff in Hle. congruence. }
      apply IH.
      * rewrite lookup_app_r by lia. rewrite Nat.sub_diag. reflexivity.
      * intros j y Hj. apply lookup_app_Some in Hj as [Hj | [_ Hj]].
        -- apply Qlt_le_weak. eapply Qle_lt_trans; [eapply Hmax, Hj | exact Hlt].
        -- apply list_lookup_singleton_Some in Hj as [_ <-]. apply Qle_refl.
      * intros j y Hj1 Hj. apply lookup_app_Some in Hj as [Hj | [Hge _]].
        -- eapply Qle_lt_trans; [eapply Hmax, Hj | exact Hlt].
        -- lia.
Qed.

(** X5.  [Probs.top1] of a vector that is not empty is the first index of
    its largest entry: no entry is larger, and every entry before it is
    strictly smaller; [top1conf] is that entry.  On an empty vector [top1]
    is an error. *)
Theorem top1_first_maximum (p : Probs) :
  (probs_data p <> [] ->
   exists i x,
     Probs_top1 p = Some i /\ probs_data p !! i = Some x /\
     Probs_top1conf p = Some x /\
     (forall j y, probs_data p !! j = Some y -> (y <= x)%Q) /\
     (forall j y, (j < i)%nat -> probs_data p !! j = Some y -> (y < x)%Q)) /\
  (probs_data p = [] -> Probs_top1 p = None).
Proof.
  unfold Probs_top1conf, Probs_top1, argmax. split.
  - intros Hne. destruct (probs_data p) as [| x l]; [congruence |].
    destruct (argmax_from_spec l [x] 0%nat x eq_refl) as (m & Hm & Hmax & Hfirst).
    + intros [| j] y Hj; cbn in Hj; [| discriminate].
      injection Hj as <-. apply Qle_refl.
    + intros j y Hj. lia.
    + cbn in Hm, Hmax, Hfirst. exists (argmax_from l 1 0 x), m.
      repeat split; try assumption.
  - intros ->. reflexivity.
Qed.

Lemma top1_first_maximum_witness :
  exists i x,
    Probs_top1 demo_probs = Some i /\ probs_data demo_probs !! i = Some x /\
    Probs_top1conf demo_probs = Some x /\
    (forall j y, probs_data demo_probs !! j = Some y -> (y <= x)%Q) /\
    (forall j y, (j < i)%nat -> probs_data demo_probs !! j = Some y -> (y < x)%Q).
Proof.
  apply (proj1 (top1_first_maximum demo_probs)). discriminate.
Defined.

(** ** [Probs.top5] and the confidences *)

Lemma key_le_trans (x y z : nat * Q) : key_le x y -> key_le y z -> key_le x z.
Proof. unfold key_le. apply Qle_trans. Qed.

Lemma sort_keys_StronglySorted (l : list (nat * Q)) :
  StronglySorted key_le (sort_keys l).
Proof.
  apply Sorted.Sorted_StronglySorted; [| apply sort_keys_Sorted].
  intros x y z. apply key_le_trans.
Qed.

Lemma argsort_perm (v : list Q) : argsort v ≡ₚ seq 0 (length v).
Proof.
  unfold argsort. rewrite sort_keys_perm, fmap_imap.
  rewrite (imap_ext _ (fun j _ => j)) by reflexivity.
  rewrite imap_seq_0. rewrite list_fmap_id. reflexivity.
Qed.

Lemma top5_as_take (p : Probs) :
  Probs_top5 p =
  map fst (take 5 (sort_keys (imap (fun i x => (i, x)) (map Qopp (probs_data p))))).
Proof. unfold Probs_top5, argsort. symmetry. apply fmap_take. Qed.

Lemma sorted_entry_key (v : list Q) (a : nat) (q : Q) :
  (a, q) ∈ sort_keys (imap (fun i x => (i, x)) v) -> v !! a = Some q.
Proof.
  intros Hin. apply list_elem_of_lookup_1 in Hin as [j Hj].
  eapply sort_keys_entry, Hj.
Qed.

Lemma index_in_sorted (v : list Q) (j : nat) (q : Q) :
  v !! j = Some q -> (j, q) ∈ sort_keys (imap (fun i x => (i, x)) v).
Proof.
  intros Hj. rewrite sort_keys_perm. apply elem_of_lookup_imap.
  exists j, q. split; [reflexivity | exact Hj].
Qed.

Lemma top5_length (p : Probs) :
  length (Probs_top5 p) = Nat.min 5 (length (probs_data p)).
Proof.
  unfold Probs_top5.
  rewrite length_take, (Permutation_length (argsort_perm _)), length_seq,
    length_map.
  reflexivity.
Qed.

(** X6.  [Probs.top5] lists no class twice, and no class it leaves out has a
    larger probability than a class it lists. *)
Theorem top5_highest (p : Probs) :
  NoDup (Probs_top5 p) /\
  (forall a j, In a (Probs_top5 p) -> (j < length (probs_data p))%nat ->
     ~ In j (Probs_top5 p) -> (prob_at p j <= prob_at p a)%Q).
Proof.
  split.
  - unfold Probs_top5. eapply sublist_NoDup; [| apply sublist_take].
    rewrite argsort_perm. apply NoDup_seq.
  - intros a j Ha Hj Hnot. rewrite top5_as_take in Ha, Hnot.
    set (l := sort_keys (imap (fun i x => (i, x)) (map Qopp (probs_data p))))
      in *.
    apply list_elem_of_In, list_elem_of_fmap in Ha as ([a' ka] & -> & Ha).
    cbn [fst].
    destruct (probs_data p !! j) as [pj |] eqn:Epj;
      [| apply lookup_ge_None in Epj; lia].
    assert (Hjl : (j, (- pj)%Q) ∈ l).
    { apply index_in_sorted. rewrite list_lookup_fmap, Epj. reflexivity. }
    rewrite <- (take_drop 5 l) in Hjl. apply elem_of_app in Hjl as [Hjl | Hjl].
    { exfalso. apply Hnot, list_elem_of_In, list_elem_of_fmap.
      exists (j, (- pj)%Q). split; [reflexivity | exact Hjl]. }
    pose proof (sort_keys_StronglySorted
                  (imap (fun i x => (i, x)) (map Qopp (probs_data p)))) as Hs.
    fold l in Hs. rewrite <- (take_drop 5 l) in Hs.
    pose proof (StronglySorted_app_1_elem_of _ _ _ _ _ Hs Ha Hjl) as Hle.
    unfold key_le in Hle. cbn [snd] in Hle.
    apply elem_of_take in Ha as (i & Ha & _).
    apply sort_keys_entry in Ha. rewrite list_lookup_fmap in Ha.
    destruct (probs_data p !! a') as [pa |] eqn:Epa; [| discriminate].
    cbn in Ha. injection Ha as <-.
    rewrite (prob_at_lookup _ _ _ Epj), (prob_at_lookup _ _ _ Epa).
    apply Qopp_le_compat in Hle. rewrite !Qopp_involutive in Hle. exact Hle.
Qed.

Lemma top5_highest_witness :
  NoDup (Probs_top5 demo_probs) /\
  (forall a j, In a (Probs_top5 demo_probs) ->
     (j < length (probs_data demo_probs))%nat ->
     ~ In j (Probs_top5 demo_probs) ->
     (prob_at demo_probs j <= prob_at demo_probs a)%Q).
Proof. apply (top5_highest demo_probs). Defined.

(** X7.  On a vector that is not empty, the first class of [top5] has the
    probability [top1conf], and [top5conf] is the list of the probabilities
    of the classes of [top5], in the same order. *)
Theorem top5_starts_at_top1 (p : Probs) :
  probs_data p <> [] ->
  exists a rest x,
    Probs_top5 p = a :: rest /\ Probs_top1conf p = Some x /\
    (prob_at p a == x)%Q /\
    Probs_top5conf p = Some (map (prob_at p) (Probs_top5 p)).
Proof.
  intros Hne.
  assert (Hconf : Probs_top5conf p = Some (map (prob_at p) (Probs_top5 p))).
  { unfold Probs_top5conf. apply mapM_Some. apply Forall2_fmap_r, Forall_Forall2_diag.
    apply Forall_forall. intros a Ha.
    apply list_elem_of_lookup_1 in Ha as [i Hi].
    apply top5_entry in Hi as (q & _ & Hq). unfold compose.
    rewrite (prob_at_lookup _ _ _ Hq). exact Hq. }
  destruct (Probs_top5 p) as [| a rest] eqn:E5.
  { pose proof (top5_length p) as Hlen. rewrite E5 in Hlen.
    destruct (probs_data p); [congruence | discriminate]. }
  unfold Probs_top1conf, Probs_top1, argmax.
  destruct (probs_data p) as [| x0 l0] eqn:Ed; [congruence |].
  destruct (argmax_from_spec l0 [x0] 0%nat x0 eq_refl) as (x & Hx & Hmax & _).
  { intros [| j] y Hj; cbn in Hj; [| discriminate].
    injection Hj as <-. apply Qle_refl. }
  { intros j y Hj. lia. }
  cbn [app length] in Hx, Hmax. rewrite <- Ed in Hx, Hmax.
  exists a, rest, x. rewrite <- Ed. repeat split; [exact Hx | | exact Hconf].
  rewrite top5_as_take in E5.
  set (l := sort_keys (imap (fun i x => (i, x)) (map Qopp (probs_data p)))) in *.
  pose proof (sort_keys_StronglySorted
                (imap (fun i x => (i, x)) (map Qopp (probs_data p)))) as Hs.
  fold l in Hs.
  assert (Hi : (argmax_from l0 1 0 x0, (- x)%Q) ∈ l).
  { apply index_in_sorted. rewrite list_lookup_fmap, Hx. reflexivity. }
  destruct l as [| [a' ka] l'] eqn:El; [discriminate |].
  cbn in E5. injection E5 as -> _.
  assert (Ha : (a, ka) ∈ l) by (rewrite El; left).
  unfold l in Ha. apply sorted_entry_key in Ha. rewrite list_lookup_fmap in Ha.
  destruct (probs_data p !! a) as [pa |] eqn:Epa; [| discriminate].
  cbn in Ha. injection Ha as <-. rewrite (prob_at_lookup _ _ _ Epa).
  apply Qle_antisym; [eapply Hmax, Epa |].
  apply StronglySorted_cons in Hs as [Hall _].
  apply elem_of_cons in Hi as [Hi | Hi].
  - apply (f_equal fst) in Hi. cbn [fst] in Hi. rewrite Hi in Hx.
    rewrite Hx in Epa. injection Epa as ->. apply Qle_refl.
  - rewrite Forall_forall in Hall. specialize (Hall _ Hi).
    unfold key_le in Hall. cbn [snd] in Hall.
    apply Qopp_le_compat in Hall. rewrite !Qopp_involutive in Hall. exact Hall.
Qed.

Lemma top5_starts_at_top1_witness :
  exists a rest x,
    Probs_top5 demo_probs = a :: rest /\ Probs_top1conf demo_probs = Some x /\
    (prob_at demo_probs a == x)%Q /\
    Probs_top5conf demo_probs
      = Some (map (prob_at demo_probs) (Probs_top5 demo_probs)).
Proof. apply (top5_starts_at_top1 demo_probs). discriminate. Defined.

(** ** [Boxes]: indexing and normalized coordinates *)

Lemma Boxes_init_wf (a : NDArray) (sh : Z * Z) (b : Boxes) :
  well_shaped a -> Boxes_init a sh = Some b -> wf_boxes b.
Proof.
  unfold Boxes_init, wf_boxes. intros Hw.
  destruct a as [row | n rows]; cbn.
  - destruct (Nat.eqb (length row) 6 || Nat.eqb (length row) 7) eqn:E;
      [| discriminate].
    intros H. injection H as <-. cbn. repeat split.
    + apply orb_prop in E as [E | E]; apply Nat.eqb_eq in E; auto.
    + constructor; [reflexivity | constructor].
  - destruct (Nat.eqb n 6 || Nat.eqb n 7) eqn:E; [| discriminate].
    intros H. injection H as <-. cbn. repeat split; [| exact Hw].
    apply orb_prop in E as [E | E]; apply Nat.eqb_eq in E; auto.
Qed.

(** X8.  Indexing a box set inside its range gives a box set of exactly one
    row, with the same tracking flag and frame shape, whose [xyxy], [conf]
    and [cls] are the entries of index [i] of those of the whole set, and
    which is again well formed; indexing at or past the length fails. *)
Theorem Boxes_getitem_row (b : Boxes) :
  wf_boxes b ->
  (forall i, (i < Boxes_len b)%nat ->
     exists d xy c k,
       Boxes_getitem b i = Some d /\ wf_boxes d /\ Boxes_len d = 1%nat /\
       is_track d = is_track b /\ orig_shape d = orig_shape b /\
       Boxes_xyxy b !! i = Some xy /\ Boxes_xyxy d = [xy] /\
       Boxes_conf b !! i = Some c /\ Boxes_conf d = [c] /\
       Boxes_cls b !! i = Some k /\ Boxes_cls d = [k]) /\
  (forall i, (Boxes_len b <= i)%nat -> Boxes_getitem b i = None).
Proof.
  unfold wf_boxes, Boxes_len, Boxes_getitem, Boxes_xyxy, Boxes_conf, Boxes_cls.
  destruct (data b) as [row | n rows] eqn:Ed; [intros [] |].
  intros (Hn & Ht & Hrows). cbn [arr_rows]. split.
  - intros i Hi. apply lookup_lt_is_Some_2 in Hi as [row Hrow].
    rewrite Hrow.
    assert (Hlen : length row = n).
    { rewrite Forall_forall in Hrows. apply Hrows.
      eapply list_elem_of_lookup_2, Hrow. }
    unfold Boxes_init. cbn [ndim Nat.eqb promote shape_last]. rewrite Hlen.
    assert (E : Nat.eqb n 6 || Nat.eqb n 7 = true)
      by (destruct Hn as [-> | ->]; reflexivity).
    rewrite E. eexists _, (take 4 row), (idx_neg 2 row), (idx_neg 1 row).
    split; [reflexivity |]. cbn [data is_track orig_shape arr_rows].
    rewrite !list_lookup_fmap, Hrow. repeat split; try reflexivity.
    + exact Hn.
    + constructor; [exact Hlen | constructor].
    + symmetry. exact Ht.
  - intros i Hi. apply lookup_ge_None_2 in Hi. rewrite Hi. reflexivity.
Qed.

Lemma Boxes_getitem_row_witness :
  exists d xy c k,
    Boxes_getitem demo_boxes 1 = Some d /\ wf_boxes d /\ Boxes_len d = 1%nat /\
    is_track d = is_track demo_boxes /\ orig_shape d = orig_shape demo_boxes /\
    Boxes_xyxy demo_boxes !! 1%nat = Some xy /\ Boxes_xyxy d = [xy] /\
    Boxes_conf demo_boxes !! 1%nat = Some c /\ Boxes_conf d = [c] /\
    Boxes_cls demo_boxes !! 1%nat = Some k /\ Boxes_cls d = [k].
Proof.
  assert (W : wf_boxes demo_boxes).
  { split; [left; reflexivity | split; [reflexivity | repeat constructor]]. }
  apply (proj1 (Boxes_getitem_row demo_boxes W)). cbn. lia.
Defined.

Lemma unit_interval_div (x : Q) (d : Z) :
  0 < d -> (0 <= x)%Q -> (x <= inject_Z d)%Q -> unit_interval (x / inject_Z d).
Proof.
  intros Hd H0 H1.
  assert (Hpos : (0 < inject_Z d)%Q) by (unfold Qlt, inject_Z; simpl; lia).
  split.
  - apply Qle_shift_div_l; [exact Hpos |]. rewrite Qmult_0_l. exact H0.
  - apply Qle_shift_div_r; [exact Hpos |]. rewrite Qmult_1_l. exact H1.
Qed.

(** X9.  On a frame of positive height h and width w, if every rectangle of
    [xyxy] lies in the frame (x in [0, w], y in [0, h]), every entry of
    [xyxyn] lies in [0, 1]. *)
Theorem xyxyn_in_unit_interval (b : Boxes) :
  0 < fst (orig_shape b) -> 0 < snd (orig_shape b) ->
  Forall (in_frame (fst (orig_shape b)) (snd (orig_shape b))) (Boxes_xyxy b) ->
  Forall (Forall unit_interval) (Boxes_xyxyn b).
Proof.
  intros Hh Hw Hin. unfold Boxes_xyxyn.
  destruct (orig_shape b) as [h w]. cbn [fst snd] in *.
  unfold Boxes_xyxy in *. rewrite Forall_fmap in Hin. rewrite !Forall_fmap.
  eapply Forall_impl; [exact Hin |]. intros row Hrow. cbn.
  unfold div_cols. rewrite imap_imap. apply Forall_lookup. intros j y Hj.
  rewrite list_lookup_imap in Hj.
  destruct (take 4 row !! j) as [x |] eqn:Ex; [| discriminate].
  cbn in Hj. injection Hj as <-.
  assert (Hj4 : (j < 4)%nat).
  { apply lookup_lt_Some in Ex. rewrite length_take in Ex. lia. }
  destruct (Hrow j x Ex) as [H0 H1].
  destruct j as [| [| [| [| j]]]]; try lia; cbn in H1 |- *;
    apply unit_interval_div; assumption.
Qed.

Lemma xyxyn_in_unit_interval_witness :
  Forall (Forall unit_interval) (Boxes_xyxyn demo_boxes).
Proof.
  apply (xyxyn_in_unit_interval demo_boxes); try reflexivity.
  apply Forall_lookup. intros i r Hr.
  destruct i as [| [| i]]; cbn in Hr; try discriminate; injection Hr as <-;
    intros [| [| [| [| j]]]] x Hx; cbn in Hx; try discriminate;
    injection Hx as <-; split; vm_compute; discriminate.
Defined.

(** ** [plot] raises nothing on named classes *)





















Section PlotReturns.
Variable colors : Z -> Color.
Variable box_label :
  list Event -> list Q -> option Label -> Color -> Landmarks * Image.

End PlotReturns.


(** ** The order of the drawing calls *)

Lemma stage_ret {A} k (a : A) : stage k (ret a).
Proof.
  intros w b w' H. apply ret_Some in H as [_ ->]. exists [].
  rewrite app_nil_r. split; [reflexivity | constructor].
Qed.

Lemma stage_lift_opt {A} k (o : option A) : stage k (lift_opt o).
Proof. destruct o; [apply stage_ret | intros w a w' H; discriminate]. Qed.

Lemma stage_emit k (e : Event) : phase e = k -> stage k (emit e).
Proof.
  intros He w a w' H. injection H as _ <-. exists [e].
  split; [reflexivity | constructor; [exact He | constructor]].
Qed.

Lemma stage_bind {A B} k (m : M A) (f : A -> M B) :
  stage k m -> (forall a, stage k (f a)) -> stage k (bind m f).
Proof.
  intros Hm Hf w b w' H. apply bind_Some in H as (a & w1 & H1 & H2).
  apply Hm in H1 as (e1 & Hc1 & He1). apply Hf in H2 as (e2 & Hc2 & He2).
  exists (e1 ++ e2). split.
  - rewrite Hc2, Hc1, app_assoc. reflexivity.
  - apply Forall_app. split; assumption.
Qed.

Lemma stage_when k (c : bool) (m : M unit) : stage k m -> stage k (when c m).
Proof. intros H. destruct c; [exact H | apply stage_ret]. Qed.

Lemma stage_for_each {A S} k (body : S -> A -> M S) (xs : list A) :
  (forall s x, stage k (body s x)) -> forall s, stage k (for_each xs body s).
Proof.
  intros Hb. induction xs as [| x xs IH]; intros s; cbn; [apply stage_ret |].
  apply stage_bind; [apply Hb | exact IH].
Qed.

Lemma stage_map_M {A B} k (f : A -> M B) (xs : list A) :
  (forall x, stage k (f x)) -> stage k (map_M f xs).
Proof.
  intros Hf. induction xs as [| x xs IH]; cbn; [apply stage_ret |].
  apply stage_bind; [apply Hf |]. intros y.
  apply stage_bind; [exact IH |]. intros ys. apply stage_ret.
Qed.

Lemma stage_det_label k names labels cf d : stage k (det_label names labels cf d).
Proof.
  intros w x w' H. apply det_label_pure in H as [-> _]. exists [].
  rewrite app_nil_r. split; [reflexivity | constructor].
Qed.

Lemma stage_Boxes_reversed k b : stage k (Boxes_reversed b).
Proof.
  unfold Boxes_reversed. apply stage_map_M. intros i. apply stage_lift_opt.
Qed.

Lemma stage_plot_masks colors self show_masks :
  stage 0 (plot_masks colors self show_masks).
Proof.
  unfold plot_masks. destruct (masks self); [| apply stage_ret].
  apply stage_when, stage_emit. reflexivity.
Qed.

Lemma stage_resolve_body colors box_label names labels s d :
  stage 1 (resolve_body colors box_label names labels s d).
Proof.
  destruct s as [[F im] cf]. unfold resolve_body, render.
  apply stage_bind.
  - apply stage_bind; [apply stage_det_label |]. intros [[c cf'] label].
    apply stage_bind; [| intros [L im']; apply stage_ret].
    intros w a w' H. unfold call_box_label in H. injection H as _ <-.
    eexists [_]. split; [reflexivity | repeat constructor].
  - intros [[L im'] cf']. apply stage_bind; [| intros; apply stage_ret].
    unfold overwrite. apply stage_bind; [| intros; apply stage_ret].
    apply stage_when. intros w a w' H. injection H as _ <-. exists [].
    cbn. rewrite app_nil_r. split; [reflexivity | constructor].
Qed.

Lemma stage_resolve_pass colors box_label self conf labels show_boxes :
  stage 1 (resolve_pass colors box_label self conf labels show_boxes).
Proof.
  unfold resolve_pass. destruct (boxes self); [| apply stage_ret].
  destruct (_ && _); [| apply stage_ret].
  apply stage_bind; [apply stage_Boxes_reversed |]. intros ds.
  apply stage_for_each. intros s d. apply stage_resolve_body.
Qed.

Lemma stage_fcws_body colors names labels kps cf d :
  stage 2 (fcws_body colors names labels kps cf d).
Proof.
  unfold fcws_body.
  apply stage_bind; [apply stage_det_label |]. intros [[c cf'] label].
  apply stage_bind.
  { intros w a w' H. injection H as _ <-. exists [].
    rewrite app_nil_r. split; [reflexivity | constructor]. }
  intros h. apply stage_bind; [| intros; apply stage_ret].
  destruct h; [apply stage_emit; reflexivity | apply stage_ret].
Qed.

Lemma stage_fcws_pass colors self labels show_boxes kps cf :
  stage 2 (fcws_pass colors self labels show_boxes kps cf).
Proof.
  unfold fcws_pass. destruct (boxes self); [| apply stage_ret].
  destruct (_ && _); [| apply stage_ret].
  apply stage_bind; [apply stage_Boxes_reversed |]. intros ds.
  apply stage_for_each. intros cf0 d. apply stage_fcws_body.
Qed.

Lemma stage_plot_probs self show_probs : stage 5 (plot_probs self show_probs).
Proof.
  unfold plot_probs. destruct (probs self); [| apply stage_ret].
  apply stage_when, stage_bind.
  - apply stage_map_M. intros j. apply stage_bind.
    + destruct (bool_decide (names self = ∅)); [apply stage_ret |].
      apply stage_bind; [apply stage_lift_opt | intros; apply stage_ret].
    + intros tag. apply stage_bind; [apply stage_lift_opt |].
      intros; apply stage_ret.
  - intros lines. apply stage_emit. reflexivity.
Qed.

Lemma stage_plot_kpts self : stage 6 (plot_kpts self).
Proof.
  unfold plot_kpts. destruct (keypoints self); [| apply stage_ret].
  apply stage_for_each. intros [] k. apply stage_emit. reflexivity.
Qed.

(** Lists of events in phase order, all phases between [lo] and [hi]. *)
Lemma ordered_app (lo k k' hi : nat) (l1 l2 : list Event) :
  (lo <= k)%nat -> (k <= k')%nat -> (k' <= hi)%nat ->
  StronglySorted not_after l1 /\
  Forall (fun e => (lo <= phase e <= k)%nat) l1 ->
  StronglySorted not_after l2 /\
  Forall (fun e => (k' <= phase e <= hi)%nat) l2 ->
  StronglySorted not_after (l1 ++ l2) /\
  Forall (fun e => (lo <= phase e <= hi)%nat) (l1 ++ l2).
Proof.
  intros H1 H2 H3 [Hs1 Hb1] [Hs2 Hb2].
  assert (Hlo : forall e, e ∈ l1 -> (lo <= phase e <= k)%nat)
    by (apply Forall_forall, Hb1).
  assert (Hhi : forall e, e ∈ l2 -> (k' <= phase e <= hi)%nat)
    by (apply Forall_forall, Hb2).
  split.
  - apply StronglySorted_app_2; [| exact Hs1 | exact Hs2].
    intros x1 x2 Hx1 Hx2. unfold not_after.
    specialize (Hlo _ Hx1). specialize (Hhi _ Hx2). lia.
  - apply Forall_app. split; apply Forall_forall; intros e He.
    + specialize (Hlo _ He). lia.
    + specialize (Hhi _ He). lia.
Qed.

Lemma ordered_stage (k : nat) (l : list Event) :
  Forall (fun e => phase e = k) l ->
  StronglySorted not_after l /\ Forall (fun e => (k <= phase e <= k)%nat) l.
Proof.
  intros H. split.
  - induction H as [| e l He H IH]; constructor; [exact IH |].
    eapply Forall_impl; [exact H |]. intros e' He'. cbn beta in He'.
    unfold not_after. lia.
  - eapply Forall_impl; [exact H |]. intros e He. cbn beta in He. lia.
Qed.

Lemma ordered_overlay (im : option Image) (F : Landmarks) :
  StronglySorted not_after (overlay_events im F) /\
  Forall (fun e => (3 <= phase e <= 4)%nat) (overlay_events im F).
Proof.
  destruct im as [i |]; cbn [overlay_events];
    [| split; constructor].
  apply (ordered_app 3 3 3 4); try lia.
  - apply ordered_stage. eapply Forall_impl; [apply corridor_lines_are_lines |].
    intros [] He; cbn in *; congruence.
  - unfold center_LDWS_events. destruct (_ && _).
    + apply (ordered_app 3 3 4 4 [_] [_]); try lia;
        apply ordered_stage; repeat constructor.
    + split; [| repeat constructor; cbn; lia].
      apply (ordered_stage 3). repeat constructor.
Qed.

Lemma StronglySorted_lookup {A} (R : A -> A -> Prop) (l : list A) :
  StronglySorted R l ->
  forall i j x y, (i < j)%nat -> l !! i = Some x -> l !! j = Some y -> R x y.
Proof.
  induction 1 as [| a l Hs IH Hall]; intros i j x y Hij Hx Hy; [discriminate |].
  destruct j as [| j]; [lia |]. cbn in Hy. destruct i as [| i]; cbn in Hx.
  - injection Hx as <-. rewrite Forall_forall in Hall.
    eapply Hall, list_elem_of_lookup_2, Hy.
  - eapply (IH i j); [lia | exact Hx | exact Hy].
Qed.

Section PlotOrder.
Variable colors : Z -> Color.
Variable box_label :
  list Event -> list Q -> option Label -> Color -> Landmarks * Image.

(** X11.  On the frame a call of [plot] returns, the calls appear in the
    order of the phases of the code: the mask call, the box labels, the FCW
    labels, the lines, the departure caption, the classification text, the
    key points.  No call of an earlier phase follows one of a later phase. *)
Theorem plot_draws_in_phase_order
    self conf labels show_boxes show_masks show_probs w w' :
  Results_plot colors box_label self conf labels show_boxes show_masks
    show_probs w = Some (tt, w') ->
  forall i j e1 e2, (i < j)%nat ->
    canvas w' !! i = Some e1 -> canvas w' !! j = Some e2 ->
    (phase e1 <= phase e2)%nat.
Proof.
  intros H. apply (StronglySorted_lookup not_after).
  unfold Results_plot in H. apply bind_Some in H as ([[F im] cf] & w1 & Hres & H).
  pose proof Hres as Hinv.
  apply plot_resolve_inv in Hinv as (_ & _ & Hsome & Hnone & _).
  assert (Him : im = None -> F = no_landmarks).
  { intros ->. destruct (pass_runs self show_boxes).
    - destruct (Hsome eq_refl) as [i Hi]. discriminate.
    - apply Hnone. reflexivity. }
  unfold plot_resolve in Hres.
  apply bind_Some in Hres as ([] & v0 & Hnew & Hres).
  unfold new_annotator in Hnew. injection Hnew as <-.
  apply bind_Some in Hres as ([] & v1 & Hmasks & Hres).
  apply stage_plot_masks in Hmasks as (e0 & Hc0 & He0). cbn in Hc0.
  apply stage_resolve_pass in Hres as (e1 & Hc1 & He1).
  unfold plot_overlay in H.
  apply bind_Some in H as (cf2 & v2 & Hfcws & H).
  apply bind_Some in H as ([] & v3 & Hcor & H).
  apply bind_Some in H as ([] & v4 & Hcen & H).
  apply bind_Some in H as ([] & v5 & Hprobs & Hkpts).
  apply stage_fcws_pass in Hfcws as (e2 & Hc2 & He2).
  apply stage_plot_probs in Hprobs as (e5 & Hc5 & He5).
  apply stage_plot_kpts in Hkpts as (e6 & Hc6 & He6).
  assert (Hov : canvas v4 = canvas v2 ++ overlay_events im F).
  { destruct im as [i |]; cbn [overlay_events].
    - rewrite draw_corridor_appends in Hcor. injection Hcor as <-.
      rewrite draw_center_LDWS_appends in Hcen. injection Hcen as <-.
      cbn. rewrite <- app_assoc. reflexivity.
    - rewrite (Him eq_refl), draw_corridor_nothing in Hcor.
      injection Hcor as <-. cbn in Hcen. apply ret_Some in Hcen as [_ ->].
      rewrite app_nil_r. reflexivity. }
  rewrite Hc6, Hc5, Hov, Hc2, Hc1, Hc0.
  apply (ordered_app 0 5 6 6); try lia; [| apply ordered_stage, He6].
  apply (ordered_app 0 4 5 5); try lia; [| apply ordered_stage, He5].
  apply (ordered_app 0 2 3 4); try lia; [| apply ordered_overlay].
  apply (ordered_app 0 1 2 2); try lia; [| apply ordered_stage, He2].
  apply (ordered_app 0 0 1 1); try lia; apply ordered_stage; assumption.
Qed.
End PlotOrder.

Lemma plot_draws_in_phase_order_witness :
  exists e1 e2,
    canvas warn_w !! 0%nat = Some e1 /\
    canvas warn_w !! (length (canvas warn_w) - 1)%nat = Some e2 /\
    (0 < length (canvas warn_w) - 1)%nat /\
    (phase e1 <= phase e2)%nat.
Proof.
  destruct (canvas warn_w !! 0%nat) as [e1 |] eqn:E1;
    [| vm_compute in E1; discriminate].
  destruct (canvas warn_w !! (length (canvas warn_w) - 1)%nat) as [e2 |] eqn:E2;
    [| vm_compute in E2; discriminate].
  exists e1, e2. split; [reflexivity |]. split; [reflexivity |].
  split; [vm_compute; lia |].
  refine (plot_draws_in_phase_order demo_colors demo_box_label
            warn_frame true true true true true fresh warn_w _
            0%nat (length (canvas warn_w) - 1)%nat e1 e2 _ E1 E2);
    [vm_compute; reflexivity | vm_compute; lia].
Defined.

(** ** The confidence shown in the labels *)

Lemma det_label_conf names labels cf d row w c cf' label w' :
  arr_rows (data d) = [row] ->
  det_label names labels cf d w = Some ((c, cf', label), w') ->
  truthy cf' = truthy cf && nonzero (idx_neg 2 row) /\
  label_conf label =
    (if labels && truthy cf && nonzero (idx_neg 2 row)
     then Some (idx_neg 2 row) else None).
Proof.
  intros Hd. unfold det_label, Boxes_cls, Boxes_conf, Boxes_id. rewrite Hd.
  cbn [map item]. unfold bind, lift_opt, ret, raise.
  destruct (truthy cf) eqn:Ecf;
    (destruct (is_track d); cbn;
     destruct (names !! py_int (idx_neg 1 row)); try discriminate;
     intros H; inversion H; subst; clear H; cbn [truthy label_conf lb_conf];
     unfold nonzero; destruct labels;
     destruct (Qeq_bool (idx_neg 2 row) 0); split; reflexivity).
Qed.

Lemma all_nonzero_shown (cs : list Q) :
  forallb nonzero cs = true -> shown_confs true cs = map Some cs.
Proof.
  induction cs as [| c cs IH]; [reflexivity |]. cbn. intros H.
  apply andb_prop in H as [Hc Hcs]. rewrite Hc. cbn. rewrite IH by exact Hcs.
  reflexivity.
Qed.

Lemma dead_shown (cs : list Q) : shown_confs false cs = map (fun _ => None) cs.
Proof. induction cs as [| c cs IH]; [reflexivity |]. cbn. rewrite IH. reflexivity. Qed.

Section LabelFacts.
Variable colors : Z -> Color.
Variable box_label :
  list Event -> list Q -> option Label -> Color -> Landmarks * Image.

Lemma resolve_loop_labels names ds :
  forall rows F0 im0 cf0 w F im cf w',
  Forall2 (fun d row => arr_rows (data d) = [row]) ds rows ->
  for_each ds (resolve_body colors box_label names true) (F0, im0, cf0) w
    = Some ((F, im, cf), w') ->
  truthy cf = fold_left (fun a c => a && nonzero c) (map (idx_neg 2) rows)
                (truthy cf0) /\
  exists evs, canvas w' = canvas w ++ evs /\
    map label_conf (box_labels evs)
      = shown_confs (truthy cf0) (map (idx_neg 2) rows).
Proof.
  induction ds as [| d ds IH]; intros rows F0 im0 cf0 w F im cf w' Hrows H.
  - inversion Hrows; subst. cbn in H. apply ret_Some in H as [E ->].
    injection E as -> -> ->. split; [reflexivity |]. exists [].
    rewrite app_nil_r. split; reflexivity.
  - inversion Hrows as [| ? row ? rows' Hd Hrows']; subst. cbn in H.
    apply bind_Some in H as ([[F1 im1] cf1] & w1 & Hbody & H).
    unfold resolve_body in Hbody.
    apply bind_Some in Hbody as ([[L i1] cf1'] & v1 & Hr & Hbody).
    apply bind_Some in Hbody as (F1' & v2 & Hov & Hret).
    apply ret_Some in Hret as [E ->]. injection E as -> -> ->.
    apply overwrite_inv in Hov as (_ & Hcv & _).
    unfold render in Hr. apply bind_Some in Hr as ([[c cf2] label] & v0 & Hdl & Hr).
    pose proof Hdl as Hpure. apply det_label_pure in Hpure as [-> _].
    apply (det_label_conf _ _ _ _ row) in Hdl as [Ht Hl]; [| exact Hd].
    apply bind_Some in Hr as ([L' i'] & v3 & Hcall & Hr).
    apply ret_Some in Hr as [E ->]. injection E as -> -> ->.
    unfold call_box_label in Hcall. injection Hcall as _ <-.
    apply (IH rows') in H as (Hcf & evs & Hc & Hlab); [| exact Hrows'].
    cbn [map fold_left shown_confs]. rewrite <- Ht. split; [exact Hcf |].
    eexists (_ :: evs). split.
    + rewrite Hc, Hcv. cbn [canvas]. rewrite <- app_assoc. reflexivity.
    + unfold box_labels in Hlab |- *. cbn. rewrite Hlab, Hl, Ht. cbn [andb].
      reflexivity.
Qed.

Lemma fcws_loop_labels names kps ds :
  forall rows cf0 w cf w',
  Forall2 (fun d row => arr_rows (data d) = [row]) ds rows ->
  for_each ds (fcws_body colors names true kps) cf0 w = Some (cf, w') ->
  exists evs, canvas w' = canvas w ++ evs /\
    map label_conf (fcws_labels evs)
      = match HISTORY_VLA_pt w with
        | Some _ => shown_confs (truthy cf0) (map (idx_neg 2) rows)
        | None => []
        end.
Proof.
  induction ds as [| d ds IH]; intros rows cf0 w cf w' Hrows H.
  - inversion Hrows; subst. cbn in H. apply ret_Some in H as [_ ->].
    exists []. rewrite app_nil_r. split; [reflexivity |].
    destruct (HISTORY_VLA_pt w); reflexivity.
  - inversion Hrows as [| ? row ? rows' Hd Hrows']; subst. cbn in H.
    apply bind_Some in H as (cf1 & w1 & Hbody & H).
    unfold fcws_body in Hbody.
    apply bind_Some in Hbody as ([[c cf2] label] & v0 & Hdl & Hbody).
    pose proof Hdl as Hpure. apply det_label_pure in Hpure as [-> _].
    apply (det_label_conf _ _ _ _ row) in Hdl as [Ht Hl]; [| exact Hd].
    apply bind_Some in Hbody as (h & v1 & Hget & Hbody).
    unfold get_history in Hget. injection Hget as <- <-.
    apply bind_Some in Hbody as ([] & v2 & Hemit & Hret).
    apply ret_Some in Hret as [-> ->].
    apply (IH rows') in H as (evs & Hc & Hlab); [| exact Hrows'].
    cbn [map shown_confs]. rewrite <- Ht.
    destruct (HISTORY_VLA_pt w) as [hist |] eqn:Eh.
    + unfold emit in Hemit. injection Hemit as <-. cbn in Hc, Hlab.
      rewrite Eh in Hlab.
      eexists (_ :: evs). split.
      * rewrite Hc, <- app_assoc. reflexivity.
      * unfold fcws_labels in Hlab |- *. cbn. rewrite Hlab, Hl, Ht. cbn [andb].
        reflexivity.
    + apply ret_Some in Hemit as [_ ->]. rewrite Eh in Hlab.
      exists evs. split; assumption.
Qed.
Lemma Boxes_reversed_rows b w ds w' :
  Boxes_reversed b w = Some (ds, w') ->
  Forall2 (fun d row => arr_rows (data d) = [row]) ds (rev (arr_rows (data b))).
Proof.
  unfold Boxes_reversed, Boxes_len. intros H.
  apply map_M_lift_opt in H as (_ & HF & _).
  pose proof (Forall2_lookup_rev_seq (arr_rows (data b))) as HR.
  revert HF HR. generalize (rev (seq 0 (length (arr_rows (data b))))).
  generalize (rev (arr_rows (data b))). intros rows idxs HF. revert rows.
  induction HF as [| i d idxs ds Hd _ IH]; intros rows HR.
  - inversion HR. constructor.
  - inversion HR as [| ? row ? rows' Hrow HR']; subst. constructor.
    + apply Boxes_getitem_rows in Hd as (row' & Hrow' & Hd).
      rewrite Hrow in Hrow'. injection Hrow' as <-. exact Hd.
    + apply IH, HR'.
Qed.

Lemma fold_left_alive (cs : list Q) (a : bool) :
  fold_left (fun a c => a && nonzero c) cs a = a && forallb nonzero cs.
Proof.
  revert a. induction cs as [| c cs IH]; intros a; cbn.
  - rewrite andb_true_r. reflexivity.
  - rewrite IH, andb_assoc. reflexivity.
Qed.

Lemma forallb_rev {A} (f : A -> bool) (l : list A) :
  forallb f (rev l) = forallb f l.
Proof.
  induction l as [| x l IH]; [reflexivity |]. cbn.
  rewrite forallb_app, IH. cbn. rewrite andb_true_r. apply andb_comm.
Qed.

Lemma box_labels_none (l : list Event) :
  Forall (fun e => phase e <> 1%nat) l -> box_labels l = [].
Proof.
  induction 1 as [| e l He _ IH]; [reflexivity |].
  destruct e; cbn in *; try exact IH. congruence.
Qed.

Lemma fcws_labels_none (l : list Event) :
  Forall (fun e => phase e <> 2%nat) l -> fcws_labels l = [].
Proof.
  induction 1 as [| e l He _ IH]; [reflexivity |].
  destruct e; cbn in *; try exact IH. congruence.
Qed.

Lemma box_labels_app (l1 l2 : list Event) :
  box_labels (l1 ++ l2) = box_labels l1 ++ box_labels l2.
Proof. apply omap_app. Qed.

Lemma fcws_labels_app (l1 l2 : list Event) :
  fcws_labels (l1 ++ l2) = fcws_labels l1 ++ fcws_labels l2.
Proof. apply omap_app. Qed.

Lemma stage_not (k n : nat) (l : list Event) :
  k <> n -> Forall (fun e => phase e = k) l -> Forall (fun e => phase e <> n) l.
Proof.
  intros Hk H. eapply Forall_impl; [exact H |]. intros e He. cbn beta in He.
  congruence.
Qed.

Lemma overlay_not (n : nat) (im : option Image) (F : Landmarks) :
  (n < 3)%nat -> Forall (fun e => phase e <> n) (overlay_events im F).
Proof.
  intros Hn. destruct (ordered_overlay im F) as [_ H].
  eapply Forall_impl; [exact H |]. intros e He. cbn beta in He. lia.
Qed.

Lemma corridor_not (n : nat) (i : Image) (F : Landmarks) :
  (n < 3)%nat -> Forall (fun e => phase e <> n) (corridor_lines i F).
Proof.
  intros Hn. pose proof (overlay_not n (Some i) F Hn) as H.
  cbn [overlay_events] in H. apply Forall_app in H. apply H.
Qed.

Lemma center_not (n : nat) (i : Image) (F : Landmarks) :
  (n < 3)%nat -> Forall (fun e => phase e <> n) (center_LDWS_events i F).
Proof.
  intros Hn. pose proof (overlay_not n (Some i) F Hn) as H.
  cbn [overlay_events] in H. apply Forall_app in H. apply H.
Qed.

(** X12.  In a call of [plot] with [conf] and [labels] enabled whose
    detection loops run, the variable [conf] is overwritten by the
    confidence of each detection in turn.  So the labels of the render
    calls, made from the last detection to the first, show the confidence of
    their detection up to the first detection of confidence 0, and from that
    one on show none; the labels of the FCW calls show every confidence if
    no detection has confidence 0, and none at all otherwise. *)
Theorem confidence_shown_until_zero
    self show_boxes show_masks show_probs w w' :
  Results_plot colors box_label self true true show_boxes show_masks
    show_probs w = Some (tt, w') ->
  pass_runs self show_boxes = true ->
  map label_conf (box_labels (canvas w'))
    = shown_confs true (rev (confidences self)) /\
  map label_conf (fcws_labels (canvas w'))
    = match HISTORY_VLA_pt w' with
      | Some _ =>
          shown_confs (forallb nonzero (confidences self))
                      (rev (confidences self))
      | None => []
      end /\
  (forallb nonzero (confidences self) = true ->
   map label_conf (box_labels (canvas w'))
     = map Some (rev (confidences self))) /\
  (forallb nonzero (confidences self) = false ->
   Forall (fun c => c = None) (map label_conf (fcws_labels (canvas w')))).
Proof.
  intros H Hrun.
  assert (Hmain :
    map label_conf (box_labels (canvas w'))
      = shown_confs true (rev (confidences self)) /\
    map label_conf (fcws_labels (canvas w'))
      = match HISTORY_VLA_pt w' with
        | Some _ =>
            shown_confs (forallb nonzero (confidences self))
                        (rev (confidences self))
        | None => []
        end).
  { unfold Results_plot in H.
    apply bind_Some in H as ([[F im] cf] & w1 & Hres & H).
    pose proof Hres as Hinv.
    apply plot_resolve_inv in Hinv as (_ & _ & Hsome & _).
    destruct (Hsome Hrun) as [i ->].
    unfold plot_resolve in Hres.
    apply bind_Some in Hres as ([] & v0 & Hnew & Hres).
    unfold new_annotator in Hnew. injection Hnew as <-.
    apply bind_Some in Hres as ([] & v1 & Hmasks & Hres).
    apply stage_plot_masks in Hmasks as (e0 & Hc0 & He0). cbn in Hc0.
    unfold plot_overlay in H.
    apply bind_Some in H as (cf2 & v2 & Hfcws & H).
    apply bind_Some in H as ([] & v3 & Hcor & H).
    apply bind_Some in H as ([] & v4 & Hcen & H).
    apply bind_Some in H as ([] & v5 & Hprobs & Hkpts).
    pose proof Hprobs as Hq5. pose proof Hkpts as Hq6.
    apply quiet_plot_probs in Hq5 as (Hh5 & _).
    apply quiet_plot_kpts in Hq6 as (Hh6 & _).
    apply stage_plot_probs in Hprobs as (e5 & Hc5 & He5).
    apply stage_plot_kpts in Hkpts as (e6 & Hc6 & He6).
    rewrite draw_corridor_appends in Hcor. injection Hcor as <-.
    rewrite draw_center_LDWS_appends in Hcen. injection Hcen as <-.
    cbn [canvas HISTORY_VLA_pt] in Hc5, Hh5.
    unfold resolve_pass in Hres. unfold fcws_pass in Hfcws.
    unfold pass_runs in Hrun. unfold confidences.
    destruct (boxes self) as [b |] eqn:Eb; [| discriminate].
    rewrite Hrun in Hres, Hfcws.
    apply bind_Some in Hres as (ds & v1' & Hds & Hres).
    pose proof (Boxes_reversed_rows _ _ _ _ Hds) as Hrows.
    apply Boxes_reversed_inv in Hds as (-> & _).
    pose proof Hres as Hst1.
    apply (stage_for_each 1) in Hst1 as (e1' & Hc1' & He1');
      [| intros [[F0 im0] cf0] d; apply stage_resolve_body].
    eapply resolve_loop_labels in Hres as (Hcf & e1 & Hc1 & Hl1);
      [| exact Hrows].
    assert (He1 : Forall (fun e => phase e = 1%nat) e1).
    { rewrite Hc1 in Hc1'. apply app_inv_head in Hc1'. subst e1'. exact He1'. }
    apply bind_Some in Hfcws as (ds' & v1'' & Hds' & Hfcws).
    pose proof (Boxes_reversed_rows _ _ _ _ Hds') as Hrows'.
    apply Boxes_reversed_inv in Hds' as (-> & _).
    pose proof Hfcws as Hfl.
    apply fcws_loop in Hfl as (Hh2 & _).
    pose proof Hfcws as Hst2.
    apply (stage_for_each 2) in Hst2 as (e2' & Hc2' & He2');
      [| intros cf0 d; apply stage_fcws_body].
    eapply fcws_loop_labels in Hfcws as (e2 & Hc2 & Hl2); [| exact Hrows'].
    assert (He2 : Forall (fun e => phase e = 2%nat) e2).
    { rewrite Hc2 in Hc2'. apply app_inv_head in Hc2'. subst e2'. exact He2'. }
    unfold Boxes_conf. rewrite <- !map_rev.
    cbn [truthy] in Hcf, Hl1. rewrite fold_left_alive in Hcf. cbn [andb] in Hcf.
    assert (Hfa : forallb nonzero (map (idx_neg 2) (arr_rows (data b)))
                  = truthy cf).
    { rewrite Hcf, map_rev, forallb_rev. reflexivity. }
    rewrite Hfa.
    assert (Hhist : HISTORY_VLA_pt w' = HISTORY_VLA_pt w1) by congruence.
    rewrite Hhist.
    rewrite Hc6, Hc5, Hc2, Hc1, Hc0. split.
    - rewrite !box_labels_app.
      rewrite (box_labels_none e0) by (eapply stage_not; [| exact He0]; lia).
      rewrite (box_labels_none e2) by (eapply stage_not; [| exact He2]; lia).
      rewrite (box_labels_none (corridor_lines _ _)) by (apply corridor_not; lia).
      rewrite (box_labels_none (center_LDWS_events _ _))
        by (apply center_not; lia).
      rewrite (box_labels_none e5) by (eapply stage_not; [| exact He5]; lia).
      rewrite (box_labels_none e6) by (eapply stage_not; [| exact He6]; lia).
      cbn [app]. rewrite !app_nil_r. exact Hl1.
    - rewrite !fcws_labels_app.
      rewrite (fcws_labels_none e0) by (eapply stage_not; [| exact He0]; lia).
      rewrite (fcws_labels_none e1) by (eapply stage_not; [| exact He1]; lia).
      rewrite (fcws_labels_none (corridor_lines _ _)) by (apply corridor_not; lia).
      rewrite (fcws_labels_none (center_LDWS_events _ _))
        by (apply center_not; lia).
      rewrite (fcws_labels_none e5) by (eapply stage_not; [| exact He5]; lia).
      rewrite (fcws_labels_none e6) by (eapply stage_not; [| exact He6]; lia).
      cbn [app]. rewrite !app_nil_r. exact Hl2. }
  destruct Hmain as [Hb Hf]. split; [exact Hb |]. split; [exact Hf |]. split.
  - intros Hall. rewrite Hb. apply all_nonzero_shown.
    rewrite forallb_rev. exact Hall.
  - intros Hzero. rewrite Hf, Hzero. destruct (HISTORY_VLA_pt w'); [| constructor].
    rewrite dead_shown. apply Forall_fmap, Forall_forall. reflexivity.
Qed.
End LabelFacts.

Lemma confidence_shown_until_zero_witness :
  map label_conf (box_labels (canvas zero_conf_w))
    = [Some (8 # 10)%Q; None; None] /\
  map label_conf (fcws_labels (canvas zero_conf_w)) = [None; None; None] /\
  (map label_conf (box_labels (canvas zero_conf_w))
     = shown_confs true (rev (confidences zero_conf_frame)) /\
   map label_conf (fcws_labels (canvas zero_conf_w))
     = match HISTORY_VLA_pt zero_conf_w with
       | Some _ =>
           shown_confs (forallb nonzero (confidences zero_conf_frame))
                       (rev (confidences zero_conf_frame))
       | None => []
       end /\
   (forallb nonzero (confidences zero_conf_frame) = true ->
    map label_conf (box_labels (canvas zero_conf_w))
      = map Some (rev (confidences zero_conf_frame))) /\
   (forallb nonzero (confidences zero_conf_frame) = false ->
    Forall (fun c => c = None)
           (map label_conf (fcws_labels (canvas zero_conf_w))))).
Proof.
  split; [reflexivity |]. split; [reflexivity |].
  refine (confidence_shown_until_zero demo_colors demo_box_label
            zero_conf_frame true true true fresh zero_conf_w _ _);
    vm_compute; reflexivity.
Defined.

(** ** The exported detections *)

Lemma getitem_neg_Some k row x :
  getitem_neg k row = Some x -> x = idx_neg k row.
Proof.
  unfold getitem_neg, idx_neg.
  destruct (k <=? length row)%nat; [| discriminate].
  intros H. symmetry. apply nth_lookup_Some. exact H.
Qed.

Lemma getitem_neg_wf k row :
  (0 < k <= length row)%nat -> getitem_neg k row = Some (idx_neg k row).
Proof.
  intros [H1 H2]. unfold getitem_neg.
  destruct (Nat.leb_spec k (length row)) as [_ | Hlt]; [| lia].
  destruct (lookup_lt_is_Some_2 row (length row - k)%nat) as [x Hx]; [lia |].
  rewrite Hx. f_equal. unfold idx_neg. symmetry.
  apply nth_lookup_Some. exact Hx.
Qed.

Lemma py_div_Some x d y :
  py_div x d = Some y -> d <> 0 /\ y = (x / inject_Z d)%Q.
Proof.
  unfold py_div. destruct (Z.eqb_spec d 0); [discriminate |].
  intros H. injection H as <-. split; [assumption | reflexivity].
Qed.

Lemma py_div_back x d : d <> 0 -> (x / inject_Z d * inject_Z d == x)%Q.
Proof.
  intros Hd.
  assert (Hd' : ~ (inject_Z d == 0)%Q) by (unfold Qeq, inject_Z; simpl; lia).
  field. exact Hd'.
Qed.

Lemma take_4_lookup {A} (row : list A) a b c d :
  row !! 0%nat = Some a -> row !! 1%nat = Some b -> row !! 2%nat = Some c ->
  row !! 3%nat = Some d -> take 4 row = [a; b; c; d].
Proof.
  destruct row as [| a' [| b' [| c' [| d' row]]]]; cbn; try discriminate.
  intros [= ->] [= ->] [= ->] [= ->]. reflexivity.
Qed.

Lemma mapM_enumerate {A B} (f : nat -> A -> option B) (l : list A) rs :
  mapM (fun ir => f (fst ir) (snd ir)) (enumerate l) = Some rs ->
  length rs = length l /\
  forall i r, rs !! i = Some r -> exists x, l !! i = Some x /\ f i x = Some r.
Proof.
  intros H. apply mapM_Some_1 in H. split.
  - apply Forall2_length in H. unfold enumerate in H.
    rewrite length_imap in H. symmetry. exact H.
  - intros i r Hr.
    destruct (Forall2_lookup_r _ _ _ _ _ H Hr) as ([j x] & Hjx & Hf).
    unfold enumerate in Hjx. rewrite list_lookup_imap in Hjx.
    destruct (l !! i) as [x' |]; [| discriminate].
    cbn in Hjx. injection Hjx as <- <-.
    exists x'. split; [reflexivity | exact Hf].
Qed.

Lemma torch_only_Some t u : torch_only t = Some u -> t = Torch.
Proof. destruct t; [reflexivity | discriminate]. Qed.

Section ExportFacts.
Variable masks2segments : list (list (list Q)) -> list (list (list Q)).
Variable scale_coords :
  nat * nat -> list (list Q) -> Z * Z -> bool -> list (list Q).

Lemma tojson_result_inv p b h w i row r :
  tojson_result masks2segments scale_coords p b h w i row = Some r ->
  h <> 0 /\ w <> 0 /\
  j_class r = py_int (idx_neg 1 row) /\
  p_names p !! j_class r = Some (j_name r) /\
  j_confidence r = idx_neg 2 row /\
  j_track_id r = (if is_track b then Some (py_int (idx_neg 3 row)) else None) /\
  (is_Some (j_segments r) <-> has_masks (as_results p) = true) /\
  (is_Some (j_keypoints r) <-> is_Some (p_keypoints p)) /\
  (forall kps, p_keypoints p = Some kps ->
     kp_channels kps = 3%nat /\ p_keypoints_type p = Torch) /\
  Forall2 Qeq (jbox_pixels (h, w) (j_box r)) (take 4 row).
Proof.
  unfold tojson_result. intros H.
  apply stdpp.option.bind_Some in H as (r0 & E0 & H).
  apply stdpp.option.bind_Some in H as (bx1 & D0 & H).
  apply stdpp.option.bind_Some in H as (r1 & E1 & H).
  apply stdpp.option.bind_Some in H as (by1 & D1 & H).
  apply stdpp.option.bind_Some in H as (r2 & E2 & H).
  apply stdpp.option.bind_Some in H as (bx2 & D2 & H).
  apply stdpp.option.bind_Some in H as (r3 & E3 & H).
  apply stdpp.option.bind_Some in H as (by2 & D3 & H).
  apply stdpp.option.bind_Some in H as (conf & Ec & H).
  apply stdpp.option.bind_Some in H as (cls & Ek & H).
  cbv zeta in H.
  apply stdpp.option.bind_Some in H as (name & En & H).
  apply stdpp.option.bind_Some in H as (track & Et & H).
  apply stdpp.option.bind_Some in H as (segs & Es & H).
  apply stdpp.option.bind_Some in H as (kpts & Ep & H).
  injection H as <-. cbn [j_class j_name j_confidence j_track_id j_segments
                          j_keypoints j_box].
  apply py_div_Some in D0 as [Hw ->], D1 as [Hh ->], D2 as [_ ->], D3 as [_ ->].
  apply getitem_neg_Some in Ec as ->, Ek as ->.
  split; [exact Hh |]. split; [exact Hw |]. split; [reflexivity |].
  split; [exact En |]. split; [reflexivity |].
  split.
  { destruct (is_track b); [| injection Et as <-; reflexivity].
    apply stdpp.option.bind_Some in Et as (t & Et & H).
    injection H as <-. apply getitem_neg_Some in Et as ->. reflexivity. }
  split.
  { destruct (has_masks (as_results p)).
    - apply stdpp.option.bind_Some in Es as (m & _ & Es).
      apply stdpp.option.bind_Some in Es as (seg & _ & Es).
      apply stdpp.option.bind_Some in Es as (x & _ & Es).
      apply stdpp.option.bind_Some in Es as (y & _ & Es).
      injection Es as <-. split; [reflexivity | eexists; reflexivity].
    - injection Es as <-. split; [intros [? [=]] | discriminate]. }
  assert (Hk : (is_Some kpts <-> is_Some (p_keypoints p)) /\
               (forall kps, p_keypoints p = Some kps ->
                  kp_channels kps = 3%nat /\ p_keypoints_type p = Torch)).
  { destruct (p_keypoints p) as [kps |].
    - apply stdpp.option.bind_Some in Ep as (k & Eg & Ep).
      apply stdpp.option.bind_Some in Ep as (pts & _ & Ep).
      apply stdpp.option.bind_Some in Ep as (u & Eu & Ep).
      apply torch_only_Some in Eu.
      unfold Keypoints_getitem in Eg.
      destruct (kp_data kps !! i); [| discriminate].
      injection Eg as <-. cbn [kp_channels Keypoints_init kchannels] in Ep.
      destruct (Nat.eqb_spec (kp_channels kps) 3) as [E3' |]; [| discriminate].
      apply stdpp.option.bind_Some in Ep as (x & _ & Ep).
      apply stdpp.option.bind_Some in Ep as (y & _ & Ep).
      apply stdpp.option.bind_Some in Ep as (v & _ & Ep).
      injection Ep as <-.
      split; [split; intros _; eexists; reflexivity |].
      intros kps' [= <-]. split; assumption.
    - injection Ep as <-.
      split; [split; intros [? [=]] | intros ? [=]]. }
  destruct Hk as [Hk1 Hk2]. split; [exact Hk1 |]. split; [exact Hk2 |].
  rewrite (take_4_lookup row r0 r1 r2 r3 E0 E1 E2 E3).
  unfold jbox_pixels. cbn [jx1 jy1 jx2 jy2 fst snd].
  repeat constructor; apply py_div_back; assumption.
Qed.

Lemma tojson_Some_inv p normalize o :
  tojson masks2segments scale_coords p normalize = Some o ->
  (is_Some (p_probs p) /\ o = None) \/
  (p_probs p = None /\ p_boxes_type p = Torch /\
   exists b rs,
     p_boxes p = Some b /\ o = Some rs /\
     mapM (fun ir => tojson_result masks2segments scale_coords p b
                       (fst (json_scale p normalize))
                       (snd (json_scale p normalize)) (fst ir) (snd ir))
          (enumerate (arr_rows (data b))) = Some rs).
Proof.
  unfold tojson. intros H. destruct (p_probs p) as [pr |].
  - left. injection H as <-. split; [eexists; reflexivity | reflexivity].
  - right. split; [reflexivity |].
    apply stdpp.option.bind_Some in H as (b & Eb & H).
    apply stdpp.option.bind_Some in H as (u & Eu & H).
    cbv zeta in H.
    apply stdpp.option.bind_Some in H as (rs & Hrs & H).
    injection H as <-. split; [eapply torch_only_Some, Eu |].
    exists b, rs. repeat split; assumption.
Qed.

(** X13.  When [tojson] returns a list, it holds one dictionary per
    detection, in the order of the rows, and each agrees with the views of
    the box set: class [int(cls)], the name of that class in [names], the
    confidence [conf], the track id exactly when the set is tracked, the key
    [segments] exactly when the frame has masks, the key [keypoints]
    exactly when it has key points; and the box, multiplied back by the
    divisors (the frame size if [normalize], else 1), is the [xyxy]
    rectangle. *)
Theorem tojson_lists_detections p normalize rs :
  tojson masks2segments scale_coords p normalize = Some (Some rs) ->
  exists b,
    p_boxes p = Some b /\ length rs = Boxes_len b /\
    forall i r, rs !! i = Some r ->
      exists xy c k,
        Boxes_xyxy b !! i = Some xy /\ Boxes_conf b !! i = Some c /\
        Boxes_cls b !! i = Some k /\
        Forall2 Qeq (jbox_pixels (json_scale p normalize) (j_box r)) xy /\
        j_confidence r = c /\ j_class r = py_int k /\
        p_names p !! j_class r = Some (j_name r) /\
        match Boxes_id b with
        | Some ids => exists t, ids !! i = Some t /\ j_track_id r = Some (py_int t)
        | None => j_track_id r = None
        end /\
        (is_Some (j_segments r) <-> has_masks (as_results p) = true) /\
        (is_Some (j_keypoints r) <-> is_Some (p_keypoints p)).
Proof.
  intros H. apply tojson_Some_inv in H as [[_ [=]] | (_ & _ & b & rs' & Eb & E & Hrs)].
  injection E as <-.
  apply mapM_enumerate in Hrs as [Hlen Hrs].
  exists b. split; [exact Eb |]. split; [exact Hlen |].
  intros i r Hr. destruct (Hrs i r Hr) as (row & Hrow & Hres).
  destruct (json_scale p normalize) as [h w] eqn:Ehw. cbn [fst snd] in Hres.
  apply tojson_result_inv in Hres
    as (_ & _ & Hcls & Hname & Hconf & Htrack & Hseg & Hkp & _ & Hbox).
  exists (take 4 row), (idx_neg 2 row), (idx_neg 1 row).
  unfold Boxes_xyxy, Boxes_conf, Boxes_cls, Boxes_id.
  rewrite !list_lookup_fmap, Hrow. cbn [fmap option_fmap option_map].
  repeat (split; [first [reflexivity | assumption] |]).
  split; [| split; assumption].
  destruct (is_track b); [| exact Htrack].
  exists (idx_neg 3 row). rewrite list_lookup_fmap, Hrow.
  split; [reflexivity | exact Htrack].
Qed.
End ExportFacts.

Lemma tojson_lists_detections_witness :
  exists b,
    p_boxes pose_frame = Some b /\ length pose_json = Boxes_len b /\
    forall i r, pose_json !! i = Some r ->
      exists xy c k,
        Boxes_xyxy b !! i = Some xy /\ Boxes_conf b !! i = Some c /\
        Boxes_cls b !! i = Some k /\
        Forall2 Qeq (jbox_pixels (json_scale pose_frame true) (j_box r)) xy /\
        j_confidence r = c /\ j_class r = py_int k /\
        p_names pose_frame !! j_class r = Some (j_name r) /\
        match Boxes_id b with
        | Some ids => exists t, ids !! i = Some t /\ j_track_id r = Some (py_int t)
        | None => j_track_id r = None
        end /\
        (is_Some (j_segments r) <-> has_masks (as_results pose_frame) = true) /\
        (is_Some (j_keypoints r) <-> is_Some (p_keypoints pose_frame)).
Proof.
  apply (tojson_lists_detections demo_masks2segments demo_scale_coords
           pose_frame true pose_json).
  vm_compute. reflexivity.
Defined.

Section ExportReturns.
Variable masks2segments : list (list (list Q)) -> list (list (list Q)).
Variable scale_coords :
  nat * nat -> list (list Q) -> Z * Z -> bool -> list (list Q).

Lemma tojson_result_returns p b h w i row :
  h <> 0 -> w <> 0 -> (6 <= length row)%nat ->
  is_Some (p_names p !! py_int (idx_neg 1 row)) ->
  has_masks (as_results p) = false -> p_keypoints p = None ->
  is_Some (tojson_result masks2segments scale_coords p b h w i row).
Proof.
  intros Hh Hw Hlen [name Hname] Hm Hk. unfold tojson_result.
  rewrite Hm, Hk.
  assert (E2 : getitem_neg 2 row = Some (idx_neg 2 row))
    by (apply getitem_neg_wf; lia).
  assert (E1 : getitem_neg 1 row = Some (idx_neg 1 row))
    by (apply getitem_neg_wf; lia).
  assert (E3 : getitem_neg 3 row = Some (idx_neg 3 row))
    by (apply getitem_neg_wf; lia).
  rewrite E3.
  destruct row as [| a0 [| a1 [| a2 [| a3 row]]]]; cbn [length] in Hlen;
    try lia.
  unfold py_div.
  destruct (Z.eqb_spec w 0) as [| _]; [contradiction |].
  destruct (Z.eqb_spec h 0) as [| _]; [contradiction |].
  cbn [lookup list_lookup mbind option_bind].
  rewrite E2. cbn [mbind option_bind]. rewrite E1. cbn [mbind option_bind].
  rewrite Hname. cbn [mbind option_bind].
  destruct (is_track b); cbn [mbind option_bind]; eexists; reflexivity.
Qed.

Lemma tojson_returns p b normalize :
  p_probs p = None -> p_boxes p = Some b -> p_boxes_type p = Torch ->
  classes_named (as_results p) ->
  has_masks (as_results p) = false -> p_keypoints p = None ->
  Boxes_len b = 0%nat \/
    (fst (json_scale p normalize) <> 0 /\ snd (json_scale p normalize) <> 0) ->
  is_Some (tojson masks2segments scale_coords p normalize).
Proof.
  intros Hp Hb Ht Hc Hm Hk Hs. unfold tojson. rewrite Hp, Hb, Ht.
  cbn [mbind option_bind torch_only]. cbv zeta.
  unfold classes_named in Hc. cbn [as_results boxes names] in Hc.
  rewrite Hb in Hc. destruct Hc as [Hwf Hn].
  match goal with
  | |- is_Some (mapM ?f ?l ≫= _) =>
      assert (Hall : is_Some (mapM f l)); [| destruct Hall as [rs ->]]
  end.
  - apply mapM_is_Some_2, Forall_lookup. intros i [j row] Hir.
    unfold enumerate in Hir. rewrite list_lookup_imap in Hir.
    destruct (arr_rows (data b) !! i) as [row' |] eqn:Hrow; [| discriminate].
    cbn in Hir. injection Hir as <- <-. cbn [fst snd compose].
    destruct Hs as [H0 | [Hh Hw]].
    + unfold Boxes_len in H0. apply lookup_lt_Some in Hrow. lia.
    + apply tojson_result_returns; try assumption.
      * unfold wf_boxes in Hwf. destruct (data b) as [| n rows]; [contradiction |].
        destruct Hwf as (Hn6 & _ & Hrows). cbn [arr_rows] in Hrow.
        rewrite Forall_lookup in Hrows. rewrite (Hrows i row' Hrow). lia.
      * rewrite Forall_lookup in Hn. exact (Hn i row' Hrow).
  - cbn [mbind option_bind]. eexists; reflexivity.
Qed.

Lemma tojson_numpy p b normalize :
  p_probs p = None -> p_boxes p = Some b -> p_boxes_type p = Numpy ->
  tojson masks2segments scale_coords p normalize = None.
Proof.
  intros Hp Hb Ht. unfold tojson. rewrite Hp, Hb, Ht. reflexivity.
Qed.

Lemma tojson_first_row p b normalize o :
  p_probs p = None -> p_boxes p = Some b -> Boxes_len b <> 0%nat ->
  tojson masks2segments scale_coords p normalize = Some o ->
  exists row r,
    tojson_result masks2segments scale_coords p b
      (fst (json_scale p normalize)) (snd (json_scale p normalize))
      0 row = Some r.
Proof.
  intros Hp Hb Hlen H.
  apply tojson_Some_inv in H as [[[pr Hpr] _] | (_ & _ & b' & rs & Eb & _ & Hrs)].
  { rewrite Hp in Hpr. discriminate. }
  rewrite Hb in Eb. injection Eb as <-.
  apply mapM_enumerate in Hrs as [Hl Hrs].
  destruct (lookup_lt_is_Some_2 rs 0%nat) as [r Hr].
  { unfold Boxes_len in Hlen. lia. }
  destruct (Hrs _ _ Hr) as (row & _ & Hres). exists row, r. exact Hres.
Qed.

(** X14.  On a detection frame (no class probabilities, masks or key
    points) whose box set is well formed and whose classes are named:
    when the box set holds a tensor, [tojson(normalize=False)] never raises,
    and [tojson(normalize=True)] raises exactly when there is a detection
    and the frame has height or width 0, the box being divided by the frame
    size without a check; when the box set holds a NumPy array, which
    [Boxes] accepts, [tojson] raises for either value of [normalize],
    [data.cpu()] being a method of tensors only. *)
Theorem tojson_divides_by_frame_size p b :
  p_probs p = None -> p_boxes p = Some b -> classes_named (as_results p) ->
  has_masks (as_results p) = false -> p_keypoints p = None ->
  match p_boxes_type p with
  | Torch =>
      is_Some (tojson masks2segments scale_coords p false) /\
      (is_Some (tojson masks2segments scale_coords p true) <->
       Boxes_len b = 0%nat \/
       (fst (p_orig_shape p) <> 0 /\ snd (p_orig_shape p) <> 0))
  | Numpy =>
      tojson masks2segments scale_coords p false = None /\
      tojson masks2segments scale_coords p true = None
  end.
Proof.
  intros Hp Hb Hc Hm Hk. destruct (p_boxes_type p) eqn:Ht.
  - split; [| split].
    + apply (tojson_returns p b); try assumption.
      right. cbn. split; discriminate.
    + intros [o Ho]. destruct (Nat.eq_dec (Boxes_len b) 0%nat) as [| Hlen];
        [left; assumption | right].
      destruct (tojson_first_row _ _ _ _ Hp Hb Hlen Ho) as (row & r & Hres).
      apply tojson_result_inv in Hres as (Hh & Hw & _).
      split; assumption.
    + intros Hs. apply (tojson_returns p b); assumption.
  - split; apply (tojson_numpy p b); assumption.
Qed.

(** X15.  [tojson] unpacks the key points of a detection into x, y and
    visible.  On a result without class probabilities that has at least one
    detection and whose key points were built from a buffer of another
    number of channels than three (x and y only, say), it raises, for
    either value of [normalize] and whatever the masks and the data types
    are. *)
Theorem tojson_needs_keypoint_confidence p b a sh normalize :
  p_probs p = None -> p_boxes p = Some b -> Boxes_len b <> 0%nat ->
  kwell_shaped a -> p_keypoints p = Some (Keypoints_init a sh) ->
  kchannels a <> 3%nat ->
  tojson masks2segments scale_coords p normalize = None.
Proof.
  intros Hp Hb Hlen _ Hk Hd.
  destruct (tojson masks2segments scale_coords p normalize)
    as [o |] eqn:Ho; [exfalso | reflexivity].
  destruct (tojson_first_row _ _ _ _ Hp Hb Hlen Ho) as (row & r & Hres).
  apply tojson_result_inv in Hres as (_ & _ & _ & _ & _ & _ & _ & _ & H3 & _).
  destruct (H3 _ Hk) as [H3' _]. apply Hd. exact H3'.
Qed.
End ExportReturns.

Lemma tojson_divides_by_frame_size_witness :
  (is_Some (demo_tojson boxed_frame false) /\
   (is_Some (demo_tojson boxed_frame true) <->
    Boxes_len demo_boxes = 0%nat \/
    (fst (p_orig_shape boxed_frame) <> 0 /\
     snd (p_orig_shape boxed_frame) <> 0))) /\
  (demo_tojson boxed_arrays false = None /\
   demo_tojson boxed_arrays true = None).
Proof.
  assert (Hc : classes_named (as_results boxed_frame)).
  { split.
    - split; [left; reflexivity | split; [reflexivity | repeat constructor]].
    - repeat constructor; vm_compute; eexists; reflexivity. }
  split.
  - exact (tojson_divides_by_frame_size demo_masks2segments demo_scale_coords
             boxed_frame demo_boxes eq_refl eq_refl Hc eq_refl eq_refl).
  - exact (tojson_divides_by_frame_size demo_masks2segments demo_scale_coords
             boxed_arrays demo_boxes eq_refl eq_refl Hc eq_refl eq_refl).
Defined.

Lemma tojson_needs_keypoint_confidence_witness :
  demo_tojson flat_pose_frame false = None.
Proof.
  apply (tojson_needs_keypoint_confidence demo_masks2segments
           demo_scale_coords flat_pose_frame pose_boxes flat_points
           (480, 640) false);
    try reflexivity.
  - vm_compute. discriminate.
  - repeat constructor.
  - discriminate.
Defined.

(** ** Crops and exported detections *)

Lemma Boxes_iter_rows b ds :
  Boxes_iter b = Some ds ->
  Forall2 (fun d row => arr_rows (data d) = [row]) ds (arr_rows (data b)).
Proof.
  unfold Boxes_iter, Boxes_len. intros H. apply mapM_Some_1 in H.
  apply Forall2_same_length_lookup. split.
  - apply Forall2_length in H. rewrite length_seq in H. symmetry. exact H.
  - intros i d row Hd Hrow.
    destruct (Forall2_lookup_r _ _ _ _ _ H Hd) as (j & Hj & Hget).
    apply lookup_seq in Hj as [-> _]. cbn in Hget.
    apply Boxes_getitem_rows in Hget as (row' & Hrow' & Hdata).
    rewrite Hrow in Hrow'. injection Hrow' as <-. exact Hdata.
Qed.

Lemma save_crop_inv self b crops :
  probs self = None -> boxes self = Some b -> save_crop self = Some crops ->
  Forall2 (fun crop row =>
             fst crop = [take 4 row] /\
             names self !! py_int (idx_neg 1 row) = Some (snd crop))
          crops (arr_rows (data b)).
Proof.
  intros Hp Hb H. unfold save_crop in H. rewrite Hp, Hb in H.
  cbn [mbind option_bind] in H.
  apply stdpp.option.bind_Some in H as (ds & Hds & H).
  apply Boxes_iter_rows in Hds. apply mapM_Some_1 in H.
  pose proof (proj2 (Forall2_flip _ _ _) H) as H'.
  eapply Forall2_trans; [| exact H' | exact Hds].
  intros crop d row Hc Hd. unfold flip in Hc.
  unfold Boxes_cls, Boxes_xyxy in Hc. rewrite Hd in Hc. cbn [map item] in Hc.
  cbn [mbind option_bind] in Hc.
  apply stdpp.option.bind_Some in Hc as (name & Hname & Hc).
  injection Hc as <-. split; [reflexivity | exact Hname].
Qed.

Lemma jbox_pixels_one bx l :
  Forall2 Qeq (jbox_pixels (1, 1) bx) l -> Forall2 Qeq l (jbox_list bx).
Proof.
  intros H. symmetry. etransitivity; [| exact H].
  unfold jbox_list, jbox_pixels. cbn [fst snd].
  repeat constructor; symmetry; apply Qmult_1_r.
Qed.

Section CropFacts.
Variable masks2segments : list (list (list Q)) -> list (list (list Q)).
Variable scale_coords :
  nat * nat -> list (list Q) -> Z * Z -> bool -> list (list Q).

(** X16.  [save_crop] and [tojson(normalize=False)] treat a frame alike.  On
    a classification result both return without output; without class
    probabilities and without a box set both raise; and when both return,
    they list the same detections in the same order: crop i is saved under
    the name that entry i of the list carries, and its rectangle is the box
    of that entry. *)
Theorem save_crop_agrees_with_tojson p :
  (is_Some (p_probs p) ->
   save_crop (as_results p) = Some [] /\
   tojson masks2segments scale_coords p false = Some None) /\
  (p_probs p = None -> p_boxes p = None ->
   save_crop (as_results p) = None /\
   tojson masks2segments scale_coords p false = None) /\
  (forall crops rs,
     save_crop (as_results p) = Some crops ->
     tojson masks2segments scale_coords p false = Some (Some rs) ->
     length crops = length rs /\
     forall i crop r, crops !! i = Some crop -> rs !! i = Some r ->
       snd crop = j_name r /\ tensor_eq (fst crop) [jbox_list (j_box r)]).
Proof.
  split; [| split].
  - intros [pr Hp]. unfold save_crop, tojson. cbn [as_results probs].
    rewrite Hp. split; reflexivity.
  - intros Hp Hb. unfold save_crop, tojson. cbn [as_results probs boxes].
    rewrite Hp, Hb. split; reflexivity.
  - intros crops rs Hc Hj.
    apply tojson_Some_inv in Hj
      as [[_ [=]] | (Hp & _ & b & rs' & Hb & E & Hrs)].
    injection E as <-.
    apply (save_crop_inv (as_results p) b) in Hc; [| assumption | assumption].
    apply mapM_enumerate in Hrs as [Hlen Hrs].
    split.
    + apply Forall2_length in Hc. lia.
    + intros i crop r Hcrop Hr.
      destruct (Hrs i r Hr) as (row & Hrow & Hres).
      destruct (Forall2_lookup_lr _ _ _ _ _ _ Hc Hcrop Hrow) as [Hxy Hname].
      apply tojson_result_inv in Hres
        as (_ & _ & Hcls & Hn & _ & _ & _ & _ & _ & Hbox).
      split.
      * cbn [as_results names] in Hname.
        rewrite Hcls, Hname in Hn. injection Hn as ->. reflexivity.
      * rewrite Hxy. repeat constructor. apply jbox_pixels_one. exact Hbox.
Qed.
End CropFacts.

Lemma save_crop_agrees_with_tojson_witness :
  length boxed_crops = length boxed_json /\
  forall i crop r, boxed_crops !! i = Some crop -> boxed_json !! i = Some r ->
    snd crop = j_name r /\ tensor_eq (fst crop) [jbox_list (j_box r)].
Proof.
  apply (proj2 (proj2 (save_crop_agrees_with_tojson demo_masks2segments
                         demo_scale_coords boxed_frame)));
    vm_compute; reflexivity.
Defined.

(** ** The text file and the log of a classification result *)

Lemma top5_named_inv self p l :
  top5_named self p = Some l ->
  length l = Nat.min 5 (length (probs_data p)) /\
  (forall i nx, l !! i = Some nx ->
     exists j, Probs_top5 p !! i = Some j /\ snd nx = prob_at p j /\
               names self !! Z.of_nat j = Some (fst nx)) /\
  (forall i x y, l !! i = Some x -> l !! S i = Some y -> (snd y <= snd x)%Q).
Proof.
  unfold top5_named. intros H. apply mapM_Some_1 in H.
  assert (Hent : forall i nx, l !! i = Some nx ->
            exists j, Probs_top5 p !! i = Some j /\ snd nx = prob_at p j /\
                      names self !! Z.of_nat j = Some (fst nx)).
  { intros i nx Hnx.
    destruct (Forall2_lookup_r _ _ _ _ _ H Hnx) as (j & Hj & Hf).
    exists j. split; [exact Hj |].
    apply stdpp.option.bind_Some in Hf as (x & Hx & Hf).
    apply stdpp.option.bind_Some in Hf as (name & Hname & Hf).
    injection Hf as <-. cbn [fst snd].
    split; [symmetry; apply prob_at_lookup, Hx | exact Hname]. }
  split; [| split; [exact Hent |]].
  - apply Forall2_length in H. rewrite <- H. apply top5_length.
  - intros i x y Hx Hy.
    destruct (Hent _ _ Hx) as (a & Ha & -> & _).
    destruct (Hent _ _ Hy) as (b & Hb & -> & _).
    apply top5_entry in Ha as (qa & Ha & Hqa).
    apply top5_entry in Hb as (qb & Hb & Hqb).
    rewrite (prob_at_lookup _ _ _ Hqa), (prob_at_lookup _ _ _ Hqb).
    pose proof (Sorted_adjacent key_le _ _ _ _ (sort_keys_Sorted _) Ha Hb) as Hle.
    unfold key_le in Hle. cbn [snd] in Hle.
    apply Qopp_le_compat in Hle. rewrite !Qopp_involutive in Hle. exact Hle.
Qed.

Lemma top5_named_returns self p :
  (forall j, (j < length (probs_data p))%nat ->
     is_Some (names self !! Z.of_nat j)) ->
  is_Some (top5_named self p).
Proof.
  intros Hn. unfold top5_named. apply mapM_is_Some_2, Forall_lookup.
  intros i j Hj. cbn [compose].
  apply top5_entry in Hj as (q & _ & Hq). rewrite Hq.
  cbn [mbind option_bind].
  destruct (Hn j) as [name ->]; [eapply lookup_lt_Some, Hq |].
  eexists; reflexivity.
Qed.

Section ClassifyFacts.
Variable xyxy2xywh : list (list Q) -> list (list Q).
Variable masks2segments : list (list (list Q)) -> list (list (list Q)).
Variable scale_coords :
  nat * nat -> list (list Q) -> Z * Z -> bool -> list (list Q).

(** X17.  For a classification result (class probabilities, no boxes and no
    masks) on at least one class, all classes being named, [save_txt] and
    [verbose] report the same classes: the lines of the file and the entries
    of the log are the classes of [top5] in its order, each with its name
    and its probability, at most five of them, in non-increasing
    probability. *)
Theorem classification_lines_match_log p pr save_conf maps :
  p_probs p = Some pr -> p_boxes p = None -> p_masks p = None ->
  probs_data pr <> [] ->
  (forall j, (j < length (probs_data pr))%nat ->
     is_Some (p_names p !! Z.of_nat j)) ->
  exists l,
    save_txt xyxy2xywh masks2segments scale_coords p save_conf
      = Some (map (fun nx => ClassLine (snd nx) (fst nx)) l) /\
    verbose p maps = Some [TopClasses l] /\
    length l = Nat.min 5 (length (probs_data pr)) /\
    (forall i nx, l !! i = Some nx ->
       exists j, Probs_top5 pr !! i = Some j /\ snd nx = prob_at pr j /\
                 p_names p !! Z.of_nat j = Some (fst nx)) /\
    (forall i x y, l !! i = Some x -> l !! S i = Some y -> (snd y <= snd x)%Q).
Proof.
  intros Hp Hb Hm Hne Hn.
  destruct (top5_named_returns (as_results p) pr Hn) as [l Hl]. exists l.
  split; [| split; [| apply (top5_named_inv (as_results p)), Hl]].
  - unfold save_txt. rewrite Hp, Hl. reflexivity.
  - unfold verbose, Results_len. rewrite Hb, Hm, Hp.
    cbn [mbind option_bind nonempty].
    destruct (probs_data pr) as [| x v]; [contradiction |].
    cbn [length Nat.eqb]. rewrite Hl. reflexivity.
Qed.
End ClassifyFacts.

Lemma classification_lines_match_log_witness :
  exists l,
    demo_save_txt classify_frame true
      = Some (map (fun nx => ClassLine (snd nx) (fst nx)) l) /\
    verbose classify_frame None = Some [TopClasses l] /\
    length l = Nat.min 5 (length (probs_data demo_probs)) /\
    (forall i nx, l !! i = Some nx ->
       exists j, Probs_top5 demo_probs !! i = Some j /\
                 snd nx = prob_at demo_probs j /\
                 p_names classify_frame !! Z.of_nat j = Some (fst nx)) /\
    (forall i x y, l !! i = Some x -> l !! S i = Some y -> (snd y <= snd x)%Q).
Proof.
  apply (classification_lines_match_log demo_xyxy2xywh demo_masks2segments
           demo_scale_coords classify_frame demo_probs true None);
    try reflexivity.
  - discriminate.
  - intros j Hj.
    do 7 (destruct j as [| j]; [vm_compute; eexists; reflexivity |]).
    cbn in Hj. lia.
Defined.

(** ** The lines of a detection frame *)

Lemma Boxes_iter_wf b :
  wf_boxes b ->
  Boxes_iter b =
  Some (map (fun row => mkBoxes (Arr2 (length row) [row]) (is_track b)
                                (orig_shape b))
            (arr_rows (data b))).
Proof.
  intros Hwf. unfold Boxes_iter, Boxes_len. apply mapM_Some_2.
  apply Forall2_same_length_lookup. split.
  - rewrite length_seq, length_map. reflexivity.
  - intros i j d Hj Hd. apply lookup_seq in Hj as [-> _]. cbn [Nat.add].
    rewrite list_lookup_fmap in Hd. unfold Boxes_getitem.
    destruct (arr_rows (data b) !! i) as [row |] eqn:Hrow; [| discriminate].
    cbn in Hd. injection Hd as <-.
    unfold wf_boxes in Hwf. destruct (data b) as [| n rows]; [contradiction |].
    destruct Hwf as (Hn & Ht & Hrows). cbn [arr_rows] in Hrow.
    rewrite Forall_lookup in Hrows. pose proof (Hrows i row Hrow) as Hlen.
    unfold Boxes_init. cbn [ndim Nat.eqb promote shape_last].
    rewrite Hlen, Ht.
    destruct Hn as [-> | ->]; reflexivity.
Qed.

Section SaveTxtFacts.
Variable xyxy2xywh : list (list Q) -> list (list Q).
Variable masks2segments : list (list (list Q)) -> list (list (list Q)).
Variable scale_coords :
  nat * nat -> list (list Q) -> Z * Z -> bool -> list (list Q).

Lemma save_txt_line_plain p save_conf j row t sh (f : list Q -> list Q) :
  (forall u, xyxy2xywh u = map f u) ->
  p_boxes_type p = Torch ->
  has_masks (as_results p) = false -> p_keypoints p = None ->
  save_txt_line xyxy2xywh masks2segments scale_coords p save_conf j
    (mkBoxes (Arr2 (length row) [row]) t sh)
  = Some (DetLine
            (inject_Z (py_int (idx_neg 1 row))
             :: div_cols [1; 3]%nat (fst sh)
                  (div_cols [0; 2]%nat (snd sh) (f (take 4 row)))
             ++ (if save_conf then [idx_neg 2 row] else [])
             ++ (if t then [inject_Z (py_int (idx_neg 3 row))] else []))).
Proof.
  intros Hf Ht Hm Hk. unfold save_txt_line. rewrite Ht, Hm, Hk.
  unfold Boxes_cls, Boxes_conf, Boxes_id, Boxes_xywhn, Boxes_xyxy.
  rewrite Hf. cbn [data is_track orig_shape arr_rows map item concat].
  cbn [mbind option_bind torch_only]. rewrite app_nil_r.
  destruct t; cbn [mbind option_bind item]; reflexivity.
Qed.

Lemma save_txt_line_numpy p save_conf j d :
  p_boxes_type p = Numpy ->
  save_txt_line xyxy2xywh masks2segments scale_coords p save_conf j d = None.
Proof.
  intros Ht. unfold save_txt_line. rewrite Ht.
  destruct (item (Boxes_cls d)); [| reflexivity].
  destruct (item (Boxes_conf d)); [| reflexivity].
  cbn [mbind option_bind].
  destruct (Boxes_id d) as [ids |]; [| reflexivity].
  destruct (item ids); reflexivity.
Qed.

(** X18.  On a detection frame (no class probabilities, masks or key
    points) with a well-formed box set: when the box set holds a tensor,
    [save_txt] raises nothing and writes one line per detection, in the
    order of the rows, made of the class [int(cls)], the four numbers of the
    [xywhn] view of the box, then the confidence if [save_conf] is set, then
    the track id if the set is tracked; when the box set holds a NumPy
    array, which [Boxes] accepts, [save_txt] raises as soon as there is a
    detection, [view(-1)] not being a reshape of arrays, and writes nothing
    without one.  [ops.xyxy2xywh] is taken to work row by row. *)
Theorem save_txt_detection_lines p b save_conf (f : list Q -> list Q) :
  (forall u, xyxy2xywh u = map f u) ->
  p_probs p = None -> p_boxes p = Some b -> wf_boxes b ->
  has_masks (as_results p) = false -> p_keypoints p = None ->
  match p_boxes_type p with
  | Torch =>
      exists lines,
        save_txt xyxy2xywh masks2segments scale_coords p save_conf
          = Some lines /\
        length lines = Boxes_len b /\
        forall i line, lines !! i = Some line ->
          exists c box conf tail,
            Boxes_cls b !! i = Some c /\
            Boxes_xywhn xyxy2xywh b !! i = Some box /\
            Boxes_conf b !! i = Some conf /\
            match Boxes_id b with
            | Some ids =>
                exists t, ids !! i = Some t /\ tail = [inject_Z (py_int t)]
            | None => tail = []
            end /\
            line = DetLine (inject_Z (py_int c) :: box
                            ++ (if save_conf then [conf] else []) ++ tail)
  | Numpy =>
      save_txt xyxy2xywh masks2segments scale_coords p save_conf
        = if Nat.eqb (Boxes_len b) 0 then Some [] else None
  end.
Proof.
  intros Hf Hp Hb Hwf Hm Hk. destruct (p_boxes_type p) eqn:Ht.
  - set (g := fun row : list Q =>
           DetLine
             (inject_Z (py_int (idx_neg 1 row))
              :: div_cols [1; 3]%nat (fst (orig_shape b))
                   (div_cols [0; 2]%nat (snd (orig_shape b)) (f (take 4 row)))
              ++ (if save_conf then [idx_neg 2 row] else [])
              ++ (if is_track b
                  then [inject_Z (py_int (idx_neg 3 row))] else []))).
    exists (map g (arr_rows (data b))).
    split; [| split].
    + unfold save_txt. rewrite Hp, Hb. cbn [nonempty].
      destruct (Nat.eqb_spec (Boxes_len b) 0) as [H0 | _]; cbn [negb].
      * unfold Boxes_len in H0. apply length_zero_iff_nil in H0.
        rewrite H0. reflexivity.
      * cbn [mbind option_bind]. rewrite (Boxes_iter_wf b Hwf).
        cbn [mbind option_bind]. apply mapM_Some_2.
        apply Forall2_same_length_lookup. split.
        -- unfold enumerate. rewrite length_imap, !length_map. reflexivity.
        -- intros i [j d] line Hjd Hline. unfold enumerate in Hjd.
           rewrite list_lookup_imap, list_lookup_fmap in Hjd.
           rewrite list_lookup_fmap in Hline.
           destruct (arr_rows (data b) !! i) as [row |]; [| discriminate].
           cbn in Hjd, Hline. injection Hjd as <- <-. injection Hline as <-.
           cbn [fst snd]. apply (save_txt_line_plain _ _ _ _ _ _ f); assumption.
    + rewrite length_map. reflexivity.
    + intros i line Hline. rewrite list_lookup_fmap in Hline.
      destruct (arr_rows (data b) !! i) as [row |] eqn:Hrow; [| discriminate].
      cbn in Hline. injection Hline as <-.
      exists (idx_neg 1 row),
             (div_cols [1; 3]%nat (fst (orig_shape b))
                (div_cols [0; 2]%nat (snd (orig_shape b)) (f (take 4 row)))),
             (idx_neg 2 row),
             (if is_track b then [inject_Z (py_int (idx_neg 3 row))] else []).
      unfold Boxes_cls, Boxes_conf, Boxes_xywhn, Boxes_xyxy, Boxes_id.
      rewrite Hf, !list_lookup_fmap, Hrow. cbn [fmap option_fmap option_map].
      split; [reflexivity |]. split; [reflexivity |]. split; [reflexivity |].
      split; [| reflexivity].
      destruct (is_track b); [| reflexivity].
      exists (idx_neg 3 row). rewrite list_lookup_fmap, Hrow.
      split; reflexivity.
  - unfold save_txt. rewrite Hp, Hb. cbn [nonempty].
    destruct (Nat.eqb_spec (Boxes_len b) 0) as [H0 | Hn]; cbn [negb];
      [reflexivity |].
    cbn [mbind option_bind]. rewrite (Boxes_iter_wf b Hwf).
    cbn [mbind option_bind]. apply mapM_None_2.
    unfold Boxes_len in Hn. destruct (arr_rows (data b)) as [| row rows];
      [contradiction |].
    cbn [map]. unfold enumerate. cbn [imap]. left. cbn [fst snd].
    apply save_txt_line_numpy, Ht.
Qed.
End SaveTxtFacts.

Lemma save_txt_detection_lines_witness :
  (exists lines,
     demo_save_txt tracked_frame true = Some lines /\
     length lines = Boxes_len pose_boxes /\
     forall i line, lines !! i = Some line ->
       exists c box conf tail,
         Boxes_cls pose_boxes !! i = Some c /\
         Boxes_xywhn demo_xyxy2xywh pose_boxes !! i = Some box /\
         Boxes_conf pose_boxes !! i = Some conf /\
         match Boxes_id pose_boxes with
         | Some ids => exists t, ids !! i = Some t /\ tail = [inject_Z (py_int t)]
         | None => tail = []
         end /\
         line = DetLine (inject_Z (py_int c) :: box ++ [conf] ++ tail)) /\
  demo_save_txt boxed_arrays true = None.
Proof.
  split.
  - refine (save_txt_detection_lines demo_xyxy2xywh demo_masks2segments
              demo_scale_coords tracked_frame pose_boxes true _
              (fun u => eq_refl) eq_refl eq_refl _ eq_refl eq_refl).
    split; [right; reflexivity | split; [reflexivity | repeat constructor]].
  - refine (save_txt_detection_lines demo_xyxy2xywh demo_masks2segments
              demo_scale_coords boxed_arrays demo_boxes true _
              (fun u => eq_refl) eq_refl eq_refl _ eq_refl eq_refl).
    split; [left; reflexivity | split; [reflexivity | repeat constructor]].
Defined.

(** ** The counts of the log *)

Lemma insert_unique_elem x l z :
  z ∈ insert_unique x l -> z = x \/ z ∈ l.
Proof.
  induction l as [| y l IH]; cbn.
  - intros H. apply list_elem_of_singleton in H. left. exact H.
  - destruct (Qeq_bool x y); [right; assumption |].
    destruct (Qle_bool x y).
    + intros H. apply elem_of_cons in H as [-> | H]; [left | right]; auto.
    + intros H. apply elem_of_cons in H as [-> | H].
      * right. left.
      * destruct (IH H) as [-> | H']; [left; reflexivity | right; right; exact H'].
Qed.

Lemma insert_unique_keeps x l z : z ∈ l -> z ∈ insert_unique x l.
Proof.
  induction l as [| y l IH]; cbn; [intros H; inversion H |].
  destruct (Qeq_bool x y); [auto |]. destruct (Qle_bool x y).
  - intros H. right. exact H.
  - intros H. apply elem_of_cons in H as [-> | H]; [left | right; auto].
Qed.

Lemma insert_unique_has x l : Exists (Qeq x) (insert_unique x l).
Proof.
  induction l as [| y l IH]; cbn.
  - left. reflexivity.
  - destruct (Qeq_bool x y) eqn:E.
    + left. apply Qeq_bool_iff, E.
    + destruct (Qle_bool x y); [left; reflexivity | right; exact IH].
Qed.

Lemma insert_unique_sorted x l :
  StronglySorted Qlt l -> StronglySorted Qlt (insert_unique x l).
Proof.
  induction l as [| y l IH]; cbn; intros Hs.
  - repeat constructor.
  - destruct (Qeq_bool x y) eqn:E; [exact Hs |].
    assert (Hne : ~ (x == y)%Q).
    { intros H. apply Qeq_bool_iff in H. congruence. }
    apply StronglySorted_inv in Hs as [Hl Hy].
    destruct (Qle_bool x y) eqn:L.
    + apply Qle_bool_iff in L.
      assert (Hlt : (x < y)%Q).
      { apply Qle_lteq in L as [L | L]; [exact L | contradiction]. }
      constructor; [constructor; assumption |].
      constructor; [exact Hlt |].
      eapply Forall_impl; [exact Hy |]. intros z Hz. cbn in Hz.
      eapply Qlt_trans; eassumption.
    + assert (Hlt : (y < x)%Q).
      { apply Qnot_le_lt. intros H. apply Qle_bool_iff in H. congruence. }
      constructor; [apply IH, Hl |].
      apply Forall_forall. intros z Hz.
      apply insert_unique_elem in Hz as [-> | Hz]; [exact Hlt |].
      rewrite Forall_forall in Hy. apply Hy, Hz.
Qed.

Lemma unique_sorted v : StronglySorted Qlt (unique v).
Proof.
  induction v as [| x v IH]; cbn; [constructor | apply insert_unique_sorted, IH].
Qed.

Lemma unique_from v c : c ∈ unique v -> c ∈ v.
Proof.
  induction v as [| x v IH]; cbn; [auto |].
  intros H. apply insert_unique_elem in H as [-> | H]; [left | right; auto].
Qed.

Lemma unique_covers v : Forall (fun x => Exists (Qeq x) (unique v)) v.
Proof.
  induction v as [| x v IH]; cbn; constructor.
  - apply insert_unique_has.
  - eapply Forall_impl; [exact IH |]. intros z Hz. cbn in Hz.
    apply Exists_exists in Hz as (c & Hc & Hzc). apply Exists_exists.
    exists c. split; [apply insert_unique_keeps, Hc | exact Hzc].
Qed.

Lemma one_match (U : list Q) (x : Q) :
  StronglySorted Qlt U -> Exists (Qeq x) U ->
  sum_list (map (fun c => if Qeq_bool x c then 1%nat else 0%nat) U) = 1%nat.
Proof.
  induction U as [| c U IH]; intros Hs Hex; [inversion Hex |].
  apply StronglySorted_inv in Hs as [Hs Hc]. cbn [map sum_list].
  destruct (Qeq_bool x c) eqn:E.
  - apply Qeq_bool_iff in E.
    assert (H0 : sum_list (map (fun c => if Qeq_bool x c then 1%nat else 0%nat) U)
                 = 0%nat).
    { clear IH Hs Hex. induction U as [| d U IHU]; [reflexivity |].
      apply Forall_cons in Hc as [Hd Hc]. cbn [map sum_list].
      destruct (Qeq_bool x d) eqn:E'.
      - apply Qeq_bool_iff in E'. rewrite <- E, E' in Hd.
        exfalso. exact (Qlt_irrefl _ Hd).
      - rewrite (IHU Hc). reflexivity. }
    rewrite H0. reflexivity.
  - apply Exists_cons in Hex as [Hx | Hex].
    + apply Qeq_bool_iff in Hx. congruence.
    + rewrite (IH Hs Hex). reflexivity.
Qed.

Lemma sum_list_add {A} (f g : A -> nat) (l : list A) :
  sum_list (map (fun c => (f c + g c)%nat) l)
  = (sum_list (map f l) + sum_list (map g l))%nat.
Proof. induction l as [| c l IH]; simpl; [reflexivity | rewrite IH; lia]. Qed.

Lemma sum_counts (U v : list Q) :
  StronglySorted Qlt U -> Forall (fun x => Exists (Qeq x) U) v ->
  sum_list (map (fun c => count_eq c v) U) = length v.
Proof.
  intros Hs. induction v as [| x v IH]; intros Hv.
  - clear Hs Hv. induction U as [| c U IHU]; [reflexivity | exact IHU].
  - apply Forall_cons in Hv as [Hx Hv].
    transitivity (sum_list (map (fun c =>
                     ((if Qeq_bool x c then 1 else 0) + count_eq c v)%nat) U)).
    { f_equal. apply map_ext. intros c. unfold count_eq. cbn [List.filter].
      destruct (Qeq_bool x c); reflexivity. }
    rewrite sum_list_add, (one_match U x Hs Hx), (IH Hv). reflexivity.
Qed.

Lemma count_eq_pos c v : c ∈ v -> (1 <= count_eq c v)%nat.
Proof.
  unfold count_eq. induction v as [| x v IH]; intros H; [inversion H |].
  cbn [List.filter]. apply elem_of_cons in H as [<- | H].
  - assert (E : Qeq_bool c c = true) by (apply Qeq_bool_iff; reflexivity).
    rewrite E. cbn. lia.
  - destruct (Qeq_bool x c); cbn [length]; [lia | apply IH, H].
Qed.

(** X19.  On a detection frame (a box set, no class probabilities) the
    pieces of the log string of [verbose] account for every detection: the
    counts add up to the number of detections.  Without a detection the log
    is '(no detections), '; otherwise it has one piece per distinct class,
    in ascending class order, each with the name of the class, the number
    of detections of that class (at least one) and the plural 's' exactly
    on a count above one. *)
Theorem verbose_counts_detections p b maps parts :
  p_probs p = None -> p_boxes p = Some b ->
  verbose p maps = Some parts ->
  sum_list (map part_count parts) = Boxes_len b /\
  (Boxes_len b = 0%nat -> parts = [NoDetections]) /\
  (Boxes_len b <> 0%nat ->
   exists cs,
     StronglySorted Qlt cs /\
     Forall2 (fun c part =>
                exists name,
                  p_names p !! py_int c = Some name /\
                  c ∈ Boxes_cls b /\
                  (1 <= count_eq c (Boxes_cls b))%nat /\
                  part = ClassCount (count_eq c (Boxes_cls b)) name
                           (1 <? count_eq c (Boxes_cls b))%nat)
             cs parts).
Proof.
  intros Hp Hb H. unfold verbose, Results_len in H. rewrite Hp, Hb in H.
  cbn [mbind option_bind nonempty] in H.
  destruct (Nat.eqb_spec (Boxes_len b) 0) as [H0 | Hn]; cbn [negb] in H.
  - injection H as <-. split; [rewrite H0; reflexivity |].
    split; [reflexivity | contradiction].
  - cbn [mbind option_bind] in H.
    apply stdpp.option.bind_Some in H as (counts & Hc & H).
    injection H as <-. cbn [app].
    apply stdpp.option.bind_Some in Hc as (u & _ & Hc).
    apply mapM_Some_1 in Hc.
    assert (Hparts :
      Forall2 (fun c part =>
                 exists name,
                   p_names p !! py_int c = Some name /\
                   c ∈ Boxes_cls b /\
                   (1 <= count_eq c (Boxes_cls b))%nat /\
                   part = ClassCount (count_eq c (Boxes_cls b)) name
                            (1 <? count_eq c (Boxes_cls b))%nat)
              (unique (Boxes_cls b)) counts).
    { apply Forall2_same_length_lookup. split; [eapply Forall2_length, Hc |].
      intros i c part Hi Hpart.
      pose proof (Forall2_lookup_lr _ _ _ _ _ _ Hc Hi Hpart) as Hf.
      cbv zeta in Hf. apply stdpp.option.bind_Some in Hf as (name & Hname & Hf).
      injection Hf as <-. exists name.
      assert (Hin : c ∈ Boxes_cls b).
      { apply unique_from. eapply list_elem_of_lookup_2, Hi. }
      split; [exact Hname |]. split; [exact Hin |].
      split; [apply count_eq_pos, Hin | reflexivity]. }
    split; [| split; [intros H0; contradiction |
                      intros _; exists (unique (Boxes_cls b));
                      split; [apply unique_sorted | exact Hparts]]].
    transitivity (sum_list (map (fun c => count_eq c (Boxes_cls b))
                                (unique (Boxes_cls b)))).
    + clear Hc. induction Hparts as [| c part cs ps (name & _ & _ & _ & ->) _ IH];
        [reflexivity |].
      cbn [map sum_list part_count]. rewrite IH. reflexivity.
    + rewrite (sum_counts _ _ (unique_sorted _) (unique_covers _)).
      unfold Boxes_cls, Boxes_len. apply length_map.
Qed.

Lemma verbose_counts_detections_witness :
  crowd_log = [ClassCount 3 "car" true; ClassCount 1 "DCA" false] /\
  sum_list (map part_count crowd_log) = Boxes_len crowd_boxes /\
  (Boxes_len crowd_boxes = 0%nat -> crowd_log = [NoDetections]) /\
  (Boxes_len crowd_boxes <> 0%nat ->
   exists cs,
     StronglySorted Qlt cs /\
     Forall2 (fun c part =>
                exists name,
                  p_names crowd_frame !! py_int c = Some name /\
                  c ∈ Boxes_cls crowd_boxes /\
                  (1 <= count_eq c (Boxes_cls crowd_boxes))%nat /\
                  part = ClassCount (count_eq c (Boxes_cls crowd_boxes)) name
                           (1 <? count_eq c (Boxes_cls crowd_boxes))%nat)
             cs crowd_log).
Proof.
  split; [reflexivity |].
  refine (verbose_counts_detections crowd_frame crowd_boxes None crowd_log
            eq_refl eq_refl _).
  vm_compute. reflexivity.
Defined.

(** ** Exported key points *)

Lemma mask_point_hidden (p : list Q) (x y v : Q) :
  mask_point p !! 0%nat = Some x -> mask_point p !! 1%nat = Some y ->
  mask_point p !! 2%nat = Some v -> (v < 1 # 2)%Q -> x = 0%Q /\ y = 0%Q.
Proof.
  unfold mask_point.
  destruct p as [| a [| b [| c p]]]; cbn [nth];
    try (destruct (Qle_bool _ _); cbn; discriminate).
  destruct (Qle_bool (1 # 2) c) eqn:E; cbn.
  - intros _ _ [= <-] Hv. apply Qle_bool_iff in E.
    exfalso. exact (Qlt_not_le _ _ Hv E).
  - intros [= <-] [= <-] _ _. split; reflexivity.
Qed.

Lemma column_lookup (c : nat) (a : list (list Q)) (xs : list Q) :
  column c a = Some xs ->
  length xs = length a /\
  forall k x, xs !! k = Some x -> exists p, a !! k = Some p /\ p !! c = Some x.
Proof.
  unfold column. intros H. apply mapM_Some_1 in H. split.
  - symmetry. eapply Forall2_length, H.
  - intros k x Hx. destruct (Forall2_lookup_r _ _ _ _ _ H Hx) as (p & Hp & Hc).
    exists p. split; assumption.
Qed.

Section KeypointExport.
Variable masks2segments : list (list (list Q)) -> list (list (list Q)).
Variable scale_coords :
  nat * nat -> list (list Q) -> Z * Z -> bool -> list (list Q).

Lemma tojson_result_keypoints p b h w i row r xs ys vs :
  tojson_result masks2segments scale_coords p b h w i row = Some r ->
  j_keypoints r = Some (xs, ys, vs) ->
  exists kps pts0 x y,
    p_keypoints p = Some kps /\ kp_data kps !! i = Some pts0 /\
    column 0 (map mask_point pts0) = Some x /\
    column 1 (map mask_point pts0) = Some y /\
    column 2 (map mask_point pts0) = Some vs /\
    xs = div_all x w /\ ys = div_all y h.
Proof.
  unfold tojson_result. intros H Hk.
  apply stdpp.option.bind_Some in H as (r0 & _ & H).
  apply stdpp.option.bind_Some in H as (bx1 & _ & H).
  apply stdpp.option.bind_Some in H as (r1 & _ & H).
  apply stdpp.option.bind_Some in H as (by1 & _ & H).
  apply stdpp.option.bind_Some in H as (r2 & _ & H).
  apply stdpp.option.bind_Some in H as (bx2 & _ & H).
  apply stdpp.option.bind_Some in H as (r3 & _ & H).
  apply stdpp.option.bind_Some in H as (by2 & _ & H).
  apply stdpp.option.bind_Some in H as (conf & _ & H).
  apply stdpp.option.bind_Some in H as (cls & _ & H).
  cbv zeta in H.
  apply stdpp.option.bind_Some in H as (name & _ & H).
  apply stdpp.option.bind_Some in H as (track & _ & H).
  apply stdpp.option.bind_Some in H as (segs & _ & H).
  apply stdpp.option.bind_Some in H as (kpts & Ep & H).
  injection H as <-. cbn [j_keypoints] in Hk. subst kpts.
  destruct (p_keypoints p) as [kps |]; [| discriminate].
  apply stdpp.option.bind_Some in Ep as (k & Eg & Ep).
  apply stdpp.option.bind_Some in Ep as (pts & Epts & Ep).
  apply stdpp.option.bind_Some in Ep as (u & _ & Ep).
  unfold Keypoints_getitem in Eg.
  destruct (kp_data kps !! i) as [pts0 |] eqn:Ei; [| discriminate].
  injection Eg as <-.
  cbn [kp_channels kp_data Keypoints_init kchannels kpromote] in Ep, Epts.
  destruct (Nat.eqb_spec (kp_channels kps) 3) as [E3 |]; [| discriminate].
  apply stdpp.option.bind_Some in Ep as (x & Ex & Ep).
  apply stdpp.option.bind_Some in Ep as (y & Ey & Ep).
  apply stdpp.option.bind_Some in Ep as (v & Ev & Ep).
  injection Ep as <- <- <-.
  cbn in Epts. injection Epts as <-.
  exists kps, pts0, x, y. repeat (split; [first [reflexivity | assumption] |]).
  reflexivity.
Qed.

(** X20.  [tojson] indexes the key points of a detection, which runs the
    constructor of [Keypoints] and its masking again.  So in the exported
    key points the lists x, y and visible have one entry per point, and
    every point whose visible entry is below 0.5 is exported at x = 0 and
    y = 0, whatever the stored coordinates are. *)
Theorem tojson_hides_uncertain_points p normalize rs i r xs ys vs :
  tojson masks2segments scale_coords p normalize = Some (Some rs) ->
  rs !! i = Some r -> j_keypoints r = Some (xs, ys, vs) ->
  length xs = length vs /\ length ys = length vs /\
  forall k v, vs !! k = Some v -> (v < 1 # 2)%Q ->
    exists x y, xs !! k = Some x /\ ys !! k = Some y /\
                (x == 0)%Q /\ (y == 0)%Q.
Proof.
  intros H Hr Hk.
  apply tojson_Some_inv in H as [[_ [=]] | (_ & _ & b & rs' & _ & E & Hrs)].
  injection E as <-. apply mapM_enumerate in Hrs as [_ Hrs].
  destruct (Hrs i r Hr) as (row & _ & Hres).
  destruct (tojson_result_keypoints _ _ _ _ _ _ _ _ _ _ Hres Hk)
    as (kps & pts0 & x & y & _ & _ & Ex & Ey & Ev & -> & ->).
  apply column_lookup in Ex as [Lx Ex], Ey as [Ly Ey], Ev as [Lv Ev].
  unfold div_all. rewrite !length_map.
  split; [congruence |]. split; [congruence |].
  intros k v Hv Hlow.
  destruct (Ev k v Hv) as (pt & Hp & Hpv).
  destruct (lookup_lt_is_Some_2 x k) as [x0 Hx0].
  { rewrite Lx. eapply lookup_lt_Some, Hp. }
  destruct (lookup_lt_is_Some_2 y k) as [y0 Hy0].
  { rewrite Ly. eapply lookup_lt_Some, Hp. }
  destruct (Ex k x0 Hx0) as (p1 & Hp1 & Hpx).
  destruct (Ey k y0 Hy0) as (p2 & Hp2 & Hpy).
  rewrite Hp in Hp1, Hp2. injection Hp1 as <-. injection Hp2 as <-.
  rewrite list_lookup_fmap in Hp.
  destruct (pts0 !! k) as [p0 |]; [| discriminate].
  cbn in Hp. injection Hp as <-.
  destruct (mask_point_hidden p0 x0 y0 v Hpx Hpy Hpv Hlow) as [-> ->].
  exists (0 / inject_Z (snd (json_scale p normalize)))%Q,
         (0 / inject_Z (fst (json_scale p normalize)))%Q.
  rewrite !list_lookup_fmap, Hx0, Hy0.
  split; [reflexivity |]. split; [reflexivity |].
  split; unfold Qdiv; apply Qmult_0_l.
Qed.
End KeypointExport.

Lemma tojson_hides_uncertain_points_witness :
  exists r xs ys vs,
    pose_json !! 0%nat = Some r /\ j_keypoints r = Some (xs, ys, vs) /\
    vs = [9 # 10; 2 # 10]%Q /\
    length xs = length vs /\ length ys = length vs /\
    forall k v, vs !! k = Some v -> (v < 1 # 2)%Q ->
      exists x y, xs !! k = Some x /\ ys !! k = Some y /\
                  (x == 0)%Q /\ (y == 0)%Q.
Proof.
  eexists _, _, _, _. split; [reflexivity |]. split; [reflexivity |].
  split; [reflexivity |].
  refine (tojson_hides_uncertain_points demo_masks2segments demo_scale_coords
            pose_frame true pose_json 0 _ _ _ _ _ eq_refl eq_refl).
  vm_compute. reflexivity.
Defined.
